(** * yeti-set-go: the asset pipeline scripts, embedded and verified

    The development follows the three scripts:
    - [make_transparent.py]: the white-to-transparent pixel scan;
    - [asset_generator.py]: the submit / poll / post-process / persist
      workflow of [FluxAssetGenerator] and the methods that orchestrate it;
    - [download_heroicons.py]: the conversion of the icons to PNG.

    Python code that talks to the outside (HTTP, the clock, the random
    generator, the file system, Pillow) is written in a small monad over an
    explicit world: every effect is appended to a trace, and what the outside
    answers comes from an environment record indexed by how many such calls
    were made so far. *)

From Stdlib Require Import ZArith List Bool Lia String Ascii.
From Stdlib.Strings Require Import Byte.
From Stdlib Require Import PrimFloat.
From stdpp Require Import base option list gmap strings.

Set Warnings "-inexact-float,-register-all".
Local Open Scope Z_scope.

(** ** make_transparent.py *)

Module MakeTransparent.

(** A pixel of an RGBA image, as the 4-tuple [getdata] yields. *)
Definition pixel : Type := Z * Z * Z * Z.

(** What the script uses of a [PIL.Image]: its size and its flattened
    pixel data (row by row). *)
Record Image := mkImage {
  size : Z * Z;
  data : list pixel
}.

(** The test of line 26, [item[0] > 240 and item[1] > 240 and item[2] > 240]. *)
Definition is_near_white (item : pixel) : bool :=
  let '(r, g, b, _) := item in
  (240 <? r) && (240 <? g) && (240 <? b).

(** One turn of the [for item in data] loop: append to [new_data]. *)
Definition loop_body (new_data : list pixel) (item : pixel) : list pixel :=
  if is_near_white item
  then new_data ++ [(255, 255, 255, 0)]
  else new_data ++ [item].

(** Lines 23-29: [new_data = []] and the loop over [data]. *)
Definition build_new_data (data : list pixel) : list pixel :=
  fold_left loop_body data [].

(** [Image.putdata]: the sequence is copied over the image's pixels from the
    upper left corner on; pixels beyond the sequence keep their value. *)
Definition putdata (img : Image) (seq : list pixel) : Image :=
  {| size := size img;
     data := seq ++ drop (length seq) (data img) |}.

(** A call of [img.save(output_path, fmt)]. *)
Record Saved := mkSaved {
  saved_path : string;
  saved_format : string;
  saved_image : Image
}.

(** [make_transparent] from line 20 on: [img] is the image that
    [Image.open(input_path).convert("RGBA")] produced, [output_path] the
    path the first lines settled on. *)
Definition make_transparent (img : Image) (output_path : string) : Saved :=
  let data := data img in
  let new_data := build_new_data data in
  let img := putdata img new_data in
  {| saved_path := output_path; saved_format := "PNG"; saved_image := img |}.

End MakeTransparent.

(** ** asset_generator.py: data *)

Module Flux.

Inductive FluxModel := KONTEXT_PRO | KONTEXT_MAX | PRO_1_1 | PRO | DEV.

Definition model_value (m : FluxModel) : string :=
  match m with
  | KONTEXT_PRO => "flux-kontext-pro"
  | KONTEXT_MAX => "flux-kontext-max"
  | PRO_1_1 => "flux-pro-1.1"
  | PRO => "flux-pro"
  | DEV => "flux-dev"
  end.

Global Instance FluxModel_eq_dec : EqDecision FluxModel.
Proof. solve_decision. Defined.

Inductive AssetType := YETI_SPRITE | ITEM_SPRITE | ENVIRONMENT | STYLE_GUIDE.

Global Instance AssetType_eq_dec : EqDecision AssetType.
Proof. solve_decision. Defined.

(** [bytes] objects. *)
Definition bytes : Type := list byte.

Record AssetSpec := mkAssetSpec {
  name : string;
  type : AssetType;
  size : Z * Z;
  description : string;
  variations : option (list string);
  batch_group : option string;
  model : FluxModel;
  aspect_ratio : string;
  reference_image_path : option string
}.

(** Decoded JSON, as far as the two endpoints' answers are inspected. *)
Inductive Json :=
| JNull
| JNum (z : Z)
| JStr (s : string)
| JObj (fields : list (string * Json)).

(** Python exceptions the workflow can meet. *)
Inductive exn :=
| AttributeError (attribute : string)
| KeyError (key : string)
| TypeError
| JSONDecodeError
| RequestException
| FileNotFoundError (path : string)
| IsADirectoryError (path : string)
| UnidentifiedImageError
| ValueError.

(** An HTTP exchange of [requests]: the call raises, or a response comes
    back with its status code, its text, its body decoded as JSON when it
    is JSON, and its raw content. *)
Inductive Reply :=
| Fails
| Response (status_code : Z) (text : string) (json : option Json)
           (content : bytes).

(** The JSON body of a submission (lines 236-248). *)
Record PostRequest := mkPost {
  endpoint : string;
  x_key : string;
  prompt : string;
  post_aspect_ratio : string;
  safety_tolerance : Z;
  output_format : string;
  input_image : option string
}.

(** The task info [_submit_generation_request] returns. *)
Record TaskInfo := mkTask {
  id : Json;
  polling_url : Json
}.

(** Log records, one constructor per message of the source at level INFO
    or above (the level [__init__] configures). *)
Inductive LogMsg :=
| SubmittingRequest (endpoint : string)
| TaskSubmitted (id : Json)
| PollingURL (url : Json)
| RateLimitedWaiting
| InsufficientCredits
| APIError (code : Z) (text : string)
| RequestFailed (e : exn)
| FailedToDownload (code : Z)
| GenerationFailed (status : Json)
| Details (details : Json)
| InProgress (progress : Json) (now : float)
| PollingError (code : Z) (text : string)
| PollingFailed (e : exn)
| TimedOut (timeout : float)
| PostProcessingFailed (e : exn)
| Generating (filename : string)
| ModelLine (m : string)
| PromptLine (p : string)
| FailedToGenerate
| FailedToPostProcess
| SavedFile (path : string)
| NoAssetsForBatch (group : string)
| GeneratingBatch (group : string)
| BatchComplete (n : Z)
| InputImageNotFound (path : string)
| EditingImage (path : string)
| EditPrompt (p : string)
| OutputName (n : string)
| FailedToEdit
| EditedImageSaved (path : string).

(** What the program does to the outside, in the order it does it. *)
Inductive Event :=
| EvCounter (v : Z)            (* an assignment to [self.active_requests] *)
| EvPost (req : PostRequest)   (* [requests.post] *)
| EvGet (url : string)         (* [requests.get] *)
| EvTick (t : float)           (* a reading of [time.time()] *)
| EvSleep (d : float)          (* [time.sleep(d)] *)
| EvDraw (x : float)           (* a draw of [random.uniform] *)
| EvLog (msg : LogMsg)
| EvWrite (path : string) (data : bytes).

Inductive FsEntry := File (content : bytes) | Dir.

(** The mutable world: the generator's in-flight counter, the file system,
    and the trace of events, newest first. *)
Record World := mkWorld {
  active_requests : Z;
  fs : gmap string FsEntry;
  trace : list Event
}.

(** What the [PIL] calls of [post_process_image] see of an image. *)
Record Image := mkImage {
  format : option string;
  mode : string;
  img_size : Z * Z;
  raster : list (list Z)
}.

(** The outside: the transport, the clock, the random generator, and the
    library functions the workflow calls. The [k]-th call of a kind gets the
    [k]-th answer. *)
Record Env := mkEnv {
  http_post : nat -> PostRequest -> Reply;
  http_get : nat -> string -> Reply;
  clock : nat -> float;
  uniform : nat -> float -> float -> float;
  py_str : Json -> string;                      (* [str()] in an f-string *)
  b64encode : bytes -> string;
  path_stem : string -> string;                 (* [Path(p).stem] *)
  Image_open : bytes -> exn + Image;
  Image_convert : Image -> string -> exn + Image;
  Image_resize : Image -> Z * Z -> exn + Image;
  Image_sharpen : Image -> exn + Image;
  Image_save_png : Image -> exn + bytes
}.

(** *** The monad of effectful code

    A computation ends by returning, by raising, or has not ended when the
    fuel of a loop or of a recursion ran out ([Running]); the world it
    reached is kept in all three cases. *)
Inductive result (A : Type) :=
| Return (a : A)
| Raise (e : exn)
| Running.
Arguments Return {A} a.
Arguments Raise {A} e.
Arguments Running {A}.

Definition M (A : Type) : Type := World -> result A * World.

Definition ret {A} (a : A) : M A := fun w => (Return a, w).
Definition raise {A} (e : exn) : M A := fun w => (Raise e, w).
Definition running {A} : M A := fun w => (Running, w).

Definition bind {A B} (m : M A) (f : A -> M B) : M B :=
  fun w =>
    match m w with
    | (Return a, w') => f a w'
    | (Raise e, w') => (Raise e, w')
    | (Running, w') => (Running, w')
    end.

Notation "x <- m ;; k" := (bind m (fun x => k))
  (at level 100, m at next level, right associativity).
Notation "m ;;; k" := (bind m (fun _ => k))
  (at level 100, right associativity).

(** [try: body except Exception as e: handler e]. *)
Definition try_except {A} (body : M A) (handler : exn -> M A) : M A :=
  fun w =>
    match body w with
    | (Raise e, w') => handler e w'
    | other => other
    end.

(** [try: body finally: final]: [final] runs when [body] has returned or
    raised, and the outcome of [body] stands. *)
Definition try_finally {A} (body : M A) (final : M unit) : M A :=
  fun w =>
    match body w with
    | (Running, w') => (Running, w')
    | (r, w') =>
      match final w' with
      | (Return _, w'') => (r, w'')
      | (Raise e, w'') => (Raise e, w'')
      | (Running, w'') => (Running, w'')
      end
    end.

Definition lift {A} (r : exn + A) : M A :=
  match r with inl e => raise e | inr a => ret a end.

(** *** Primitive effects *)

Definition emit (ev : Event) : M unit :=
  fun w => (Return tt, {| active_requests := active_requests w;
                          fs := fs w; trace := ev :: trace w |}).

Definition log (msg : LogMsg) : M unit := emit (EvLog msg).

Definition get_active_requests : M Z := fun w => (Return (active_requests w), w).

Definition set_active_requests (v : Z) : M unit :=
  fun w => (Return tt, {| active_requests := v; fs := fs w;
                          trace := EvCounter v :: trace w |}).

Definition is_post (ev : Event) : bool :=
  match ev with EvPost _ => true | _ => false end.
Definition is_get (ev : Event) : bool :=
  match ev with EvGet _ => true | _ => false end.
Definition is_tick (ev : Event) : bool :=
  match ev with EvTick _ => true | _ => false end.
Definition is_draw (ev : Event) : bool :=
  match ev with EvDraw _ => true | _ => false end.

Fixpoint count_events (p : Event -> bool) (l : list Event) : nat :=
  match l with
  | [] => O
  | ev :: l' => if p ev then S (count_events p l') else count_events p l'
  end.

(** How many events of a kind the world has seen. *)
Definition count (p : Event -> bool) (w : World) : nat :=
  count_events p (trace w).

Definition sleep (d : float) : M unit := emit (EvSleep d).

Definition time_time (env : Env) : M float :=
  fun w => let t := clock env (count is_tick w) in
           bind (emit (EvTick t)) (fun _ => ret t) w.

Definition random_uniform (env : Env) (a b : float) : M float :=
  fun w => let x := uniform env (count is_draw w) a b in
           bind (emit (EvDraw x)) (fun _ => ret x) w.

Definition requests_post (env : Env) (req : PostRequest) : M Reply :=
  fun w => let r := http_post env (count is_post w) req in
           bind (emit (EvPost req)) (fun _ => ret r) w.

Definition requests_get (env : Env) (url : string) : M Reply :=
  fun w => let r := http_get env (count is_get w) url in
           bind (emit (EvGet url)) (fun _ => ret r) w.

(** *** JSON values as Python sees them *)

Fixpoint assoc (k : string) (l : list (string * Json)) : option Json :=
  match l with
  | [] => None
  | (k', v) :: l' => if String.eqb k k' then Some v else assoc k l'
  end.

(** [j[k]]. *)
Definition subscript (j : Json) (k : string) : M Json :=
  match j with
  | JObj fields =>
    match assoc k fields with
    | Some v => ret v
    | None => raise (KeyError k)
    end
  | _ => raise TypeError
  end.

(** [j.get(k, default)]. *)
Definition dict_get (j : Json) (k : string) (default : Json) : M Json :=
  match j with
  | JObj fields =>
    ret (match assoc k fields with Some v => v | None => default end)
  | _ => raise (AttributeError "get")
  end.

(** [k in j], for [j] a dict. *)
Definition has_key (k : string) (j : Json) : bool :=
  match j with
  | JObj fields => bool_decide (is_Some (assoc k fields))
  | _ => false
  end.

Definition truthy (j : Json) : bool :=
  match j with
  | JNull => false
  | JNum z => negb (z =? 0)
  | JStr s => negb (String.eqb s EmptyString)
  | JObj fields => negb (bool_decide (fields = []))
  end.

(** [j == s] for a string literal [s]. *)
Definition is_str (j : Json) (s : string) : bool :=
  match j with
  | JStr s' => String.eqb s' s
  | _ => false
  end.

(** [response.json()]. *)
Definition response_json (json : option Json) : M Json :=
  match json with
  | Some j => ret j
  | None => raise JSONDecodeError
  end.

(** Truth value of an [Optional[str]] and of [bytes]. *)
Definition truthy_str (s : option string) : bool :=
  match s with
  | Some s => negb (String.eqb s EmptyString)
  | None => false
  end.

Definition truthy_bytes (b : option bytes) : bool :=
  match b with
  | Some (_ :: _) => true
  | _ => false
  end.

(** *** The file system *)

Definition os_path_exists (path : string) : M bool :=
  fun w => (Return (bool_decide (is_Some (fs w !! path))), w).

(** [open(path, "rb").read()]. *)
Definition read_file (path : string) : M bytes :=
  fun w =>
    match fs w !! path with
    | Some (File content) => (Return content, w)
    | Some Dir => (Raise (IsADirectoryError path), w)
    | None => (Raise (FileNotFoundError path), w)
    end.

(** [with open(path, "wb") as f: f.write(data)]. Of the ways [open] can
    fail, the one the file system of the model can show is kept: a
    directory in the place of the file. The other ones (a missing parent
    directory, no permission, a full disk) raise in the same place and are
    not told apart here. *)
Definition write_file (path : string) (data : bytes) : M unit :=
  fun w =>
    match fs w !! path with
    | Some Dir => (Raise (IsADirectoryError path), w)
    | _ => (Return tt, {| active_requests := active_requests w;
                          fs := <[path := File data]> (fs w);
                          trace := EvWrite path data :: trace w |})
    end.

(** *** FluxAssetGenerator *)

(** The attributes of the instance that the modelled methods read. *)
Record Generator := mkGenerator {
  api_key : string;
  base_url : string;
  output_dir : string;
  max_concurrent_requests : Z;
  max_concurrent_kontext_max : Z;
  asset_specs : list AssetSpec
}.

Definition base_urls : list (string * string) :=
  [("global", "https://api.bfl.ai");
   ("eu", "https://api.eu.bfl.ai");
   ("us", "https://api.us.bfl.ai")]%string.

Fixpoint lookup_url (region : string) (l : list (string * string)) : option string :=
  match l with
  | [] => None
  | (k, v) :: l' => if String.eqb region k then Some v else lookup_url region l'
  end.

(** [__init__], with [_load_asset_specs] passed in as [specs]. *)
Definition __init__ (api_key region : string) (specs : list AssetSpec) : Generator :=
  {| api_key := api_key;
     base_url := match lookup_url region base_urls with
                 | Some u => u
                 | None => "https://api.bfl.ai"
                 end;
     output_dir := "generated_assets";
     max_concurrent_requests := 24;
     max_concurrent_kontext_max := 6;
     asset_specs := specs |}.

(** The world [__init__] leaves: no request in flight, the output directory
    made. *)
Definition init_world (files : gmap string FsEntry) : World :=
  {| active_requests := 0;
     fs := <["generated_assets"%string := Dir]> files;
     trace := [] |}.

(** The value of an attribute, as far as an f-string shows it: the strings
    and numbers the record above carries, and objects. *)
Inductive PyVal :=
| VStr (s : string)
| VInt (z : Z)
| VObject.

(** The [__dict__] of the instance: every name [__init__] binds (lines
    52-112), in order. No other method binds a name on [self]. *)
Definition instance_dict (g : Generator) : gmap string PyVal :=
  list_to_map
    [("api_key", VStr (api_key g));
     ("base_urls", VObject);
     ("base_url", VStr (base_url g));
     ("output_dir", VStr (output_dir g));
     ("max_concurrent_requests", VInt (max_concurrent_requests g));
     ("max_concurrent_kontext_max", VInt (max_concurrent_kontext_max g));
     ("active_requests", VObject);
     ("logger", VObject);
     ("brand_colors", VObject);
     ("yeti_style", VObject);
     ("icon_style", VObject);
     ("environment_style", VObject);
     ("asset_specs", VObject)]%string.

(** Every name the class body binds: its methods. *)
Definition class_attributes : list string :=
  ["__init__"; "_load_asset_specs"; "_encode_image_to_base64";
   "_wait_for_rate_limit"; "_submit_generation_request"; "_poll_for_result";
   "_build_prompt"; "_build_item_prompt"; "_build_yeti_prompt";
   "_build_environment_prompt"; "generate_image"; "post_process_image";
   "generate_asset"; "generate_style_guide_first"; "generate_batch";
   "_generate_animation_sequence_simplified"; "generate_all_improved";
   "generate_yeti_animation_only"; "generate_item_icons_only";
   "setup_style_guide_references"; "edit_image"; "remove_background";
   "batch_remove_backgrounds"; "interactive_edit_session";
   "interactive_review"]%string.

(** [self.<attribute>]: looked up on the instance, then on the class;
    [AttributeError] when neither binds the name. *)
Definition getattr (g : Generator) (attribute : string) : M PyVal :=
  match instance_dict g !! attribute with
  | Some v => ret v
  | None =>
    if bool_decide (attribute ∈ class_attributes) then ret VObject
    else raise (AttributeError attribute)
  end.

(** A value inside an f-string. *)
Definition py_format (env : Env) (v : PyVal) : string :=
  match v with
  | VStr s => s
  | VInt z => py_str env (JNum z)
  | VObject => "<object>"
  end.

Definition _encode_image_to_base64 (env : Env) (image_path : string) : M string :=
  content <- read_file image_path ;;
  ret (b64encode env content).

(** The ceiling [_wait_for_rate_limit] compares against. *)
Definition max_requests (g : Generator) (model : FluxModel) : Z :=
  if decide (model = KONTEXT_MAX)
  then max_concurrent_kontext_max g
  else max_concurrent_requests g.

(** [while self.active_requests >= max_requests: time.sleep(1)]. *)
Fixpoint wait_loop (fuel : nat) (max_requests : Z) : M unit :=
  fun w =>
    if max_requests <=? active_requests w then
      match fuel with
      | O => (Running, w)
      | S fuel' => (sleep 1 ;;; wait_loop fuel' max_requests) w
      end
    else (Return tt, w).

Definition _wait_for_rate_limit (fuel : nat) (g : Generator) (model : FluxModel)
  : M unit :=
  wait_loop fuel (max_requests g model).

Definition build_request (g : Generator) (prompt : string) (model : FluxModel)
    (aspect_ratio : string) (reference_image : option string) : PostRequest :=
  {| endpoint := base_url g +:+ "/v1/" +:+ model_value model;
     x_key := api_key g;
     prompt := prompt;
     post_aspect_ratio := aspect_ratio;
     safety_tolerance := 2;
     output_format := "png";
     input_image :=
       if truthy_str reference_image
          && bool_decide (model ∈ [KONTEXT_PRO; KONTEXT_MAX])
       then reference_image else None |}.

(** What the 200 branch of a submission does with the response (lines
    257-264). *)
Definition read_task_info (env : Env) (g : Generator) (json : option Json)
  : M (option TaskInfo) :=
  result <- response_json json ;;
  id <- subscript result "id" ;;
  log (TaskSubmitted id) ;;;
  polling_url <- dict_get result "polling_url" JNull ;;
  polling_url <-
    (if truthy polling_url then ret polling_url
     else id <- subscript result "id" ;;
          ret (JStr (base_url g +:+ "/v1/get_result?id=" +:+ py_str env id))) ;;
  log (PollingURL polling_url) ;;;
  id <- subscript result "id" ;;
  ret (Some {| id := id; polling_url := polling_url |}).

(** [_submit_generation_request]; [fuel] bounds the depth of the recursion
    on 429 and the turns of the wait loop. *)
Fixpoint _submit_generation_request (fuel : nat) (env : Env) (g : Generator)
    (prompt : string) (model : FluxModel) (aspect_ratio : string)
    (reference_image : option string) : M (option TaskInfo) :=
  match fuel with
  | O => running
  | S fuel' =>
    _wait_for_rate_limit fuel' g model ;;;
    n <- get_active_requests ;;
    set_active_requests (n + 1) ;;;
    try_finally
      (try_except
         (let req := build_request g prompt model aspect_ratio reference_image in
          log (SubmittingRequest (endpoint req)) ;;;
          response <- requests_post env req ;;
          match response with
          | Fails => raise RequestException
          | Response status_code text json _ =>
            if status_code =? 200 then read_task_info env g json
            else if status_code =? 429 then
              log RateLimitedWaiting ;;;
              d <- random_uniform env 5 15 ;;
              sleep d ;;;
              _submit_generation_request fuel' env g prompt model aspect_ratio
                reference_image
            else if status_code =? 402 then
              log InsufficientCredits ;;; ret None
            else
              log (APIError status_code text) ;;; ret None
          end)
         (fun e => log (RequestFailed e) ;;; ret None))
      (n <- get_active_requests ;; set_active_requests (n - 1))
  end.

(** [min(a, b)] of Python: the first argument unless the second is smaller. *)
Definition py_min (a b : float) : float :=
  if PrimFloat.ltb b a then b else a.

(** Line 323: [wait_time = min(wait_time * 1.2, 15)]. The integers 2 and 15
    of the source are the floats of the same value: they only meet floats. *)
Definition next_wait_time (wait_time : float) : float :=
  py_min (PrimFloat.mul wait_time 1.2) 15.

(** How one turn of the poll loop ends: a [return], or the next turn with
    its [wait_time]. *)
Inductive LoopCtl :=
| Stop (r : option bytes)
| Continue (wait_time : float).

(** [requests.get(url)] for a [url] taken out of JSON. *)
Definition requests_get_json (env : Env) (url : Json) : M Reply :=
  match url with
  | JStr u => requests_get env u
  | _ => raise RequestException
  end.

(** Lines 301-311: status [Ready]. *)
Definition download_result (env : Env) (result : Json) : M LoopCtl :=
  r <- subscript result "result" ;;
  image_url <- subscript r "sample" ;;
  img_response <- requests_get_json env image_url ;;
  match img_response with
  | Fails => raise RequestException
  | Response status_code _ _ content =>
    if status_code =? 200 then ret (Stop (Some content))
    else log (FailedToDownload status_code) ;;; ret (Stop None)
  end.

(** The body of the [while] of [_poll_for_result] (lines 292-334). *)
Definition poll_body (env : Env) (task_info : TaskInfo) (wait_time : float)
  : M LoopCtl :=
  try_except
    (response <- requests_get_json env (polling_url task_info) ;;
     match response with
     | Fails => raise RequestException
     | Response status_code text json _ =>
       if status_code =? 200 then
         result <- response_json json ;;
         status <- dict_get result "status" JNull ;;
         if is_str status "Ready" then download_result env result
         else if is_str status "Error" || is_str status "Content Moderated" then
           log (GenerationFailed status) ;;;
           (if has_key "details" result
            then details <- subscript result "details" ;; log (Details details)
            else ret tt) ;;;
           ret (Stop None)
         else if is_str status "Pending" then
           progress <- dict_get result "progress" (JNum 0) ;;
           now <- time_time env ;;
           log (InProgress progress now) ;;;
           sleep wait_time ;;;
           ret (Continue (next_wait_time wait_time))
         else ret (Continue wait_time)
       else
         log (PollingError status_code text) ;;;
         log (PollingURL (polling_url task_info)) ;;;
         ret (Stop None)
     end)
    (fun e => log (PollingFailed e) ;;; ret (Stop None)).

(** [while time.time() - start_time < timeout: ...], then the timeout. *)
Fixpoint poll_loop (fuel : nat) (env : Env) (task_info : TaskInfo)
    (timeout start_time wait_time : float) : M (option bytes) :=
  now <- time_time env ;;
  if PrimFloat.ltb (PrimFloat.sub now start_time) timeout then
    match fuel with
    | O => running
    | S fuel' =>
      ctl <- poll_body env task_info wait_time ;;
      match ctl with
      | Stop r => ret r
      | Continue wait_time' =>
        poll_loop fuel' env task_info timeout start_time wait_time'
      end
    end
  else
    log (TimedOut timeout) ;;; ret None.

Definition _poll_for_result (fuel : nat) (env : Env) (task_info : TaskInfo)
    (timeout : float) : M (option bytes) :=
  start_time <- time_time env ;;
  poll_loop fuel env task_info timeout start_time 2.

(** [_build_prompt]. *)
Definition _build_prompt (spec : AssetSpec) (variation : option string)
  : M string :=
  let with_variation (prompt : string) : string :=
    match variation with
    | Some v => if truthy_str variation then prompt +:+ ", " +:+ v else prompt
    | None => prompt
    end in
  match type spec with
  | ITEM_SPRITE => ret (with_variation (description spec))
  | YETI_SPRITE =>
    has_reference <-
      (match reference_image_path spec with
       | Some path =>
         if truthy_str (reference_image_path spec) then os_path_exists path
         else ret false
       | None => ret false
       end) ;;
    let prompt :=
      if has_reference : bool then description spec
      else description spec
           +:+ ", white and blue fur, friendly cartoon style, clean pixel art" in
    ret (with_variation prompt)
  | STYLE_GUIDE => ret (description spec)
  | ENVIRONMENT =>
    ret (description spec +:+ ", pixel art style, clean minimal design")
  end.

(** [generate_image]; the poll runs with its default timeout of 300. *)
Definition generate_image (fuel : nat) (env : Env) (g : Generator)
    (prompt : string) (model : FluxModel) (aspect_ratio : string)
    (reference_image : option string) : M (option bytes) :=
  task_info <- _submit_generation_request fuel env g prompt model aspect_ratio
                 reference_image ;;
  match task_info with
  | None => ret None
  | Some task_info => _poll_for_result fuel env task_info 300
  end.

(** [post_process_image]. *)
Definition post_process_image (env : Env) (image_data : bytes)
    (target_size : Z * Z) : M (option bytes) :=
  try_except
    (img <- lift (Image_open env image_data) ;;
     img <- (if String.eqb (mode img) "RGBA" then ret img
             else lift (Image_convert env img "RGBA")) ;;
     img <- lift (Image_resize env img target_size) ;;
     img <- (if (fst target_size <=? 64) && (snd target_size <=? 64)
             then lift (Image_sharpen env img)
             else ret img) ;;
     output <- lift (Image_save_png env img) ;;
     ret (Some output))
    (fun e => log (PostProcessingFailed e) ;;; ret None).

Definition asset_filename (spec : AssetSpec) (variation : option string) : string :=
  name spec
  +:+ (match variation with
       | Some v => if truthy_str variation then "_" +:+ v else EmptyString
       | None => EmptyString
       end)
  +:+ ".png".

(** Lines 484-494 of [generate_asset]: the prompt and the reference image. *)
Definition asset_inputs (env : Env) (spec : AssetSpec)
    (variation : option string) : M (string * option string) :=
  prompt <- _build_prompt spec variation ;;
  reference_image <-
    (match reference_image_path spec with
     | Some path =>
       if truthy_str (reference_image_path spec) then
         ex <- os_path_exists path ;;
         if ex : bool then b64 <- _encode_image_to_base64 env path ;; ret (Some b64)
         else ret None
       else ret None
     | None => ret None
     end) ;;
  log (Generating (asset_filename spec variation)) ;;;
  log (ModelLine (model_value (model spec))) ;;;
  log (PromptLine prompt) ;;;
  ret (prompt, reference_image).

(** Lines 500-516 of [generate_asset]: from [if not image_data] on. *)
Definition finish_asset (env : Env) (g : Generator) (spec : AssetSpec)
    (variation : option string) (image_data : option bytes) : M bool :=
  if truthy_bytes image_data then
    processed_data <-
      post_process_image env (default [] image_data) (size spec) ;;
    if truthy_bytes processed_data then
      let filepath := output_dir g +:+ "/" +:+ asset_filename spec variation in
      write_file filepath (default [] processed_data) ;;;
      log (SavedFile filepath) ;;;
      ret true
    else log FailedToPostProcess ;;; ret false
  else log FailedToGenerate ;;; ret false.

(** [generate_asset]. *)
Definition generate_asset (fuel : nat) (env : Env) (g : Generator)
    (spec : AssetSpec) (variation : option string) : M bool :=
  inputs <- asset_inputs env spec variation ;;
  image_data <- generate_image fuel env g inputs.1 (model spec)
                  (aspect_ratio spec) inputs.2 ;;
  finish_asset env g spec variation image_data.

(** The inner [for variation in spec.variations] of [generate_batch]. *)
Fixpoint for_variations (fuel : nat) (env : Env) (g : Generator)
    (spec : AssetSpec) (vs : list string) (success_count : Z) : M Z :=
  match vs with
  | [] => ret success_count
  | variation :: vs' =>
    ok <- generate_asset fuel env g spec (Some variation) ;;
    let success_count := if ok : bool then success_count + 1 else success_count in
    sleep 3 ;;;
    for_variations fuel env g spec vs' success_count
  end.

(** The [for spec in batch_specs] of [generate_batch]. *)
Fixpoint for_specs (fuel : nat) (env : Env) (g : Generator)
    (specs : list AssetSpec) (success_count : Z) : M Z :=
  match specs with
  | [] => ret success_count
  | spec :: specs' =>
    success_count <-
      (match variations spec with
       | Some (v :: vs) => for_variations fuel env g spec (v :: vs) success_count
       | _ =>
         ok <- generate_asset fuel env g spec None ;;
         let success_count := if ok : bool then success_count + 1 else success_count in
         sleep 3 ;;; ret success_count
       end) ;;
    for_specs fuel env g specs' success_count
  end.

(** [generate_batch]. *)
Definition generate_batch (fuel : nat) (env : Env) (g : Generator)
    (group : string) : M bool :=
  let batch_specs :=
    filter (fun spec => batch_group spec = Some group) (asset_specs g) in
  match batch_specs with
  | [] => log (NoAssetsForBatch group) ;;; ret false
  | _ =>
    log (GeneratingBatch group) ;;;
    if String.eqb group "yeti_run" then
      getattr g "_generate_animation_sequence" ;;;
      (* no method of that name exists: the call is never reached *)
      raise TypeError
    else
      success_count <- for_specs fuel env g batch_specs 0 ;;
      log (BatchComplete success_count) ;;;
      ret (0 <? success_count)
  end.

(** [edit_image]. *)
Definition edit_image (fuel : nat) (env : Env) (g : Generator)
    (input_image_path edit_prompt : string) (output_name : option string)
    (model : FluxModel) : M bool :=
  ex <- os_path_exists input_image_path ;;
  if negb ex then log (InputImageNotFound input_image_path) ;;; ret false
  else
    input_image_b64 <- _encode_image_to_base64 env input_image_path ;;
    style_base <- getattr g "style_base" ;;
    let full_prompt := edit_prompt +:+ ", " +:+ py_format env style_base in
    let output_name :=
      match output_name with
      | None => path_stem env input_image_path +:+ "_edited"
      | Some n => n
      end in
    log (EditingImage input_image_path) ;;;
    log (EditPrompt full_prompt) ;;;
    log (OutputName output_name) ;;;
    image_data <- generate_image fuel env g full_prompt model "1:1"
                    (Some input_image_b64) ;;
    match image_data with
    | Some (b :: image_data') =>
      let output_path := output_dir g +:+ "/" +:+ output_name +:+ ".png" in
      write_file output_path (b :: image_data') ;;;
      log (EditedImageSaved output_path) ;;;
      ret true
    | _ => log FailedToEdit ;;; ret false
    end.

(** [_load_asset_specs]: the catalog of lines 116-204. *)
Definition spec_with (name : string) (type : AssetType) (size : Z * Z)
    (description : string) (batch_group : option string) (model : FluxModel)
    (aspect_ratio : string) : AssetSpec :=
  {| name := name; type := type; size := size; description := description;
     variations := None; batch_group := batch_group; model := model;
     aspect_ratio := aspect_ratio; reference_image_path := None |}.

Definition _load_asset_specs : list AssetSpec :=
  [ spec_with "style_reference" STYLE_GUIDE (512, 512)
      "Cute yeti character for 2D endless runner game, white and blue fur, friendly cartoon face, simple clean art style, facing right, standing neutral pose"
      None PRO_1_1 "1:1";
    spec_with "yeti_run_frame1_left_foot_forward_no_bg" YETI_SPRITE (60, 60)
      "A single cute yeti character running, left foot forward, right arm extended back, left arm forward, animated sprite style, transparent colorless png background, matching the exact art style of the reference image, 2D cartoon illustration, simple shading, friendly expression, running pose frame 1"
      (Some "yeti"%string) KONTEXT_PRO "1:1";
    spec_with "yeti_run_frame3_both_feet_contact_no_bg" YETI_SPRITE (60, 60)
      "A single cute yeti character running, right foot forward, left arm extended back, right arm forward, animated sprite style, transparent colorless png background, matching the exact art style of the reference image, 2D cartoon illustration, simple shading, friendly expression, running pose frame 2"
      (Some "yeti"%string) KONTEXT_PRO "1:1";
    spec_with "yeti_jump_no_bg" YETI_SPRITE (60, 60)
      "Same yeti character, jumping pose, both legs tucked up"
      (Some "yeti"%string) KONTEXT_PRO "1:1";
    spec_with "yeti_cheer_no_bg" YETI_SPRITE (60, 60)
      "Same yeti character, celebration pose, both arms raised high"
      (Some "yeti"%string) KONTEXT_PRO "1:1";
    spec_with "yeti_stumble_no_bg" YETI_SPRITE (60, 60)
      "Same yeti character, single yeti, transform from happy facial expression to sad, a little dazed, wobbly pose, stars circling head"
      (Some "yeti"%string) KONTEXT_PRO "1:1";
    spec_with "pipeline_track" ENVIRONMENT (128, 32)
      "horizontal CI/CD pipeline conveyor belt track, pixel art style, industrial metal texture with subtle repeating pattern"
      None KONTEXT_PRO "4:1";
    spec_with "background" ENVIRONMENT (480, 320)
      "minimal cloud infrastructure background, soft gradient, simple design"
      None KONTEXT_PRO "3:2";
    spec_with "ui_frame" ENVIRONMENT (160, 32)
      "clean UI frame for progress counter, rounded corners, minimal design"
      None KONTEXT_PRO "4:1" ]%string.

(** ** A scripted outside, for running the workflow on concrete inputs *)

Module Mock.

(** A stand-in for Pillow that keeps what the workflow looks at: the mode
    and the size. An image is stored as the four bytes [P], mode, width,
    height; only RGB and RGBA images of sides 1..255 can be stored. *)
Definition mode_tag (mode : string) : option byte :=
  if String.eqb mode "RGBA" then Some x01
  else if String.eqb mode "RGB" then Some x02
  else None.

Definition tag_mode (b : byte) : option string :=
  match b with
  | x01 => Some "RGBA"%string
  | x02 => Some "RGB"%string
  | _ => None
  end.

Definition side_byte (n : Z) : option byte :=
  if (0 <? n) && (n <=? 255) then Byte.of_N (Z.to_N n) else None.

Definition save_png (img : Image) : exn + bytes :=
  match mode_tag (mode img), side_byte (img_size img).1, side_byte (img_size img).2 with
  | Some t, Some bw, Some bh => inr [x50; t; bw; bh]
  | _, _, _ => inl ValueError
  end.

Definition open (data : bytes) : exn + Image :=
  match data with
  | [x50; t; bw; bh] =>
    match tag_mode t with
    | Some m =>
      inr {| format := Some "PNG"%string; mode := m;
             img_size := (Z.of_N (Byte.to_N bw), Z.of_N (Byte.to_N bh));
             raster := [] |}
    | None => inl UnidentifiedImageError
    end
  | _ => inl UnidentifiedImageError
  end.

Definition convert (img : Image) (m : string) : exn + Image :=
  inr {| format := None; mode := m; img_size := img_size img;
         raster := raster img |}.

Definition resize (img : Image) (target : Z * Z) : exn + Image :=
  if (0 <? target.1) && (0 <? target.2)
  then inr {| format := None; mode := mode img; img_size := target;
              raster := [] |}
  else inl ValueError.

Definition sharpen (img : Image) : exn + Image :=
  inr {| format := None; mode := mode img; img_size := img_size img;
         raster := raster img |}.

Definition str (j : Json) : string :=
  match j with
  | JStr s => s
  | JNull => "None"
  | JNum _ => "0"
  | JObj _ => "{}"
  end.

(** The environment with a scripted transport and clock. *)
Definition env (post : nat -> PostRequest -> Reply)
    (get : nat -> string -> Reply) (clock : nat -> float) : Env :=
  {| http_post := post;
     http_get := get;
     clock := clock;
     uniform := fun _ a _ => a;
     py_str := str;
     b64encode := fun _ => "aW1hZ2U=";
     path_stem := fun p => p;
     Image_open := open;
     Image_convert := convert;
     Image_resize := resize;
     Image_sharpen := sharpen;
     Image_save_png := save_png |}.

Definition json_reply (code : Z) (fields : list (string * Json)) : Reply :=
  Response code "{...}" (Some (JObj fields)) [].

(** Replies of the submission endpoint. *)
Definition accepted : Reply := json_reply 200 [("id"%string, JStr "job-1")].
Definition rate_limited : Reply := Response 429 "Too Many Requests" None [].
Definition no_credits : Reply := Response 402 "Payment Required" None [].

(** Replies of the polling endpoint. *)
Definition status_reply (status : string) : Reply :=
  json_reply 200 [("status"%string, JStr status)].
Definition ready : Reply :=
  json_reply 200 [("status"%string, JStr "Ready");
                  ("result"%string, JObj [("sample"%string, JStr "https://delivery/img.png")])].

(** A 2x2 RGB image, as the mock Pillow stores it. *)
Definition rgb_2x2 : bytes := [x50; x02; x02; x02].
Definition image_reply : Reply := Response 200 EmptyString None rgb_2x2.

(** The transport of the retry scenario: 429 for the first [n] submissions,
    then 200. *)
Definition busy_then_accepted (n : nat) : nat -> PostRequest -> Reply :=
  fun k _ => if (k <? n)%nat then rate_limited else accepted.

Definition never_polled : nat -> string -> Reply := fun _ _ => Fails.
Definition frozen_clock : nat -> float := fun _ => 0%float.

(** Polling transports and clocks. *)
Definition always (r : Reply) : nat -> string -> Reply := fun _ _ => r.
Definition no_submission : nat -> PostRequest -> Reply := fun _ _ => Fails.

(** A clock that advances by 100 seconds per reading up to 300. *)
Definition coarse_clock : nat -> float :=
  fun k =>
    match k with
    | 0%nat => 0%float
    | 1%nat => 100%float
    | 2%nat => 200%float
    | _ => 300%float
    end.

Definition task : TaskInfo :=
  {| id := JStr "job-1";
     polling_url := JStr "https://api.bfl.ai/v1/get_result?id=job-1" |}.

(** The polling transport of a job that is ready at once: every poll is
    answered [Ready], every download with the image. *)
Definition ready_at_once : nat -> string -> Reply :=
  fun k _ => if Nat.even k then ready else image_reply.

(** The submission transport of an account without credits. *)
Definition out_of_credits : nat -> PostRequest -> Reply := fun _ _ => no_credits.

Definition g : Generator := __init__ "key" "global" _load_asset_specs.

Definition yeti_jump : AssetSpec :=
  spec_with "yeti_jump_no_bg" YETI_SPRITE (60, 60)
    "Same yeti character, jumping pose, both legs tucked up"
    (Some "yeti"%string) KONTEXT_PRO "1:1".

End Mock.

End Flux.

(** ** More scripted replies *)

Module Scripts.
Import Flux.

(** The service is down. *)
Definition server_error : Reply := Response 500 "Internal Server Error" None [].

(** A 200 whose body carries the polling URL to use. *)
Definition accepted_with_url : Reply :=
  Mock.json_reply 200
    [("id"%string, JStr "job-2");
     ("polling_url"%string, JStr "https://api.eu.bfl.ai/v1/get_result?id=job-2")].

(** A 200 whose body has no [id]. *)
Definition accepted_without_id : Reply :=
  Mock.json_reply 200 [("status"%string, JStr "queued")].

Definition post_always (r : Reply) : nat -> PostRequest -> Reply := fun _ _ => r.

(** A clock that stands at 0, then at 1 for ever. *)
Definition slow_clock : nat -> float :=
  fun k => match k with O => 0%float | _ => 1%float end.

(** The job is ready, the delivery link is dead. *)
Definition ready_but_gone : nat -> string -> Reply :=
  fun k _ => if Nat.even k then Mock.ready
             else Response 404 "Not Found" None [].

Definition moderated : Reply :=
  Mock.json_reply 200
    [("status"%string, JStr "Content Moderated");
     ("details"%string, JStr "flagged")].

(** A catalog with an asset in the batch group the animation branch of
    [generate_batch] is written for. *)
Definition g_run : Generator :=
  __init__ "key" "global"
    [spec_with "yeti_run" YETI_SPRITE (60, 60) "Same yeti character, running"
       (Some "yeti_run"%string) KONTEXT_PRO "1:1"].

End Scripts.



(** ** Python strings and paths *)

Module PyStr.

(** [sub in s]. *)
Fixpoint contains (sub s : string) : bool :=
  String.prefix sub s
  || match s with
     | EmptyString => false
     | String _ s' => contains sub s'
     end.

(** [s.rfind(c)] for a one-character [c]: the index of its last occurrence,
    -1 when there is none. [i] is the index of the head of [s], [found] the
    last occurrence before it. *)
Fixpoint rfind_from (c : ascii) (s : string) (i found : Z) : Z :=
  match s with
  | EmptyString => found
  | String a s' => rfind_from c s' (i + 1) (if Ascii.eqb a c then i else found)
  end.

Definition rfind (c : ascii) (s : string) : Z := rfind_from c s 0 (-1).

(** The slices [p[:k]] and [p[k:]]. *)
Definition slice_to (k : nat) (p : string) : string := String.substring 0 k p.
Definition slice_from (k : nat) (p : string) : string :=
  String.substring k (String.length p - k) p.

(** The [while filenameIndex < dotIndex] of [genericpath._splitext]; [turns]
    is [dotIndex - filenameIndex]. *)
Fixpoint skip_leading_dots (p : string) (extsep : ascii) (dotIndex : Z)
    (filenameIndex : Z) (turns : nat) : string * string :=
  match turns with
  | O => (p, EmptyString)
  | S turns' =>
    if negb (bool_decide (String.get (Z.to_nat filenameIndex) p = Some extsep))
    then (slice_to (Z.to_nat dotIndex) p, slice_from (Z.to_nat dotIndex) p)
    else skip_leading_dots p extsep dotIndex (filenameIndex + 1) turns'
  end.

(** [genericpath._splitext(p, sep, None, extsep)]. *)
Definition _splitext (p : string) (sep extsep : ascii) : string * string :=
  let sepIndex := rfind sep p in
  let dotIndex := rfind extsep p in
  if sepIndex <? dotIndex then
    let filenameIndex := sepIndex + 1 in
    skip_leading_dots p extsep dotIndex filenameIndex
      (Z.to_nat (dotIndex - filenameIndex))
  else (p, EmptyString).

(** [os.path.splitext] of [posixpath]. *)
Definition splitext (p : string) : string * string := _splitext p "/" ".".

End PyStr.

(** ** make_transparent.py: the script around the pixel scan *)

Module TransparentScript.
Import MakeTransparent.

(** Lines 12-14 of [make_transparent]. *)
Definition resolve_output (input_path : string) (output_path : option string)
  : string :=
  match output_path with
  | None =>
    let '(name, ext) := PyStr.splitext input_path in
    name +:+ "_transparent" +:+ ext
  | Some output_path => output_path
  end.

(** What the script prints. *)
Inductive Printed :=
| Converted (input_path output_path : string)
| NoYetiFiles
| FoundFiles (n : nat)
| Done.                        (* the two closing lines *)

(** The image files, each as the RGBA raster that opening and converting it
    gives, and the lines printed so far, newest first. *)
Record State := mkState {
  files : gmap string Image;
  printed : list Printed
}.

(** [make_transparent(input_path, output_path)], whole: [None] when
    [Image.open] raises because there is no such file. *)
Definition make_transparent_file (input_path : string)
    (output_path : option string) (st : State) : option State :=
  let output_path := resolve_output input_path output_path in
  match files st !! input_path with
  | None => None
  | Some img =>
    let saved := make_transparent img output_path in
    Some {| files := <[saved_path saved := saved_image saved]> (files st);
            printed := Converted input_path output_path :: printed st |}
  end.

(** The [for file_path in yeti_files] of [main]. *)
Fixpoint for_files (yeti_files : list string) (st : State) : option State :=
  match yeti_files with
  | [] => Some st
  | file_path :: rest =>
    if negb (PyStr.contains "_transparent" file_path) then
      match make_transparent_file file_path None st with
      | Some st' => for_files rest st'
      | None => None
      end
    else for_files rest st
  end.

Definition print (line : Printed) (st : State) : State :=
  {| files := files st; printed := line :: printed st |}.

(** [main], given what [glob.glob("generated_assets/yeti_*.png")] returned. *)
Definition main (yeti_files : list string) (st : State) : option State :=
  match yeti_files with
  | [] => Some (print NoYetiFiles st)
  | _ =>
    match for_files yeti_files (print (FoundFiles (length yeti_files)) st) with
    | Some st' => Some (print Done st')
    | None => None
    end
  end.

End TransparentScript.

(** ** asset_generator.py: more of the orchestration *)

Module Orchestration.
Import Flux.

(** The log lines of the methods of this module. *)
Inductive Note :=
| ImageNotFound (path : string)
| RemovingBackground (path : string)
| BackgroundRemovalPrompt (prompt : string)
| FailedToRemoveBackground
| FailedToPostProcessRemoved
| BackgroundRemoved (image_path output_path : string)
| BackgroundRemovalFailed (e : exn)
| GeneratingFrame1
| FailedFrame1
| GeneratingFrame2
| FailedFrame2
| AnimationComplete
| StyleGuideNotFound
| FoundStyleGuide (path : string)
| SettingUpReferences
| SetStyleReference (name : string)
| ItemSpriteTextOnly (name : string)
| NoStyleGuideFound
| OutputDirectoryNotFound (path : string)
| NoPngFiles
| NoFilesToProcess
| ProcessingImages (n : nat)
| RemovalComplete (success_count total : nat).

(** The world of [Flux], and beside it the lines these methods log, newest
    first. *)
Record State := mkState {
  world : World;
  notes : list Note
}.

Definition O (A : Type) : Type := State -> result A * State.

Definition retO {A} (a : A) : O A := fun st => (Return a, st).

Definition bindO {A B} (m : O A) (f : A -> O B) : O B :=
  fun st =>
    match m st with
    | (Return a, st') => f a st'
    | (Raise e, st') => (Raise e, st')
    | (Running, st') => (Running, st')
    end.

Notation "x <~ m ;; k" := (bindO m (fun x => k))
  (at level 100, m at next level, right associativity).
Notation "m ;;~ k" := (bindO m (fun _ => k))
  (at level 100, right associativity).

(** A method of [Flux] run from here. *)
Definition call {A} (m : M A) : O A :=
  fun st =>
    let '(r, w) := m (world st) in
    (r, {| world := w; notes := notes st |}).

Definition note (n : Note) : O unit :=
  fun st => (Return tt, {| world := world st; notes := n :: notes st |}).

(** [try: body except Exception as e: handler e]. *)
Definition try_exceptO {A} (body : O A) (handler : exn -> O A) : O A :=
  fun st =>
    match body st with
    | (Raise e, st') => handler e st'
    | other => other
    end.

(** What [pathlib] computes for [remove_background]: the suffix of a path,
    and [str(Path(p).parent / name)]. *)
Record Pathlib := mkPathlib {
  path_suffix : string -> string;
  path_sibling : string -> string -> string
}.

Definition bg_removal_prompt : string :=
  "Remove the background completely, make it transparent, keep only the main subject, PNG format with alpha channel, isolated subject on transparent background".

(** [remove_background]. *)
Definition remove_background (fuel : nat) (env : Env) (pathlib : Pathlib)
    (g : Generator) (image_path : string) (output_path : option string)
  : O bool :=
  ex <~ call (os_path_exists image_path) ;;
  if negb ex then note (ImageNotFound image_path) ;;~ retO false
  else
    try_exceptO
      (input_image_b64 <~ call (_encode_image_to_base64 env image_path) ;;
       content <~ call (read_file image_path) ;;
       img <~ call (lift (Image_open env content)) ;;
       let original_size := img_size img in
       let output_path :=
         match output_path with
         | None =>
           path_sibling pathlib image_path
             (path_stem env image_path +:+ "_no_bg"
              +:+ path_suffix pathlib image_path)
         | Some output_path => output_path
         end in
       note (RemovingBackground image_path) ;;~
       note (BackgroundRemovalPrompt bg_removal_prompt) ;;~
       processed_image_data <~
         call (generate_image fuel env g bg_removal_prompt KONTEXT_PRO "1:1"
                 (Some input_image_b64)) ;;
       if negb (truthy_bytes processed_image_data) then
         note FailedToRemoveBackground ;;~ retO false
       else
         final_data <~
           call (post_process_image env (default [] processed_image_data)
                   original_size) ;;
         if negb (truthy_bytes final_data) then
           note FailedToPostProcessRemoved ;;~ retO false
         else
           call (write_file output_path (default [] final_data)) ;;~
           note (BackgroundRemoved image_path output_path) ;;~
           retO true)
      (fun e => note (BackgroundRemovalFailed e) ;;~ retO false).

(** The specs [_generate_animation_sequence_simplified] builds. *)
Definition frame_spec (g : Generator) (name description : string) : AssetSpec :=
  {| name := name; type := YETI_SPRITE; size := (60, 60);
     description := description; variations := None; batch_group := None;
     model := KONTEXT_PRO; aspect_ratio := "1:1";
     reference_image_path := Some (output_dir g +:+ "/style_reference.png") |}.

Definition frame1_spec (g : Generator) : AssetSpec :=
  frame_spec g "yeti_run_frame1_left_foot_forward_no_bg"
    "A single cute yeti character running, left foot forward, right arm extended back, left arm forward, animated sprite style, transparent colorless png background, matching the exact art style of the reference image, 2D cartoon illustration, simple shading, friendly expression, running pose frame 1".

Definition frame2_spec (g : Generator) : AssetSpec :=
  frame_spec g "yeti_run_frame3_both_feet_contact_no_bg"
    "A single cute yeti character running, right foot forward, left arm extended back, right arm forward, animated sprite style, transparent colorless png background, matching the exact art style of the reference image, 2D cartoon illustration, simple shading, friendly expression, running pose frame 2".

(** [_generate_animation_sequence_simplified]. *)
Definition _generate_animation_sequence_simplified (fuel : nat) (env : Env)
    (g : Generator) : O bool :=
  note GeneratingFrame1 ;;~
  ok <~ call (generate_asset fuel env g (frame1_spec g) None) ;;
  if negb ok then note FailedFrame1 ;;~ retO false
  else
    call (sleep 3) ;;~
    note GeneratingFrame2 ;;~
    ok <~ call (generate_asset fuel env g (frame2_spec g) None) ;;
    if negb ok then note FailedFrame2 ;;~ retO false
    else note AnimationComplete ;;~ retO true.

(** [generate_yeti_animation_only]. *)
Definition generate_yeti_animation_only (fuel : nat) (env : Env)
    (g : Generator) : O bool :=
  ex <~ call (os_path_exists (output_dir g +:+ "/style_reference.png")) ;;
  if negb ex then note StyleGuideNotFound ;;~ retO false
  else _generate_animation_sequence_simplified fuel env g.

(** What [setup_style_guide_references] does to one spec of the catalog. *)
Definition with_style_reference (style_guide_path : string) (spec : AssetSpec)
  : AssetSpec :=
  match type spec with
  | YETI_SPRITE =>
    {| name := name spec; type := type spec; size := size spec;
       description := description spec; variations := variations spec;
       batch_group := batch_group spec; model := KONTEXT_PRO;
       aspect_ratio := aspect_ratio spec;
       reference_image_path := Some style_guide_path |}
  | ITEM_SPRITE =>
    {| name := name spec; type := type spec; size := size spec;
       description := description spec; variations := variations spec;
       batch_group := batch_group spec; model := PRO_1_1;
       aspect_ratio := aspect_ratio spec;
       reference_image_path := None |}
  | _ => spec
  end.

(** The [for asset_spec in self.asset_specs] of
    [setup_style_guide_references]: the specs as the loop leaves them. *)
Fixpoint set_references (style_guide_path : string) (specs : list AssetSpec)
  : O (list AssetSpec) :=
  match specs with
  | [] => retO []
  | asset_spec :: rest =>
    (match type asset_spec with
     | YETI_SPRITE => note (SetStyleReference (name asset_spec))
     | ITEM_SPRITE => note (ItemSpriteTextOnly (name asset_spec))
     | _ => retO tt
     end) ;;~
    rest' <~ set_references style_guide_path rest ;;
    retO (with_style_reference style_guide_path asset_spec :: rest')
  end.

(** [setup_style_guide_references]: its answer, and the generator with the
    catalog as the method leaves it. *)
Definition setup_style_guide_references (g : Generator) : O (bool * Generator) :=
  let style_guide_path := output_dir g +:+ "/style_reference.png" in
  ex <~ call (os_path_exists style_guide_path) ;;
  if ex : bool then
    note (FoundStyleGuide style_guide_path) ;;~
    note SettingUpReferences ;;~
    specs <~ set_references style_guide_path (asset_specs g) ;;
    retO (true,
          {| api_key := api_key g; base_url := base_url g;
             output_dir := output_dir g;
             max_concurrent_requests := max_concurrent_requests g;
             max_concurrent_kontext_max := max_concurrent_kontext_max g;
             asset_specs := specs |})
  else note NoStyleGuideFound ;;~ retO (false, g).

(** The [for png_file in files_to_process] of [batch_remove_backgrounds]. *)
Fixpoint for_png_files (fuel : nat) (env : Env) (pathlib : Pathlib)
    (g : Generator) (files : list string) (success_count : nat) : O nat :=
  match files with
  | [] => retO success_count
  | png_file :: rest =>
    let output_path :=
      path_sibling pathlib png_file
        (path_stem env png_file +:+ "_no_bg"
         +:+ path_suffix pathlib png_file) in
    ok <~ remove_background fuel env pathlib g png_file (Some output_path) ;;
    let success_count :=
      if ok : bool then S success_count else success_count in
    call (sleep 3) ;;~
    for_png_files fuel env pathlib g rest success_count
  end.

(** The files [batch_remove_backgrounds] works on: those whose stem has no
    [_no_bg] in it. *)
Definition files_to_process (env : Env) (png_files : list string)
  : list string :=
  List.filter (fun f => negb (PyStr.contains "_no_bg" (path_stem env f)))
    png_files.

(** [batch_remove_backgrounds]; [glob_png] is what
    [self.output_dir.glob("*.png")] lists in a world. *)
Definition batch_remove_backgrounds (fuel : nat) (env : Env)
    (pathlib : Pathlib) (glob_png : World -> list string) (g : Generator)
  : O nat :=
  ex <~ call (os_path_exists (output_dir g)) ;;
  if negb ex then
    note (OutputDirectoryNotFound (output_dir g)) ;;~ retO 0%nat
  else
    png_files <~ call (fun w => (Return (glob_png w), w)) ;;
    match png_files with
    | [] => note NoPngFiles ;;~ retO 0%nat
    | _ :: _ =>
      match files_to_process env png_files with
      | [] => note NoFilesToProcess ;;~ retO 0%nat
      | _ :: _ =>
        let files := files_to_process env png_files in
        note (ProcessingImages (length files)) ;;~
        success_count <~ for_png_files fuel env pathlib g files 0 ;;
        note (RemovalComplete success_count (length files)) ;;~
        retO success_count
      end
    end.

End Orchestration.

Module OrchestrationScripts.
Import Flux Orchestration.

(** A stand-in for [pathlib] on paths of the form [dir/name.png]. *)
Definition pathlib : Pathlib :=
  {| path_suffix := fun _ => ".png";
     path_sibling := fun _ name => "generated_assets/" +:+ name |}.

(** The world with a style guide in the output directory. *)
Definition with_style_guide : State :=
  {| world := init_world
                {["generated_assets/style_reference.png"%string
                  := File Mock.rgb_2x2]};
     notes := [] |}.

(** The same, with the place of the result taken by a directory. *)
Definition with_blocked_result : State :=
  {| world := init_world
                {["generated_assets/style_reference.png"%string
                  := File Mock.rgb_2x2;
                  "generated_assets/out.png"%string := Dir]};
     notes := [] |}.

(** The generator of the examples once the style guide is its reference. *)
Definition after_setup : Generator :=
  match (setup_style_guide_references Mock.g with_style_guide).1 with
  | Return (_, g') => g'
  | _ => Mock.g
  end.

(** The jumping yeti of the catalog after the set-up. *)
Definition yeti_jump_referenced : AssetSpec :=
  with_style_reference "generated_assets/style_reference.png" Mock.yeti_jump.

(** The output directory with the style guide and an image already
    processed. *)
Definition with_two_images : State :=
  {| world := init_world
                {["generated_assets"%string := Dir;
                  "generated_assets/style_reference.png"%string
                  := File Mock.rgb_2x2;
                  "generated_assets/yeti_no_bg.png"%string
                  := File Mock.rgb_2x2]};
     notes := [] |}.

(** A stand-in for the listing of the PNG files of that directory. *)
Definition glob_png : World -> list string :=
  fun _ => ["generated_assets/style_reference.png"%string;
            "generated_assets/yeti_no_bg.png"%string].

End OrchestrationScripts.

(** ** download_heroicons.py *)

Module Heroicons.

(** The exceptions the script meets. *)
Inductive exn :=
| FileNotFoundError               (* the program to run is not there *)
| Exception (msg : string)
| ValueError
| IsADirectoryError (path : string)
| SaveError.                      (* Pillow cannot encode the image *)

(** The two converters [convert_svgs_to_png] shells out to. *)
Inductive Tool := rsvg_convert | inkscape.

(** What [subprocess.run] meets: the program is missing, or it ran and
    left a return code and its standard error. *)
Inductive Outcome :=
| NotInstalled
| Exited (returncode : Z) (stderr : string).

Inductive Entry := File (content : list byte) | Dir.

(** What the script prints. *)
Inductive Line :=
| NoSvgFiles
| Skipping (svg_name : string)
| Converted (svg_name png_name : string)
| NoConverter (svg_name : string)
| CreatedSquare (svg_name png_name : string)
| ErrorConverting (svg_name : string) (e : exn)
| ConversionComplete (directory : string).

(** The files, the lines printed and the programs run (with the SVG and
    the PNG they were given), newest first. *)
Record World := mkWorld {
  fs : gmap string Entry;
  printed : list Line;
  ran : list (Tool * string * string)
}.

(** What lies outside the script: a run of a converter on the files,
    [Path.with_suffix('.png')] and [Path.name] on paths, the PNG encoding
    of a square of one colour, and what Pillow has written of a PNG when
    the encoding fails. *)
Record Env := mkEnv {
  run_tool : Tool -> Z -> string -> string -> gmap string Entry
             -> Outcome * gmap string Entry;
  with_suffix_png : string -> string;
  path_name : string -> string;
  square_png : Z -> Z * Z * Z * Z -> list byte;
  partial_png : list byte
}.

Definition H (A : Type) : Type := World -> (exn + A) * World.

Definition ret {A} (a : A) : H A := fun w => (inr a, w).
Definition raise {A} (e : exn) : H A := fun w => (inl e, w).

Definition bind {A B} (m : H A) (f : A -> H B) : H B :=
  fun w =>
    match m w with
    | (inr a, w') => f a w'
    | (inl e, w') => (inl e, w')
    end.

Notation "x <~ m ;; k" := (bind m (fun x => k))
  (at level 100, m at next level, right associativity).
Notation "m ;;~ k" := (bind m (fun _ => k))
  (at level 100, right associativity).

(** [try: body except FileNotFoundError: handler]. *)
Definition try_except_FileNotFoundError {A} (body handler : H A) : H A :=
  fun w =>
    match body w with
    | (inl FileNotFoundError, w') => handler w'
    | other => other
    end.

(** [try: body except Exception as e: handler e]. *)
Definition try_except {A} (body : H A) (handler : exn -> H A) : H A :=
  fun w =>
    match body w with
    | (inl e, w') => handler e w'
    | other => other
    end.

Definition print (line : Line) : H unit :=
  fun w => (inr tt, {| fs := fs w; printed := line :: printed w;
                       ran := ran w |}).

(** [path.exists()]. *)
Definition path_exists (path : string) : H bool :=
  fun w => (inr (bool_decide (is_Some (fs w !! path))), w).

(** [subprocess.run([tool, ...], capture_output=True, text=True)]: the
    return code and the standard error of the run. *)
Definition subprocess_run (env : Env) (tool : Tool) (size : Z)
    (svg_file png_file : string) : H (Z * string) :=
  fun w =>
    let '(outcome, files) := run_tool env tool size svg_file png_file (fs w) in
    let w' := {| fs := files; printed := printed w;
                 ran := (tool, svg_file, png_file) :: ran w |} in
    match outcome with
    | NotInstalled => (inl FileNotFoundError, w')
    | Exited returncode stderr => (inr (returncode, stderr), w')
    end.

(** [Image.new('RGBA', (size, size), color)]: the image as the pair of its
    side and its colour. A negative side is refused. *)
Definition Image_new (size : Z) (color : Z * Z * Z * Z)
  : H (Z * (Z * Z * Z * Z)) :=
  if size <? 0 then raise ValueError else ret (size, color).

(** [img.save(png_file)]: Pillow opens the file for writing, which fails on
    a directory, and encodes the image into it. An empty image (side 0) is
    not encoded: the call raises, a file that [save] had created is
    removed again, and a file that was there before is left with what had
    been written. *)
Definition Image_save (env : Env) (img : Z * (Z * Z * Z * Z))
    (png_file : string) : H unit :=
  fun w =>
    match fs w !! png_file with
    | Some Dir => (inl (IsADirectoryError png_file), w)
    | found =>
      if img.1 =? 0 then
        (inl SaveError,
         match found with
         | Some _ =>
           {| fs := <[png_file := File (partial_png env)]> (fs w);
              printed := printed w; ran := ran w |}
         | None => w
         end)
      else
        (inr tt,
         {| fs := <[png_file := File (square_png env img.1 img.2)]> (fs w);
            printed := printed w; ran := ran w |})
    end.

(** The words that mark a good item. *)
Definition success_words : list string :=
  ["ci_pass"; "pr_merged"; "deploy_success"; "code_review"; "tests_pass"].

(** [any(word in s for word in [...])]. *)
Definition any_success_word (s : string) : bool :=
  existsb (fun word => PyStr.contains word s) success_words.

(** The colour of the fallback square (lines 72-75). *)
Definition square_color (svg_name : string) : Z * Z * Z :=
  if any_success_word svg_name then (34, 197, 94) else (239, 68, 68).

(** The colour [download_heroicons] paints an item with (lines 158-161). *)
Definition item_color (game_item : string) : string :=
  if any_success_word game_item then "#22C55E" else "#EF4444".

(** The body of the loop of [convert_svgs_to_png]. *)
Definition convert_one (env : Env) (size : Z) (svg_file : string) : H unit :=
  try_except
    (let png_file := with_suffix_png env svg_file in
     ex <~ path_exists png_file ;;
     if ex : bool then print (Skipping (path_name env svg_file))
     else
       try_except_FileNotFoundError
         (result <~ subprocess_run env rsvg_convert size svg_file png_file ;;
          if result.1 =? 0 then
            print (Converted (path_name env svg_file) (path_name env png_file))
          else raise (Exception ("rsvg-convert failed: " +:+ result.2)))
         (try_except_FileNotFoundError
            (result <~ subprocess_run env inkscape size svg_file png_file ;;
             if result.1 =? 0 then
               print (Converted (path_name env svg_file)
                        (path_name env png_file))
             else raise (Exception ("inkscape failed: " +:+ result.2)))
            (print (NoConverter (path_name env svg_file)) ;;~
             let '(r, g, b) := square_color (path_name env svg_file) in
             img <~ Image_new size (r, g, b, 255) ;;
             Image_save env img png_file ;;~
             print (CreatedSquare (path_name env svg_file)
                      (path_name env png_file)))))
    (fun e => print (ErrorConverting (path_name env svg_file) e)).

(** [for svg_file in svg_files]. *)
Fixpoint for_svg_files (env : Env) (size : Z) (svg_files : list string)
  : H unit :=
  match svg_files with
  | [] => ret tt
  | svg_file :: rest =>
    convert_one env size svg_file ;;~ for_svg_files env size rest
  end.

(** [convert_svgs_to_png(directory, size)]; [glob_svg] is what
    [directory.glob("*.svg")] lists. *)
Definition convert_svgs_to_png (env : Env)
    (glob_svg : gmap string Entry -> list string) (directory : string)
    (size : Z) : H unit :=
  fun w =>
    let svg_files := glob_svg (fs w) in
    match svg_files with
    | [] => print NoSvgFiles w
    | _ :: _ =>
      (for_svg_files env size svg_files ;;~
       print (ConversionComplete directory)) w
    end.

End Heroicons.

(** Stand-ins for the surroundings of [convert_svgs_to_png]. *)
Module HeroiconsScripts.
Import Heroicons.

(** [with_suffix('.png')] on paths that end in [.svg]. *)
Definition svg_to_png (path : string) : string :=
  PyStr.slice_to (String.length path - 4) path +:+ ".png".

(** [Path.name] on paths below [generated_assets]. *)
Definition last_part (path : string) : string :=
  PyStr.slice_from 17 path.

Definition png_header (size : Z) (color : Z * Z * Z * Z) : list byte :=
  [Byte.x89; Byte.x50; Byte.x4e; Byte.x47].

(** A machine with neither converter. *)
Definition no_converter : Env :=
  {| run_tool := fun _ _ _ _ files => (NotInstalled, files);
     with_suffix_png := svg_to_png;
     path_name := last_part;
     square_png := png_header;
     partial_png := [] |}.

(** A machine whose [rsvg-convert] fails, and whose [inkscape] would do. *)
Definition failing_rsvg : Env :=
  {| run_tool := fun tool _ _ png_file files =>
       match tool with
       | rsvg_convert => (Exited 1 "cannot load", files)
       | inkscape => (Exited 0 EmptyString, <[png_file := File []]> files)
       end;
     with_suffix_png := svg_to_png;
     path_name := last_part;
     square_png := png_header;
     partial_png := [] |}.

Definition two_icons : World :=
  {| fs := {["generated_assets/item_ci_pass.svg"%string := File [];
             "generated_assets/item_ci_fail.svg"%string := File [];
             "generated_assets/item_ci_fail.png"%string := File []]};
     printed := []; ran := [] |}.

Definition glob_svg : gmap string Entry -> list string :=
  fun _ => ["generated_assets/item_ci_pass.svg"%string;
            "generated_assets/item_ci_fail.svg"%string].

End HeroiconsScripts.

(** ** make_transparent.py: the pixel scan *)

Module MakeTransparentProofs.
Import MakeTransparent.

(** The pixel map the claim describes. *)
Definition whiten (item : pixel) : pixel :=
  if is_near_white item then (255, 255, 255, 0) else item.

Lemma loop_body_whiten (acc : list pixel) (item : pixel) :
  loop_body acc item = acc ++ [whiten item].
Proof. unfold loop_body, whiten. by destruct (is_near_white item). Qed.

Lemma fold_loop_body (l acc : list pixel) :
  fold_left loop_body l acc = acc ++ map whiten l.
Proof.
  revert acc. induction l as [|item l IH]; intros acc; simpl.
  - by rewrite app_nil_r.
  - rewrite IH, loop_body_whiten, <- app_assoc. done.
Qed.

Lemma build_new_data_map (l : list pixel) : build_new_data l = map whiten l.
Proof. unfold build_new_data. by rewrite fold_loop_body. Qed.

Lemma putdata_full (img : Image) (seq : list pixel) :
  length seq = length (data img) -> data (putdata img seq) = seq.
Proof.
  intros Hlen. unfold putdata; simpl.
  rewrite Hlen, drop_all. apply app_nil_r.
Qed.

Lemma is_near_white_spec (r g b a : Z) :
  is_near_white (r, g, b, a) = true <-> 240 < r /\ 240 < g /\ 240 < b.
Proof.
  unfold is_near_white. rewrite !andb_true_iff, !Z.ltb_lt. tauto.
Qed.

(** C10: [make_transparent] maps every pixel of the RGBA-converted input on
    its own: a pixel whose red, green and blue are all above 240 becomes
    [(255, 255, 255, 0)], any other pixel is kept; the image that is saved has
    the size of the input, as many pixels, and is written as PNG. *)
Theorem make_transparent_pixelwise (img : Image) (output_path : string) :
  let out := make_transparent img output_path in
  saved_format out = "PNG"%string /\
  saved_path out = output_path /\
  size (saved_image out) = size img /\
  length (data (saved_image out)) = length (data img) /\
  (forall i : nat,
     data (saved_image out) !! i =
     (fun item : pixel =>
        let '(r, g, b, a) := item in
        if (240 <? r) && (240 <? g) && (240 <? b)
        then (255, 255, 255, 0) else item) <$> (data img !! i)).
Proof.
  intros out. subst out. unfold make_transparent. simpl saved_format.
  simpl saved_path. simpl saved_image.
  assert (Hd : data (putdata img (build_new_data (data img)))
               = map whiten (data img)).
  { rewrite putdata_full; rewrite build_new_data_map; [done|].
    by rewrite length_map. }
  rewrite Hd. repeat split.
  - by rewrite length_map.
  - intros i. rewrite list_lookup_fmap.
    destruct (data img !! i) as [[[[r g] b] a]|]; done.
Qed.

End MakeTransparentProofs.

Module FluxProofs.
Import Flux.

(** ** Properties of the submitter *)

Lemma wait_loop_free (fuel : nat) (ceiling : Z) (w : World) :
  active_requests w < ceiling ->
  wait_loop fuel ceiling w = (Return tt, w).
Proof.
  intros Hlt. destruct fuel; simpl;
    by rewrite (proj2 (Z.leb_gt ceiling (active_requests w)) Hlt).
Qed.

(** With the counter at the ceiling and nobody else to lower it, the wait
    loop sleeps for as long as it is given fuel. *)
Lemma wait_loop_stuck (fuel : nat) (ceiling : Z) (w : World) :
  ceiling <= active_requests w ->
  exists w', wait_loop fuel ceiling w = (Running, w')
             /\ active_requests w' = active_requests w
             /\ fs w' = fs w
             /\ count is_post w' = count is_post w.
Proof.
  revert w. induction fuel as [|fuel IH]; intros w Hge; simpl;
    rewrite (proj2 (Z.leb_le ceiling (active_requests w)) Hge).
  - by exists w.
  - unfold bind, sleep, emit.
    destruct (IH {| active_requests := active_requests w; fs := fs w;
                    trace := EvSleep 1 :: trace w |}) as (w' & -> & ? & ? & ?);
      [done|].
    by exists w'.
Qed.

(** C2: a submission answered with HTTP 402 returns [None] at once. The
    events of the call are: the counter goes up, the request is logged and
    posted once, "Insufficient credits" is logged, the counter goes down;
    there is no sleep, no draw and no second POST. *)
Theorem submit_402_fails_without_retry
    (fuel : nat) (env : Env) (g : Generator) (prompt : string)
    (model : FluxModel) (aspect_ratio : string) (reference_image : option string)
    (w : World) (text : string) (json : option Json) (content : bytes) :
  active_requests w < max_requests g model ->
  http_post env (count is_post w)
    (build_request g prompt model aspect_ratio reference_image)
  = Response 402 text json content ->
  let req := build_request g prompt model aspect_ratio reference_image in
  let out := _submit_generation_request (S fuel) env g prompt model aspect_ratio
               reference_image w in
  out.1 = Return None /\
  trace out.2 =
    [EvCounter (active_requests w + 1 - 1);
     EvLog InsufficientCredits;
     EvPost req;
     EvLog (SubmittingRequest (endpoint req));
     EvCounter (active_requests w + 1)] ++ trace w /\
  count is_post out.2 = S (count is_post w) /\
  active_requests out.2 = active_requests w /\
  fs out.2 = fs w.
Proof.
  intros Hfree Hreply req out.
  assert (Hout : out =
    (Return None,
     {| active_requests := active_requests w + 1 - 1;
        fs := fs w;
        trace := [EvCounter (active_requests w + 1 - 1);
                  EvLog InsufficientCredits;
                  EvPost req;
                  EvLog (SubmittingRequest (endpoint req));
                  EvCounter (active_requests w + 1)] ++ trace w |})).
  { subst out req. cbn [_submit_generation_request].
    unfold _wait_for_rate_limit, bind at 1.
    rewrite (wait_loop_free _ _ _ Hfree).
    unfold bind, try_finally, try_except, get_active_requests,
      set_active_requests, log, emit, requests_post, ret.
    unfold count in *. simpl. rewrite Hreply. reflexivity. }
  rewrite Hout. unfold count. simpl. repeat split; try done. lia.
Qed.

Lemma submit_402_fails_without_retry_witness :
  let env := Mock.env Mock.out_of_credits Mock.never_polled Mock.frozen_clock in
  let w := init_world ∅ in
  let req := build_request Mock.g "a yeti" KONTEXT_PRO "1:1" None in
  let out := _submit_generation_request 1 env Mock.g "a yeti" KONTEXT_PRO "1:1"
               None w in
  out.1 = Return None /\
  trace out.2 =
    [EvCounter (active_requests w + 1 - 1);
     EvLog InsufficientCredits;
     EvPost req;
     EvLog (SubmittingRequest (endpoint req));
     EvCounter (active_requests w + 1)] ++ trace w /\
  count is_post out.2 = S (count is_post w) /\
  active_requests out.2 = active_requests w /\
  fs out.2 = fs w.
Proof.
  apply (submit_402_fails_without_retry 0
           (Mock.env Mock.out_of_credits Mock.never_polled Mock.frozen_clock)
           Mock.g "a yeti" KONTEXT_PRO "1:1" None (init_world ∅)
           "Payment Required" None []).
  - unfold Mock.g, max_requests; simpl. lia.
  - reflexivity.
Defined.

(** Unfolding of the effectful primitives. *)
Ltac run_step :=
  unfold bind, try_finally, try_except, get_active_requests,
    set_active_requests, log, sleep, emit, requests_post, requests_get,
    random_uniform, time_time, ret, raise, running, lift, count in *;
  cbn [active_requests fs trace count_events is_post is_get is_tick is_draw
       fst snd] in *.
Ltac run := repeat progress run_step.

Section Starvation.
Context (env : Env) (g : Generator) (prompt : string) (model : FluxModel)
        (aspect_ratio : string) (reference_image : option string).

Let req := build_request g prompt model aspect_ratio reference_image.
Let submit fuel := _submit_generation_request fuel env g prompt model
                     aspect_ratio reference_image.

Definition is_429 (r : Reply) : Prop :=
  exists text json content, r = Response 429 text json content.

(** Every nested retry holds its slot of the counter while the next one
    waits for a free slot: once the transport has answered 429 as many
    times as there were free slots, the next attempt waits for ever, and
    no further POST is issued. *)
Lemma submit_starves (k : nat) : forall (fuel : nat) (w : World),
  active_requests w + Z.of_nat k = max_requests g model ->
  (forall i : nat, (i < k)%nat ->
     is_429 (http_post env (count is_post w + i) req)) ->
  exists w', submit fuel w = (Running, w') /\
             (count is_post w' <= count is_post w + k)%nat /\
             active_requests w <= active_requests w'.
Proof.
  induction k as [|k IH]; intros fuel w Hslots Hreplies.
  - destruct fuel as [|fuel]; [exists w; split; [done|lia]|].
    subst submit. cbn [_submit_generation_request].
    unfold _wait_for_rate_limit, bind at 1.
    destruct (wait_loop_stuck fuel (max_requests g model) w) as
      (w' & -> & Hact & _ & Hposts); [lia|].
    exists w'. split; [done|lia].
  - destruct fuel as [|fuel]; [exists w; split; [done|lia]|].
    destruct (Hreplies O) as (text & json & content & Hreply); [lia|].
    rewrite Nat.add_0_r in Hreply.
    subst submit. cbn [_submit_generation_request].
    unfold _wait_for_rate_limit, bind at 1.
    rewrite wait_loop_free by lia.
    run. fold req. rewrite Hreply. cbn [Z.eqb Pos.eqb].
    match goal with
    | |- context [_submit_generation_request fuel env g prompt model
                    aspect_ratio reference_image ?w2] =>
      destruct (IH fuel w2) as (w3 & -> & Hposts & Hact)
    end.
    { run. lia. }
    { intros i Hi. run.
      replace (S (count_events is_post (trace w)) + i)%nat
        with (count_events is_post (trace w) + S i)%nat by lia.
      apply Hreplies. lia. }
    run.
    exists w3. split; [done|lia].
Qed.
End Starvation.

(** The handle of lines 260-264. *)
Definition handle_of (env : Env) (g : Generator)
    (fields : list (string * Json)) (id : Json) : TaskInfo :=
  let polling_url :=
    match assoc "polling_url" fields with Some v => v | None => JNull end in
  {| id := id;
     polling_url :=
       if truthy polling_url then polling_url
       else JStr (base_url g +:+ "/v1/get_result?id=" +:+ py_str env id) |}.

Lemma read_task_info_ok (env : Env) (g : Generator)
    (fields : list (string * Json)) (id : Json) (w : World) :
  assoc "id" fields = Some id ->
  read_task_info env g (Some (JObj fields)) w =
  (Return (Some (handle_of env g fields id)),
   {| active_requests := active_requests w;
      fs := fs w;
      trace := EvLog (PollingURL (polling_url (handle_of env g fields id)))
               :: EvLog (TaskSubmitted id) :: trace w |}).
Proof.
  intros Hid. unfold read_task_info, response_json, subscript, dict_get,
    handle_of.
  run. rewrite Hid. run.
  destruct (truthy _); run; rewrite ?Hid; reflexivity.
Qed.

Section Retry.
Context (env : Env) (g : Generator) (prompt : string) (model : FluxModel)
        (aspect_ratio : string) (reference_image : option string).

Let req := build_request g prompt model aspect_ratio reference_image.
Let submit fuel := _submit_generation_request fuel env g prompt model
                     aspect_ratio reference_image.

(** The requests posted so far, newest first. *)
Fixpoint posted (l : list Event) : list PostRequest :=
  match l with
  | [] => []
  | EvPost r :: l' => r :: posted l'
  | _ :: l' => posted l'
  end.

(** As long as free slots remain, 429 answers are retried with the same
    request and the first 200 gives the handle; the counter is back where
    it was. *)
Lemma submit_retries_until_accepted (k : nat) :
  forall (fuel : nat) (w : World) (text : string)
         (fields : list (string * Json)) (content : bytes) (id : Json),
  active_requests w + Z.of_nat k < max_requests g model ->
  (forall i : nat, (i < k)%nat ->
     is_429 (http_post env (count is_post w + i) req)) ->
  http_post env (count is_post w + k) req
    = Response 200 text (Some (JObj fields)) content ->
  assoc "id" fields = Some id ->
  (k < fuel)%nat ->
  exists w', submit fuel w = (Return (Some (handle_of env g fields id)), w') /\
             posted (trace w') = replicate (S k) req ++ posted (trace w) /\
             active_requests w' = active_requests w /\
             fs w' = fs w.
Proof.
  induction k as [|k IH];
    intros fuel w text fields content id Hslots Hreplies Hok Hid Hfuel;
    (destruct fuel as [|fuel]; [lia|]);
    subst submit; cbn [_submit_generation_request];
    unfold _wait_for_rate_limit, bind at 1;
    rewrite wait_loop_free by lia.
  - rewrite Nat.add_0_r in Hok.
    run. fold req. rewrite Hok. cbn [Z.eqb Pos.eqb].
    rewrite (read_task_info_ok env g fields id _ Hid). run.
    eexists; split; [reflexivity|]. simpl. repeat split; lia.
  - destruct (Hreplies O) as (text' & json' & content' & Hreply); [lia|].
    rewrite Nat.add_0_r in Hreply.
    run. fold req. rewrite Hreply. cbn [Z.eqb Pos.eqb].
    match goal with
    | |- context [_submit_generation_request fuel env g prompt model
                    aspect_ratio reference_image ?w2] =>
      destruct (IH fuel w2 text fields content id)
        as (w3 & -> & Hposted & Hact & Hfs)
    end.
    { run. lia. }
    { intros i Hi. run.
      replace (S (count_events is_post (trace w)) + i)%nat
        with (count_events is_post (trace w) + S i)%nat by lia.
      apply Hreplies. lia. }
    { run.
      replace (S (count_events is_post (trace w)) + k)%nat
        with (count_events is_post (trace w) + S k)%nat by lia.
      done. }
    { done. }
    { lia. }
    run. eexists; split; [reflexivity|]. simpl in *.
    rewrite Hposted, Hact, Hfs. repeat split; [|lia].
    f_equal. rewrite (cons_middle req (replicate k req)), app_assoc.
    by rewrite <- replicate_S_end.
Qed.
End Retry.

(** C3, at the failing input: the "max" model class (ceiling 6), a transport
    that answers 429 six times and would answer 200 to the seventh
    submission. Whatever the fuel, the call has not returned: the seventh
    attempt is never posted. *)
Theorem submit_six_429_kontext_max_never_returns (fuel : nat) :
  let out := _submit_generation_request fuel
               (Mock.env (Mock.busy_then_accepted 6) Mock.never_polled
                  Mock.frozen_clock)
               Mock.g "a yeti" KONTEXT_MAX "1:1" None (init_world ∅) in
  out.1 = Running /\ (count is_post out.2 <= 6)%nat.
Proof.
  intros out.
  destruct (submit_starves
              (Mock.env (Mock.busy_then_accepted 6) Mock.never_polled
                 Mock.frozen_clock)
              Mock.g "a yeti" KONTEXT_MAX "1:1" None 6 fuel (init_world ∅))
    as (w' & Hout & Hposts & _).
  - reflexivity.
  - intros i Hi. simpl. unfold Mock.busy_then_accepted.
    rewrite (proj2 (Nat.ltb_lt i 6) Hi). by eexists _, _, _.
  - subst out. rewrite Hout. split; [done|]. exact Hposts.
Qed.

(** The same transport under the standard ceiling of 24: the seventh
    submission is accepted. *)
Lemma submit_six_429_kontext_pro_returns :
  (_submit_generation_request 7
     (Mock.env (Mock.busy_then_accepted 6) Mock.never_polled Mock.frozen_clock)
     Mock.g "a yeti" KONTEXT_PRO "1:1" None (init_world ∅)).1
  = Return (Some {| id := JStr "job-1";
                    polling_url :=
                      JStr "https://api.bfl.ai/v1/get_result?id=job-1" |}).
Proof. vm_compute. reflexivity. Qed.

(** ** The in-flight counter *)

(** The values [self.active_requests] was given, newest first. *)
Fixpoint counter_values (l : list Event) : list Z :=
  match l with
  | [] => []
  | EvCounter v :: l' => v :: counter_values l'
  | _ :: l' => counter_values l'
  end.

Lemma wait_loop_counter (fuel : nat) (ceiling : Z) :
  forall (w w' : World) (r : result unit),
  wait_loop fuel ceiling w = (r, w') ->
  active_requests w' = active_requests w /\
  counter_values (trace w') = counter_values (trace w) /\
  (r = Return tt /\ active_requests w < ceiling \/ r = Running).
Proof.
  induction fuel as [|fuel IH]; intros w w' r; simpl;
    destruct (Z.leb_spec ceiling (active_requests w)) as [Hge|Hlt];
    intros E; try (injection E as <- <-; auto with lia; fail).
  run. apply IH in E. simpl in E. done.
Qed.



Section Counter.
Context (env : Env) (g : Generator) (prompt : string) (model : FluxModel)
        (aspect_ratio : string) (reference_image : option string).

Let ceiling := max_requests g model.
Let submit fuel := _submit_generation_request fuel env g prompt model
                     aspect_ratio reference_image.

End Counter.

(** What a submission does with its slot: an assignment to
    [self.active_requests], or a POST. *)
Inductive Step := SetTo (v : Z) | Post.

(** The assignments to the counter and the POSTs of a trace, newest
    first. *)
Fixpoint steps (l : list Event) : list Step :=
  match l with
  | [] => []
  | EvCounter v :: l' => SetTo v :: steps l'
  | EvPost _ :: l' => Post :: steps l'
  | _ :: l' => steps l'
  end.








(** The steps of that run, oldest first: three slots taken, one before
    each POST, and given back one by one on the way out. *)
Example steps_two_retries :
  rev (steps
         (trace (_submit_generation_request 5
                   (Mock.env (Mock.busy_then_accepted 2) Mock.never_polled
                      Mock.frozen_clock)
                   Mock.g "a yeti" KONTEXT_MAX "1:1" None (init_world ∅)).2))
  = [SetTo 1; Post; SetTo 2; Post; SetTo 3; Post; SetTo 2; SetTo 1; SetTo 0].
Proof. vm_compute. reflexivity. Qed.

(** The counter values of that run: up to 3 through the two retries, and
    down again. *)
Example counter_history_two_retries :
  counter_values
    (trace (_submit_generation_request 5
              (Mock.env (Mock.busy_then_accepted 2) Mock.never_polled
                 Mock.frozen_clock)
              Mock.g "a yeti" KONTEXT_MAX "1:1" None (init_world ∅)).2)
  = [0; 1; 2; 3; 2; 1].
Proof. vm_compute. reflexivity. Qed.

(** ** The poller *)

(** The world after some more events (newest first). *)
Definition push (evs : list Event) (w : World) : World :=
  {| active_requests := active_requests w; fs := fs w;
     trace := evs ++ trace w |}.

(** The [status] a polling reply carries, when it is a 200 with a JSON
    object. *)
Definition reply_status (r : Reply) : option Json :=
  match r with
  | Response status_code _ (Some (JObj fields)) _ =>
    if status_code =? 200
    then Some (match assoc "status" fields with Some v => v | None => JNull end)
    else None
  | _ => None
  end.

Definition is_terminal_status (status : Json) : bool :=
  is_str status "Ready" || is_str status "Error"
  || is_str status "Content Moderated".

(** A reply after which the loop goes on: [Pending], or a status the code
    has no branch for. *)
Definition keeps_polling (r : Reply) : bool :=
  match reply_status r with
  | Some status => negb (is_terminal_status status)
  | None => false
  end.

Section Poll.
Context (env : Env) (task_info : TaskInfo) (url : string).
Hypothesis Hurl : polling_url task_info = JStr url.

(** A [Pending] reply: the body logs, sleeps for the current interval and
    hands the next interval to the next turn. *)
Lemma poll_body_pending (wait_time : float) (w : World) :
  reply_status (http_get env (count is_get w) url) = Some (JStr "Pending") ->
  exists progress,
    poll_body env task_info wait_time w =
    (Return (Continue (next_wait_time wait_time)),
     push [EvSleep wait_time;
           EvLog (InProgress progress (clock env (count is_tick w)));
           EvTick (clock env (count is_tick w));
           EvGet url] w).
Proof.
  unfold poll_body, requests_get_json, reply_status. rewrite Hurl. run.
  destruct (http_get env _ url) as [|sc text [[| | |fields]|] content];
    try done.
  destruct (sc =? 200); [|done].
  unfold response_json, dict_get. run.
  intros [= ->]. simpl. run. by eexists.
Qed.

(** Any reply that is not terminal: the body hands over to the next
    turn, after one GET and without going back in time. *)
Lemma poll_body_continues (wait_time : float) (w : World) :
  keeps_polling (http_get env (count is_get w) url) = true ->
  exists wait_time' w',
    poll_body env task_info wait_time w = (Return (Continue wait_time'), w') /\
    (count is_tick w <= count is_tick w')%nat /\
    count is_get w' = S (count is_get w) /\
    fs w' = fs w /\ active_requests w' = active_requests w.
Proof.
  unfold keeps_polling, is_terminal_status.
  destruct (reply_status _) as [status|] eqn:Hst; [|done].
  intros Hnon. apply negb_true_iff in Hnon.
  apply orb_false_iff in Hnon as [Hnon Hmod].
  apply orb_false_iff in Hnon as [Hready Herr].
  destruct (is_str status "Pending") eqn:Hpend.
  - destruct status as [| |st|]; try done. apply String.eqb_eq in Hpend as ->.
    destruct (poll_body_pending wait_time w Hst) as [progress ->].
    eexists _, _. split; [reflexivity|]. unfold count, push. simpl.
    repeat split; lia.
  - revert Hst. unfold poll_body, requests_get_json, reply_status.
    rewrite Hurl. run.
    destruct (http_get env _ url) as [|sc text [[| | |fields]|] content];
      try done.
    destruct (sc =? 200); [|done].
    unfold response_json, dict_get. run. intros [= ->].
    rewrite Hready, Herr, Hmod, Hpend. simpl. run.
    eexists _, _. split; [reflexivity|]. simpl. repeat split; lia.
Qed.

(** With the deadline passed at the head of the loop, the body is not
    run: nothing is requested, the timeout is logged, [None] returned. *)
Lemma poll_loop_expired (fuel : nat) (timeout start_time wait_time : float)
    (w : World) :
  PrimFloat.ltb (PrimFloat.sub (clock env (count is_tick w)) start_time)
    timeout = false ->
  poll_loop fuel env task_info timeout start_time wait_time w =
  (Return None,
   push [EvLog (TimedOut timeout); EvTick (clock env (count is_tick w))] w).
Proof.
  intros Hlate. destruct fuel; simpl; run; rewrite Hlate; reflexivity.
Qed.

(** If from the [n]-th reading of the clock on the deadline has passed,
    and the replies up to then are not terminal, the loop ends in the
    timeout branch. *)
Lemma poll_loop_times_out (timeout start_time : float) (n m : nat)
    (Hclock : forall k : nat, (n <= k)%nat ->
       PrimFloat.ltb (PrimFloat.sub (clock env k) start_time) timeout = false)
    (Hreplies : forall k : nat, (k < m)%nat ->
       keeps_polling (http_get env k url) = true)
    (d : nat) :
  forall (fuel : nat) (wait_time : float) (w : World),
  (n <= count is_tick w + d)%nat ->
  (count is_get w + d <= m)%nat ->
  (d <= fuel)%nat ->
  exists (w1 : World),
    poll_loop fuel env task_info timeout start_time wait_time w =
    (Return None,
     push [EvLog (TimedOut timeout); EvTick (clock env (count is_tick w1))] w1)
    /\ PrimFloat.ltb (PrimFloat.sub (clock env (count is_tick w1)) start_time)
         timeout = false
    /\ fs w1 = fs w /\ active_requests w1 = active_requests w.
Proof.
  induction d as [|d IH]; intros fuel wait_time w Hn Hm Hfuel.
  - exists w. rewrite poll_loop_expired; [|apply Hclock; lia].
    repeat split; try done. apply Hclock; lia.
  - destruct (PrimFloat.ltb
                (PrimFloat.sub (clock env (count is_tick w)) start_time)
                timeout) eqn:Hcheck.
    2: { exists w. by rewrite poll_loop_expired. }
    destruct fuel as [|fuel]; [lia|].
    cbn [poll_loop]. unfold bind at 1, time_time at 1.
    unfold bind at 1, emit at 1, ret at 1, bind at 1.
    rewrite Hcheck.
    match goal with
    | |- context [poll_body env task_info wait_time ?w0] =>
      destruct (poll_body_continues wait_time w0)
        as (wait_time' & w' & -> & Hticks & Hgets & Hfs & Hact);
        [apply Hreplies; unfold count in *; simpl; lia|]
    end.
    unfold count in Hticks, Hgets. simpl in Hticks, Hgets, Hfs, Hact.
    destruct (IH fuel wait_time' w') as (w1 & -> & Hlate & Hfs1 & Hact1).
    { unfold count in *. lia. }
    { unfold count in *. lia. }
    { lia. }
    exists w1. repeat split; try done; congruence.
Qed.
End Poll.

(** C5: when every poll is answered 200 with a JSON object whose status
    the loop goes on from (Pending, or a status the code has no branch
    for) and the clock passes the deadline, [_poll_for_result] returns
    [None] right after logging the timeout, the last reading of the clock
    being at or past the deadline; and whenever the deadline has passed at
    the head of the loop, the body is not run: nothing is requested any
    more. *)
Theorem poll_returns_timeout
    (env : Env) (task_info : TaskInfo) (url : string) (timeout : float)
    (n fuel : nat) (w : World) :
  polling_url task_info = JStr url ->
  (forall k : nat, (n <= k)%nat ->
     PrimFloat.ltb
       (PrimFloat.sub (clock env k) (clock env (count is_tick w))) timeout
     = false) ->
  (forall k : nat, (k < count is_get w + n)%nat ->
     keeps_polling (http_get env k url) = true) ->
  (n <= fuel)%nat ->
  (exists w1 : World,
     _poll_for_result fuel env task_info timeout w =
     (Return None,
      push [EvLog (TimedOut timeout); EvTick (clock env (count is_tick w1))] w1)
     /\ PrimFloat.ltb
          (PrimFloat.sub (clock env (count is_tick w1))
             (clock env (count is_tick w))) timeout = false
     /\ fs w1 = fs w) /\
  (forall (fuel' : nat) (start_time wait_time : float) (w0 : World),
     PrimFloat.ltb (PrimFloat.sub (clock env (count is_tick w0)) start_time)
       timeout = false ->
     poll_loop fuel' env task_info timeout start_time wait_time w0 =
     (Return None,
      push [EvLog (TimedOut timeout); EvTick (clock env (count is_tick w0))] w0)).
Proof.
  intros Hurl Hclock Hreplies Hfuel. split.
  - unfold _poll_for_result. unfold bind at 1, time_time at 1.
    unfold bind at 1, emit at 1, ret at 1.
    match goal with
    | |- context [poll_loop fuel env task_info timeout ?start 2 ?w0] =>
      destruct (poll_loop_times_out env task_info url Hurl timeout start n
                  (count is_get w + n) Hclock Hreplies n fuel 2 w0)
        as (w1 & -> & Hlate & Hfs & _)
    end.
    + unfold count. simpl. lia.
    + unfold count. simpl. lia.
    + done.
    + exists w1. repeat split; done.
  - intros fuel' start_time wait_time w0.
    apply (poll_loop_expired env task_info).
Qed.

Lemma poll_returns_timeout_witness :
  let env := Mock.env Mock.no_submission
               (Mock.always (Mock.status_reply "Pending")) Mock.coarse_clock in
  let w := init_world ∅ in
  (exists w1 : World,
     _poll_for_result 3 env Mock.task 300 w =
     (Return None,
      push [EvLog (TimedOut 300); EvTick (clock env (count is_tick w1))] w1)
     /\ PrimFloat.ltb
          (PrimFloat.sub (clock env (count is_tick w1))
             (clock env (count is_tick w))) 300 = false
     /\ fs w1 = fs w) /\
  (forall (fuel' : nat) (start_time wait_time : float) (w0 : World),
     PrimFloat.ltb (PrimFloat.sub (clock env (count is_tick w0)) start_time)
       300 = false ->
     poll_loop fuel' env Mock.task 300 start_time wait_time w0 =
     (Return None,
      push [EvLog (TimedOut 300); EvTick (clock env (count is_tick w0))] w0)).
Proof.
  apply (poll_returns_timeout
           (Mock.env Mock.no_submission
              (Mock.always (Mock.status_reply "Pending")) Mock.coarse_clock)
           Mock.task "https://api.bfl.ai/v1/get_result?id=job-1" 300 3 3
           (init_world ∅)).
  - reflexivity.
  - intros [|[|[|k]]] Hk; try lia; vm_compute; reflexivity.
  - intros k _. reflexivity.
  - lia.
Defined.

(** The events of that run: one poll, then the deadline. *)
Example poll_timeout_trace :
  (_poll_for_result 3
     (Mock.env Mock.no_submission (Mock.always (Mock.status_reply "Pending"))
        Mock.coarse_clock)
     Mock.task 300 (init_world ∅))
  = (Return None,
     push [EvLog (TimedOut 300); EvTick 300;
           EvSleep 2; EvLog (InProgress (JNum 0) 200); EvTick 200;
           EvGet "https://api.bfl.ai/v1/get_result?id=job-1";
           EvTick 100; EvTick 0] (init_world ∅)).
Proof. vm_compute. reflexivity. Qed.

(** C5, as stated, fails: on a transport that lets every poll fail, no
    poll is ever answered, so none of the terminal outcomes the claim lists
    is reached (no [Ready], no [Error], no [Content Moderated], no response
    with another code than 200), and the clock stands still, so the timeout
    never passes; yet [_poll_for_result] returns [None] after its first
    poll, and what it has logged is the failure of the poll, not the
    timeout. *)
Lemma poll_failure_is_not_a_timeout :
  let env := Mock.env Mock.no_submission Mock.never_polled Mock.frozen_clock in
  let out := _poll_for_result 5 env Mock.task 300 (init_world ∅) in
  (forall (k : nat) (url : string), http_get env k url = Fails) /\
  (forall k : nat,
     PrimFloat.ltb (PrimFloat.sub (clock env k) (clock env 0)) 300 = true) /\
  out.1 = Return None /\
  trace out.2
  = [EvLog (PollingFailed RequestException);
     EvGet "https://api.bfl.ai/v1/get_result?id=job-1";
     EvTick 0; EvTick 0] /\
  (forall t : float, EvLog (TimedOut t) ∉ trace out.2).
Proof.
  intros env out.
  assert (Htrace : trace out.2
                   = [EvLog (PollingFailed RequestException);
                      EvGet "https://api.bfl.ai/v1/get_result?id=job-1";
                      EvTick 0; EvTick 0])
    by (vm_compute; reflexivity).
  split; [done|]. split; [intros k; vm_compute; reflexivity|].
  split; [vm_compute; reflexivity|]. split; [exact Htrace|].
  intros t Hin. rewrite Htrace in Hin.
  repeat (apply elem_of_cons in Hin as [Hin|Hin]; [discriminate|]).
  by apply elem_of_nil in Hin.
Qed.

(** ** The backoff *)

(** The interval after [n] updates of line 323, from the initial 2. *)
Definition backoff (n : nat) : float := Nat.iter n next_wait_time 2%float.

(** The durations of the sleeps, newest first. *)
Fixpoint slept (l : list Event) : list float :=
  match l with
  | [] => []
  | EvSleep d :: l' => d :: slept l'
  | _ :: l' => slept l'
  end.

Lemma slept_app (l1 l2 : list Event) : slept (l1 ++ l2) = slept l1 ++ slept l2.
Proof.
  induction l1 as [|[] l1 IH]; simpl; by rewrite ?IH.
Qed.

Lemma backoff_capped_from_12 (m : nat) : backoff (12 + m) = 15%float.
Proof.
  induction m as [|m IH].
  - vm_compute. reflexivity.
  - replace (12 + S m)%nat with (S (12 + m)) by lia.
    unfold backoff in *. rewrite Nat.iter_succ, IH. vm_compute. reflexivity.
Qed.

Section PendingRun.
Context (env : Env) (task_info : TaskInfo) (url : string)
        (timeout start_time : float).
Hypothesis Hurl : polling_url task_info = JStr url.
Hypothesis Hclock : forall k : nat,
  PrimFloat.ltb (PrimFloat.sub (clock env k) start_time) timeout = true.
Hypothesis Hpending : forall k : nat,
  reply_status (http_get env k url) = Some (JStr "Pending").

(** [n] turns of the loop on [Pending] replies apply line 323 [n] times. *)
Lemma poll_loop_pending (n : nat) :
  forall (fuel : nat) (wait_time : float) (w : World),
  exists w',
    poll_loop (n + fuel) env task_info timeout start_time wait_time w =
    poll_loop fuel env task_info timeout start_time
      (Nat.iter n next_wait_time wait_time) w'
    /\ exists evs, trace w' = evs ++ trace w /\ length (slept evs) = n.
Proof.
  induction n as [|n IH]; intros fuel wait_time w.
  - exists w. split; [done|]. by exists [].
  - cbn [Nat.add poll_loop]. unfold bind at 1, time_time at 1.
    unfold bind at 1, emit at 1, ret at 1, bind at 1.
    rewrite Hclock.
    match goal with
    | |- context [poll_body env task_info wait_time ?w0] =>
      destruct (poll_body_pending env task_info url Hurl wait_time w0)
        as (progress & ->); [apply Hpending|]
    end.
    match goal with
    | |- context [poll_loop (n + fuel) env task_info timeout start_time
                    ?wt ?w1] =>
      destruct (IH fuel wt w1) as (w' & -> & evs & Htrace & Hlen)
    end.
    exists w'. split.
    + by rewrite Nat.iter_succ_r.
    + unfold push in Htrace. simpl in Htrace.
      eexists (evs ++ [_; _; _; _; _]). split.
      * rewrite Htrace, <- app_assoc. reflexivity.
      * rewrite slept_app, length_app, Hlen. simpl. lia.
Qed.
End PendingRun.

(** C1, as the code has it: after [n] consecutive [Pending] replies the
    loop goes on with the interval [backoff n], which starts at 2 and is
    multiplied by 1.2 and capped at 15 at each step; after 10 steps it is
    12.38..., still below the cap; the cap is reached at the 12th step and
    kept from then on. *)
Theorem backoff_sequence
    (env : Env) (task_info : TaskInfo) (url : string) (timeout : float)
    (n fuel : nat) (w : World) :
  polling_url task_info = JStr url ->
  (forall k : nat,
     PrimFloat.ltb
       (PrimFloat.sub (clock env k) (clock env (count is_tick w))) timeout
     = true) ->
  (forall k : nat, reply_status (http_get env k url) = Some (JStr "Pending")) ->
  (exists w',
     _poll_for_result (n + fuel) env task_info timeout w =
     poll_loop fuel env task_info timeout (clock env (count is_tick w))
       (backoff n) w') /\
  backoff 0 = 2%float /\
  (forall m : nat,
     backoff (S m) = py_min (PrimFloat.mul (backoff m) 1.2) 15) /\
  backoff 10 = 12.383472844799998%float /\
  PrimFloat.ltb (backoff 10) 15 = true /\
  PrimFloat.ltb (backoff 11) 15 = true /\
  (forall m : nat, (12 <= m)%nat -> backoff m = 15%float).
Proof.
  intros Hurl Hclock Hpending. split; [|repeat split].
  - unfold _poll_for_result. unfold bind at 1, time_time at 1.
    unfold bind at 1, emit at 1, ret at 1.
    match goal with
    | |- context [poll_loop (n + fuel) env task_info timeout ?start 2 ?w0] =>
      destruct (poll_loop_pending env task_info url timeout start Hurl Hclock
                  Hpending n fuel 2 w0) as (w' & -> & _)
    end.
    by exists w'.
  - intros m ?. replace m with (12 + (m - 12))%nat by lia.
    apply backoff_capped_from_12.
Qed.

Lemma backoff_sequence_witness :
  let env := Mock.env Mock.no_submission
               (Mock.always (Mock.status_reply "Pending")) Mock.frozen_clock in
  let w := init_world ∅ in
  (exists w',
     _poll_for_result (10 + 1) env Mock.task 300 w =
     poll_loop 1 env Mock.task 300 (clock env (count is_tick w))
       (backoff 10) w') /\
  backoff 0 = 2%float /\
  (forall m : nat,
     backoff (S m) = py_min (PrimFloat.mul (backoff m) 1.2) 15) /\
  backoff 10 = 12.383472844799998%float /\
  PrimFloat.ltb (backoff 10) 15 = true /\
  PrimFloat.ltb (backoff 11) 15 = true /\
  (forall m : nat, (12 <= m)%nat -> backoff m = 15%float).
Proof.
  apply (backoff_sequence
           (Mock.env Mock.no_submission
              (Mock.always (Mock.status_reply "Pending")) Mock.frozen_clock)
           Mock.task "https://api.bfl.ai/v1/get_result?id=job-1" 300 10 1
           (init_world ∅)).
  - reflexivity.
  - intros k. vm_compute. reflexivity.
  - intros k. reflexivity.
Defined.

(** C1, as stated, fails: on a backend that keeps answering [Pending], the
    eleventh sleep, which lasts the interval reached after 10 [Pending]
    turns, is not 15 seconds (it is 12.38...). *)
Lemma interval_after_10_pending_is_not_15 :
  let out := _poll_for_result 11
               (Mock.env Mock.no_submission
                  (Mock.always (Mock.status_reply "Pending")) Mock.frozen_clock)
               Mock.task 300 (init_world ∅) in
  length (slept (trace out.2)) = 11%nat /\
  slept (trace out.2) !! 0%nat = Some 12.383472844799998%float /\
  slept (trace out.2) !! 0%nat <> Some 15%float.
Proof.
  intros out. split; [|split].
  - vm_compute. reflexivity.
  - vm_compute. reflexivity.
  - intros H.
    assert (Hlt : (fun d => match d with
                            | Some d => PrimFloat.ltb d 15
                            | None => false
                            end) (slept (trace out.2) !! 0%nat) = true)
      by (vm_compute; reflexivity).
    rewrite H in Hlt. vm_compute in Hlt. discriminate.
Qed.

(** ** The post-processor *)

(** What [post_process_image] relies on from Pillow: [convert] gives the
    mode asked for and keeps the size; [resize] gives the size asked for and
    keeps the mode; the sharpening filter keeps both; an RGBA image saved as
    PNG opens as a PNG image of the same mode and size. *)
Record PIL_contract (env : Env) : Prop := {
  convert_spec : forall (img img' : Image) (m : string),
    Image_convert env img m = inr img' ->
    mode img' = m /\ img_size img' = img_size img;
  resize_spec : forall (img img' : Image) (target : Z * Z),
    Image_resize env img target = inr img' ->
    img_size img' = target /\ mode img' = mode img;
  sharpen_spec : forall (img img' : Image),
    Image_sharpen env img = inr img' ->
    mode img' = mode img /\ img_size img' = img_size img;
  save_open_spec : forall (img : Image) (data : bytes),
    Image_save_png env img = inr data ->
    mode img = "RGBA"%string ->
    exists img', Image_open env data = inr img' /\
                 format img' = Some "PNG"%string /\
                 mode img' = "RGBA"%string /\
                 img_size img' = img_size img
}.

(** What the saved bytes decode to. *)
Definition decodes_to (env : Env) (data : bytes) (target : Z * Z) : Prop :=
  exists img, Image_open env data = inr img /\
              format img = Some "PNG"%string /\
              mode img = "RGBA"%string /\
              img_size img = target.

(** From the resize on, for an image already in mode RGBA. *)
Ltac resize_and_save Hresize Hsharpen Hsave :=
  let img2 := fresh "img" in
  let img3 := fresh "img" in
  let data := fresh "data" in
  let Hres := fresh "Hres" in
  let Hsh := fresh "Hsh" in
  let Hsv := fresh "Hsv" in
  destruct (Image_resize _ _ _) as [?|img2] eqn:Hres; [done|];
  apply Hresize in Hres as [? ?];
  destruct (_ && _);
  [ destruct (Image_sharpen _ img2) as [?|img3] eqn:Hsh; [done|];
    apply Hsharpen in Hsh as [? ?]
  | ];
  (destruct (Image_save_png _ _) as [?|data] eqn:Hsv; [done|];
   intros [= <- <-];
   edestruct Hsave as (img' & ? & ? & ? & ?); [exact Hsv|congruence|];
   exists img'; repeat split; congruence).

Lemma post_process_decodes (env : Env) (Hpil : PIL_contract env)
    (image_data : bytes) (target_size : Z * Z) (w w' : World) (out : bytes) :
  post_process_image env image_data target_size w = (Return (Some out), w') ->
  decodes_to env out target_size.
Proof.
  destruct Hpil as [Hconvert Hresize Hsharpen Hsave].
  unfold post_process_image. run.
  destruct (Image_open env image_data) as [e|img]; [done|].
  destruct (String.eqb_spec (mode img) "RGBA") as [Hmode|Hmode].
  - (* already RGBA: no conversion *)
    resize_and_save Hresize Hsharpen Hsave.
  - (* any other mode: [convert("RGBA")] *)
    destruct (Image_convert env img "RGBA") as [e|img1] eqn:Hcv; [done|].
    apply Hconvert in Hcv as [Hmode1 Hsize1].
    resize_and_save Hresize Hsharpen Hsave.
Qed.

Lemma side_byte_inv (n : Z) (b : byte) :
  Mock.side_byte n = Some b -> Z.of_N (Byte.to_N b) = n.
Proof.
  unfold Mock.side_byte.
  destruct (Z.ltb_spec 0 n); [|done]. destruct (Z.leb_spec n 255); [|done].
  simpl. intros Hb. apply Byte.to_of_N in Hb. rewrite Hb. lia.
Qed.

(** The scripted Pillow honours the contract. *)
Lemma mock_pil (post : nat -> PostRequest -> Reply)
    (get : nat -> string -> Reply) (clock : nat -> float) :
  PIL_contract (Mock.env post get clock).
Proof.
  split; simpl.
  - intros img img' m [= <-]. done.
  - intros img img' target. unfold Mock.resize.
    destruct (_ && _); [|done]. intros [= <-]. done.
  - intros img img' [= <-]. done.
  - intros img data. unfold Mock.save_png, Mock.open.
    destruct (Mock.mode_tag (mode img)) as [t|] eqn:Htag; [|done].
    destruct (Mock.side_byte (img_size img).1) as [bw|] eqn:Hw; [|done].
    destruct (Mock.side_byte (img_size img).2) as [bh|] eqn:Hh; [|done].
    intros [= <-] Hmode. rewrite Hmode in Htag. injection Htag as <-.
    simpl. eexists. split; [reflexivity|]. simpl.
    rewrite (side_byte_inv _ _ Hw), (side_byte_inv _ _ Hh).
    repeat split. by destruct (img_size img).
Qed.

(** C6: whatever [post_process_image] returns as bytes decodes to a PNG
    image in mode RGBA whose size is the target size; so does the result of
    processing those bytes again with the same target. Pillow is taken by
    its contract. *)
Theorem post_process_rgba_exact_size
    (env : Env) (image_data : bytes) (target_size : Z * Z) (w w' : World)
    (out : bytes) :
  PIL_contract env ->
  post_process_image env image_data target_size w = (Return (Some out), w') ->
  decodes_to env out target_size /\
  (forall (w2 w3 : World) (out2 : bytes),
     post_process_image env out target_size w2 = (Return (Some out2), w3) ->
     decodes_to env out2 target_size).
Proof.
  intros Hpil Hout. split.
  - by apply (post_process_decodes env Hpil image_data target_size w w').
  - intros w2 w3 out2 Hout2.
    by apply (post_process_decodes env Hpil out target_size w2 w3).
Qed.

Lemma post_process_rgba_exact_size_witness :
  let env := Mock.env Mock.no_submission Mock.never_polled Mock.frozen_clock in
  decodes_to env [x50; x01; x3c; x3c] (60, 60) /\
  (forall (w2 w3 : World) (out2 : bytes),
     post_process_image env [x50; x01; x3c; x3c] (60, 60) w2
     = (Return (Some out2), w3) ->
     decodes_to env out2 (60, 60)).
Proof.
  apply (post_process_rgba_exact_size
           (Mock.env Mock.no_submission Mock.never_polled Mock.frozen_clock)
           Mock.rgb_2x2 (60, 60) (init_world ∅) (init_world ∅)
           [x50; x01; x3c; x3c]).
  - apply mock_pil.
  - vm_compute. reflexivity.
Defined.

(** A 2x2 RGB image comes out as 60x60 RGBA; the target is small, so
    the sharpening pass is taken. *)
Example post_process_rgb_2x2 :
  (post_process_image
     (Mock.env Mock.no_submission Mock.never_polled Mock.frozen_clock)
     Mock.rgb_2x2 (60, 60) (init_world ∅)).1
  = Return (Some [x50; x01; x3c; x3c]).
Proof. vm_compute. reflexivity. Qed.

(** ** What touches the file system *)

Definition is_write (ev : Event) : bool :=
  match ev with EvWrite _ _ => true | _ => false end.

(** A computation that neither changes the file system nor writes. *)
Definition quiet {A} (m : M A) : Prop :=
  forall (w w' : World) (r : result A),
    m w = (r, w') -> fs w' = fs w /\ count is_write w' = count is_write w.

Lemma quiet_ret {A} (a : A) : quiet (ret a).
Proof. intros w w' r [= <- <-]. done. Qed.

Lemma quiet_raise {A} (e : exn) : quiet (raise (A:=A) e).
Proof. intros w w' r [= <- <-]. done. Qed.

Lemma quiet_running {A} : quiet (running (A:=A)).
Proof. intros w w' r [= <- <-]. done. Qed.

Lemma quiet_lift {A} (x : exn + A) : quiet (lift x).
Proof. destruct x; [apply quiet_raise|apply quiet_ret]. Qed.

Lemma quiet_bind {A B} (m : M A) (f : A -> M B) :
  quiet m -> (forall a, quiet (f a)) -> quiet (bind m f).
Proof.
  intros Hm Hf w w' r. unfold bind.
  destruct (m w) as [[a|e|] w1] eqn:E; apply Hm in E as [Hfs Hct].
  - intros E'. apply Hf in E' as [-> ->]. done.
  - intros [= <- <-]. done.
  - intros [= <- <-]. done.
Qed.

Lemma quiet_try_except {A} (body : M A) (handler : exn -> M A) :
  quiet body -> (forall e, quiet (handler e)) -> quiet (try_except body handler).
Proof.
  intros Hm Hh w w' r. unfold try_except.
  destruct (body w) as [[a|e|] w1] eqn:E; apply Hm in E as [Hfs Hct].
  - intros [= <- <-]. done.
  - intros E'. apply Hh in E' as [-> ->]. done.
  - intros [= <- <-]. done.
Qed.

Lemma quiet_try_finally {A} (body : M A) (final : M unit) :
  quiet body -> quiet final -> quiet (try_finally body final).
Proof.
  intros Hm Hf w w' r. unfold try_finally.
  destruct (body w) as [[a|e|] w1] eqn:E; apply Hm in E as [Hfs Hct];
    try (intros [= <- <-]; done);
    (destruct (final w1) as [[u|e'|] w2] eqn:E'; apply Hf in E' as [Hfs' Hct'];
     intros [= <- <-]; split; congruence).
Qed.

Lemma quiet_emit (ev : Event) : is_write ev = false -> quiet (emit ev).
Proof.
  intros Hev w w' r [= <- <-]. unfold count. simpl. by rewrite Hev.
Qed.

Lemma quiet_log (msg : LogMsg) : quiet (log msg).
Proof. by apply quiet_emit. Qed.

Lemma quiet_sleep (d : float) : quiet (sleep d).
Proof. by apply quiet_emit. Qed.

Lemma quiet_get_active_requests : quiet get_active_requests.
Proof. intros w w' r [= <- <-]. done. Qed.

Lemma quiet_set_active_requests (v : Z) : quiet (set_active_requests v).
Proof. intros w w' r [= <- <-]. done. Qed.

Lemma quiet_time_time (env : Env) : quiet (time_time env).
Proof. intros w w' r [= <- <-]. done. Qed.

Lemma quiet_random_uniform (env : Env) (a b : float) :
  quiet (random_uniform env a b).
Proof. intros w w' r [= <- <-]. done. Qed.

Lemma quiet_requests_post (env : Env) (req : PostRequest) :
  quiet (requests_post env req).
Proof. intros w w' r [= <- <-]. done. Qed.

Lemma quiet_requests_get (env : Env) (url : string) :
  quiet (requests_get env url).
Proof. intros w w' r [= <- <-]. done. Qed.

Lemma quiet_os_path_exists (path : string) : quiet (os_path_exists path).
Proof. intros w w' r [= <- <-]. done. Qed.

Lemma quiet_read_file (path : string) : quiet (read_file path).
Proof.
  intros w w' r. unfold read_file.
  destruct (fs w !! path) as [[content|]|]; intros [= <- <-]; done.
Qed.

Lemma quiet_subscript (j : Json) (k : string) : quiet (subscript j k).
Proof.
  unfold subscript. destruct j as [| | |fields];
    try apply quiet_raise.
  destruct (assoc k fields); [apply quiet_ret|apply quiet_raise].
Qed.

Lemma quiet_dict_get (j : Json) (k : string) (d : Json) : quiet (dict_get j k d).
Proof.
  unfold dict_get. destruct j; try apply quiet_raise. apply quiet_ret.
Qed.

Lemma quiet_response_json (json : option Json) : quiet (response_json json).
Proof. destruct json; [apply quiet_ret|apply quiet_raise]. Qed.

Create HintDb quiet.
#[local] Hint Resolve quiet_ret quiet_raise quiet_running quiet_lift quiet_log
  quiet_sleep quiet_get_active_requests quiet_set_active_requests
  quiet_time_time quiet_random_uniform quiet_requests_post quiet_requests_get
  quiet_os_path_exists quiet_read_file quiet_subscript quiet_dict_get
  quiet_response_json : quiet.

(** Goes through binds, handlers and branches down to the primitives. *)
Ltac quiet_step :=
  match goal with
  | |- forall _, _ => intros
  | |- quiet (bind _ _) => apply quiet_bind
  | |- quiet (try_except _ _) => apply quiet_try_except
  | |- quiet (try_finally _ _) => apply quiet_try_finally
  | |- quiet (if ?b then _ else _) => destruct b
  | |- quiet (match ?x with _ => _ end) => destruct x
  | |- quiet _ => solve [auto with quiet]
  end.
Ltac quiet_tac := repeat quiet_step.

Lemma quiet_wait_loop (fuel : nat) (ceiling : Z) : quiet (wait_loop fuel ceiling).
Proof.
  induction fuel as [|fuel IH]; intros w w' r; simpl;
    destruct (ceiling <=? active_requests w); try (intros [= <- <-]; done).
  intros E. by apply (quiet_bind (sleep 1) (fun _ => wait_loop fuel ceiling))
    in E; auto with quiet.
Qed.

Lemma quiet_read_task_info (env : Env) (g : Generator) (json : option Json) :
  quiet (read_task_info env g json).
Proof. unfold read_task_info. quiet_tac. Qed.

Lemma quiet_submit (env : Env) (g : Generator) (prompt : string)
    (model : FluxModel) (aspect_ratio : string)
    (reference_image : option string) (fuel : nat) :
  quiet (_submit_generation_request fuel env g prompt model aspect_ratio
           reference_image).
Proof.
  induction fuel as [|fuel IH]; cbn [_submit_generation_request];
    [apply quiet_running|].
  unfold _wait_for_rate_limit.
  pose proof quiet_wait_loop. pose proof quiet_read_task_info.
  quiet_tac.
Qed.

Lemma quiet_requests_get_json (env : Env) (url : Json) :
  quiet (requests_get_json env url).
Proof. unfold requests_get_json. quiet_tac. Qed.

Lemma quiet_poll_body (env : Env) (task_info : TaskInfo) (wait_time : float) :
  quiet (poll_body env task_info wait_time).
Proof.
  unfold poll_body, download_result. pose proof quiet_requests_get_json.
  quiet_tac.
Qed.

Lemma quiet_poll_loop (env : Env) (task_info : TaskInfo)
    (timeout start_time : float) (fuel : nat) :
  forall wait_time,
    quiet (poll_loop fuel env task_info timeout start_time wait_time).
Proof.
  pose proof quiet_poll_body.
  induction fuel as [|fuel IH]; intros wait_time; cbn [poll_loop]; quiet_tac.
Qed.

Lemma quiet_generate_image (fuel : nat) (env : Env) (g : Generator)
    (prompt : string) (model : FluxModel) (aspect_ratio : string)
    (reference_image : option string) :
  quiet (generate_image fuel env g prompt model aspect_ratio reference_image).
Proof.
  unfold generate_image, _poll_for_result.
  pose proof quiet_submit. pose proof quiet_poll_loop. quiet_tac.
Qed.

Lemma quiet_post_process_image (env : Env) (image_data : bytes)
    (target_size : Z * Z) :
  quiet (post_process_image env image_data target_size).
Proof. unfold post_process_image. quiet_tac. Qed.

Lemma quiet_asset_inputs (env : Env) (spec : AssetSpec)
    (variation : option string) :
  quiet (asset_inputs env spec variation).
Proof.
  unfold asset_inputs, _build_prompt, _encode_image_to_base64. quiet_tac.
Qed.

(** ** The orchestrator *)

(** C7: when the generation yields no bytes, or the post-processing of the
    bytes yields none, [generate_asset] returns [False]; the file system is
    as it was and nothing was written. *)
Theorem generate_asset_failure_writes_nothing
    (fuel : nat) (env : Env) (g : Generator) (spec : AssetSpec)
    (variation : option string) (w w1 w2 : World)
    (inputs : string * option string) (image_data : option bytes) :
  asset_inputs env spec variation w = (Return inputs, w1) ->
  generate_image fuel env g inputs.1 (model spec) (aspect_ratio spec)
    inputs.2 w1 = (Return image_data, w2) ->
  (truthy_bytes image_data = false \/
   exists (processed : option bytes) (w3 : World),
     post_process_image env (default [] image_data) (size spec) w2
     = (Return processed, w3) /\
     truthy_bytes processed = false) ->
  exists w',
    generate_asset fuel env g spec variation w = (Return false, w') /\
    fs w' = fs w /\
    count is_write w' = count is_write w.
Proof.
  intros Hin Hgen Hfail.
  pose proof (quiet_asset_inputs env spec variation _ _ _ Hin) as [Hfs1 Hct1].
  pose proof (quiet_generate_image _ _ _ _ _ _ _ _ _ _ Hgen) as [Hfs2 Hct2].
  unfold generate_asset. unfold bind at 1. rewrite Hin.
  unfold bind at 1. rewrite Hgen. unfold finish_asset.
  destruct (truthy_bytes image_data) eqn:Himg.
  - destruct Hfail as [|(processed & w3 & Hpost & Hproc)]; [done|].
    pose proof (quiet_post_process_image _ _ _ _ _ _ Hpost) as [Hfs3 Hct3].
    unfold bind at 1. rewrite Hpost, Hproc. run.
    eexists. split; [reflexivity|]. unfold count in *. simpl.
    split; congruence.
  - run. eexists. split; [reflexivity|]. unfold count in *. simpl.
    split; congruence.
Qed.

(** The backend that accepts the job and then always reports [Error]. *)
Lemma generate_asset_failure_writes_nothing_witness :
  let env := Mock.env (Mock.busy_then_accepted 0)
               (Mock.always (Mock.status_reply "Error")) Mock.frozen_clock in
  let w := init_world ∅ in
  exists w',
    generate_asset 2 env Mock.g Mock.yeti_jump None w = (Return false, w') /\
    fs w' = fs w /\
    count is_write w' = count is_write w.
Proof.
  eapply (generate_asset_failure_writes_nothing 2
            (Mock.env (Mock.busy_then_accepted 0)
               (Mock.always (Mock.status_reply "Error")) Mock.frozen_clock)
            Mock.g Mock.yeti_jump None (init_world ∅)).
  - vm_compute. reflexivity.
  - vm_compute. reflexivity.
  - left. reflexivity.
Defined.

(** A computation out of which no exception comes. *)
Definition catches {A} (m : M A) : Prop :=
  forall (w : World) (e : exn), (m w).1 <> Raise e.

Lemma catches_ret {A} (a : A) : catches (ret a).
Proof. done. Qed.

Lemma catches_running {A} : catches (running (A:=A)).
Proof. done. Qed.

Lemma catches_emit (ev : Event) : catches (emit ev).
Proof. done. Qed.

Lemma catches_bind {A B} (m : M A) (f : A -> M B) :
  catches m -> (forall a, catches (f a)) -> catches (bind m f).
Proof.
  intros Hm Hf w e. unfold bind. specialize (Hm w).
  destruct (m w) as [[a|e'|] w1]; simpl in *; [apply Hf|by destruct (Hm e')|done].
Qed.

Lemma catches_try_except {A} (body : M A) (handler : exn -> M A) :
  (forall e, catches (handler e)) -> catches (try_except body handler).
Proof.
  intros Hh w e. unfold try_except.
  destruct (body w) as [[a|e'|] w1]; simpl; [done|apply Hh|done].
Qed.

Lemma catches_try_finally {A} (body : M A) (final : M unit) :
  catches body -> catches final -> catches (try_finally body final).
Proof.
  intros Hm Hf w e. unfold try_finally. specialize (Hm w).
  destruct (body w) as [[a|e'|] w1]; simpl in *;
    [|by destruct (Hm e')|done].
  specialize (Hf w1). destruct (final w1) as [[u|e'|] w2]; simpl in *;
    [done|by destruct (Hf e')|done].
Qed.

Lemma catches_wait_loop (fuel : nat) (ceiling : Z) :
  catches (wait_loop fuel ceiling).
Proof.
  induction fuel as [|fuel IH]; intros w e; simpl;
    destruct (ceiling <=? active_requests w); try done.
  apply (catches_bind (sleep 1) (fun _ => wait_loop fuel ceiling));
    [apply catches_emit|done].
Qed.

(** Whatever happens while submitting is caught inside the submission. *)
Lemma catches_submit (env : Env) (g : Generator) (prompt : string)
    (model : FluxModel) (aspect_ratio : string)
    (reference_image : option string) (fuel : nat) :
  catches (_submit_generation_request fuel env g prompt model aspect_ratio
             reference_image).
Proof.
  destruct fuel as [|fuel]; cbn [_submit_generation_request];
    [apply catches_running|].
  apply catches_bind; [apply catches_wait_loop|intros _].
  apply catches_bind; [done|intros n].
  apply catches_bind; [done|intros _].
  apply catches_try_finally.
  - apply catches_try_except. intros e.
    apply catches_bind; [apply catches_emit|intros _; apply catches_ret].
  - apply catches_bind; done.
Qed.

(** Whatever happens while polling is caught inside the poll. *)
Lemma catches_poll_loop (env : Env) (task_info : TaskInfo)
    (timeout start_time : float) (fuel : nat) :
  forall wait_time,
    catches (poll_loop fuel env task_info timeout start_time wait_time).
Proof.
  assert (Hbody : forall wait_time, catches (poll_body env task_info wait_time)).
  { intros wait_time. apply catches_try_except. intros e.
    apply catches_bind; [apply catches_emit|intros _; apply catches_ret]. }
  assert (Hout : catches (log (TimedOut timeout) ;;; ret (None : option bytes))).
  { apply catches_bind; [apply catches_emit|intros _; apply catches_ret]. }
  induction fuel as [|fuel IH]; intros wait_time; cbn [poll_loop];
    (apply catches_bind; [done|intros now]);
    destruct (PrimFloat.ltb _ _); try done.
  apply catches_bind; [apply Hbody|]. intros [r|wait_time']; [done|apply IH].
Qed.

Lemma catches_generate_image (fuel : nat) (env : Env) (g : Generator)
    (prompt : string) (model : FluxModel) (aspect_ratio : string)
    (reference_image : option string) :
  catches (generate_image fuel env g prompt model aspect_ratio reference_image).
Proof.
  unfold generate_image. apply catches_bind; [apply catches_submit|].
  intros [task_info|]; [|done].
  unfold _poll_for_result. apply catches_bind; [done|intros start_time].
  apply catches_poll_loop.
Qed.

Lemma catches_post_process_image (env : Env) (image_data : bytes)
    (target_size : Z * Z) :
  catches (post_process_image env image_data target_size).
Proof.
  unfold post_process_image. apply catches_try_except. intros e.
  apply catches_bind; [apply catches_emit|intros _; apply catches_ret].
Qed.

(** The world in which the file the first asset of the "yeti" batch is to be
    saved under is taken by a directory. *)
Definition blocked_output : World :=
  init_world
    {["generated_assets/yeti_run_frame1_left_foot_forward_no_bg.png"%string
      := Dir]}.

(** C8, at the failing input: the job is accepted, ready at once, the image
    downloads and post-processes; opening the output file raises. The
    exception leaves [generate_asset], and leaves [generate_batch] too: no
    boolean comes back, and the remaining assets of the batch are not
    tried. *)
Theorem generate_asset_write_error_propagates :
  let env := Mock.env (Mock.busy_then_accepted 0) Mock.ready_at_once
               Mock.frozen_clock in
  let path :=
    "generated_assets/yeti_run_frame1_left_foot_forward_no_bg.png"%string in
  (exists spec,
     head (filter (fun spec => batch_group spec = Some "yeti"%string)
             (asset_specs Mock.g)) = Some spec /\
     (generate_asset 2 env Mock.g spec None blocked_output).1
     = Raise (IsADirectoryError path)) /\
  (generate_batch 2 env Mock.g "yeti" blocked_output).1
  = Raise (IsADirectoryError path) /\
  count is_post (generate_batch 2 env Mock.g "yeti" blocked_output).2 = 1%nat.
Proof.
  intros env path. split; [|split].
  - eexists. split; [vm_compute; reflexivity|]. vm_compute. reflexivity.
  - vm_compute. reflexivity.
  - vm_compute. reflexivity.
Qed.

(** The same batch with the output directory free: five assets are saved
    and [True] comes back. *)
Example generate_batch_yeti_succeeds :
  let out := generate_batch 2
               (Mock.env (Mock.busy_then_accepted 0) Mock.ready_at_once
                  Mock.frozen_clock)
               Mock.g "yeti" (init_world ∅) in
  out.1 = Return true /\ count is_write out.2 = 5%nat.
Proof. vm_compute. split; reflexivity. Qed.

(** ** edit_image *)

(** C9: [style_base] is in neither the instance's [__dict__] nor the class,
    so a call of [edit_image] on a path that holds a file raises
    [AttributeError] as soon as the prompt is built: the world is untouched
    (nothing was posted, nothing written), and there is no handler around
    it, so [True] is never returned. For any path that exists at all, the
    call raises and leaves the world untouched. *)
Theorem edit_image_raises_attribute_error
    (fuel : nat) (env : Env) (g : Generator)
    (input_image_path edit_prompt : string) (output_name : option string)
    (model : FluxModel) (w : World) (content : bytes) :
  fs w !! input_image_path = Some (File content) ->
  instance_dict g !! "style_base"%string = None /\
  ("style_base"%string ∉ class_attributes) /\
  edit_image fuel env g input_image_path edit_prompt output_name model w
  = (Raise (AttributeError "style_base"), w) /\
  (forall (path : string) (w0 : World),
     is_Some (fs w0 !! path) ->
     exists e, edit_image fuel env g path edit_prompt output_name model w0
               = (Raise e, w0)).
Proof.
  intros Hfile.
  assert (Hdict : instance_dict g !! "style_base"%string = None)
    by reflexivity.
  assert (Hclass : "style_base"%string ∉ class_attributes)
    by (apply (bool_decide_unpack _); vm_compute; reflexivity).
  assert (Hget : forall w0, getattr g "style_base" w0
                            = (Raise (AttributeError "style_base"), w0)).
  { intros w0. unfold getattr. rewrite Hdict.
    by rewrite bool_decide_eq_false_2. }
  repeat split; try done.
  - unfold edit_image, os_path_exists, _encode_image_to_base64, read_file.
    run. rewrite bool_decide_eq_true_2 by done. cbn [negb].
    rewrite Hfile, Hget. reflexivity.
  - intros path w0 Hex.
    unfold edit_image, os_path_exists, _encode_image_to_base64, read_file.
    run. rewrite bool_decide_eq_true_2 by done. cbn [negb].
    destruct Hex as [[c|] ->]; [rewrite Hget|]; by eexists.
Qed.

Lemma edit_image_raises_attribute_error_witness :
  let env := Mock.env (Mock.busy_then_accepted 0) Mock.ready_at_once
               Mock.frozen_clock in
  let w := init_world {["yeti.png"%string := File Mock.rgb_2x2]} in
  instance_dict Mock.g !! "style_base"%string = None /\
  ("style_base"%string ∉ class_attributes) /\
  edit_image 2 env Mock.g "yeti.png" "make it blue" None KONTEXT_PRO w
  = (Raise (AttributeError "style_base"), w) /\
  (forall (path : string) (w0 : World),
     is_Some (fs w0 !! path) ->
     exists e, edit_image 2 env Mock.g path "make it blue" None KONTEXT_PRO w0
               = (Raise e, w0)).
Proof.
  apply (edit_image_raises_attribute_error 2
           (Mock.env (Mock.busy_then_accepted 0) Mock.ready_at_once
              Mock.frozen_clock)
           Mock.g "yeti.png" "make it blue" None KONTEXT_PRO
           (init_world {["yeti.png"%string := File Mock.rgb_2x2]})
           Mock.rgb_2x2).
  vm_compute. reflexivity.
Defined.

End FluxProofs.

(** ** asset_generator.py: what else the workflow does *)

Module FluxCoverage.
Import Flux FluxProofs.

(** A reply that ends a submission without a retry: the transport failed,
    or the status is neither 200 nor 429. *)
Definition is_refusal (r : Reply) : bool :=
  match r with
  | Fails => true
  | Response status_code _ _ _ =>
    negb (status_code =? 200) && negb (status_code =? 429)
  end.

(** The [id] of a 200 body, when it has one. *)
Definition body_id (json : option Json) : option Json :=
  match json with
  | Some (JObj fields) => assoc "id" fields
  | _ => None
  end.

(** X1: a submission answered 200 with a JSON object that has an [id]
    returns at once a handle with that id; the polling URL is the one the
    server sent when it sent a non-empty one, and
    [<base_url>/v1/get_result?id=<id>] otherwise. One request was posted,
    nothing slept, and the counter is back to its value at entry. *)
Theorem submit_accepted_handle
    (fuel : nat) (env : Env) (g : Generator) (prompt : string)
    (model : FluxModel) (aspect_ratio : string) (reference_image : option string)
    (w : World) (text : string) (fields : list (string * Json))
    (content : bytes) (id : Json) :
  active_requests w < max_requests g model ->
  http_post env (count is_post w)
    (build_request g prompt model aspect_ratio reference_image)
  = Response 200 text (Some (JObj fields)) content ->
  assoc "id" fields = Some id ->
  let out := _submit_generation_request (S fuel) env g prompt model aspect_ratio
               reference_image w in
  let constructed :=
    JStr (base_url g +:+ "/v1/get_result?id=" +:+ py_str env id) in
  out.1 = Return (Some {| id := id;
                          polling_url :=
                            match assoc "polling_url" fields with
                            | Some url => if truthy url then url else constructed
                            | None => constructed
                            end |}) /\
  count is_post out.2 = S (count is_post w) /\
  slept (trace out.2) = slept (trace w) /\
  active_requests out.2 = active_requests w.
Proof.
  intros Hfree Hreply Hid out constructed.
  assert (Hout : exists w', out =
    (Return (Some (handle_of env g fields id)),
     {| active_requests := active_requests w + 1 - 1; fs := fs w;
        trace := EvCounter (active_requests w + 1 - 1) :: trace w' |})
    /\ count is_post w' = S (count is_post w)
    /\ slept (trace w') = slept (trace w)).
  { subst out. cbn [_submit_generation_request].
    unfold _wait_for_rate_limit, bind at 1.
    rewrite (wait_loop_free _ _ _ Hfree). run. rewrite Hreply.
    cbn [Z.eqb Pos.eqb]. rewrite (read_task_info_ok env g fields id _ Hid).
    eexists. split; [reflexivity|]. unfold count. simpl. done. }
  destruct Hout as (w' & -> & Hposts & Hslept). unfold count in *. simpl.
  repeat split; try done; try lia.
  unfold handle_of, constructed. f_equal. f_equal.
  destruct (assoc "polling_url" fields) as [url|]; [|done]. done.
Qed.

Lemma submit_accepted_handle_witness :
  let env := Mock.env (Scripts.post_always Scripts.accepted_with_url)
               Mock.never_polled Mock.frozen_clock in
  let w := init_world ∅ in
  let out := _submit_generation_request 1 env Mock.g "a yeti" KONTEXT_PRO "1:1"
               None w in
  let constructed :=
    JStr (base_url Mock.g +:+ "/v1/get_result?id=" +:+ py_str env (JStr "job-2")) in
  out.1 = Return (Some {| id := JStr "job-2";
                          polling_url :=
                            match assoc "polling_url"
                                    [("id"%string, JStr "job-2");
                                     ("polling_url"%string,
                                      JStr "https://api.eu.bfl.ai/v1/get_result?id=job-2")]
                            with
                            | Some url => if truthy url then url else constructed
                            | None => constructed
                            end |}) /\
  count is_post out.2 = S (count is_post w) /\
  slept (trace out.2) = slept (trace w) /\
  active_requests out.2 = active_requests w.
Proof.
  apply (submit_accepted_handle 0
           (Mock.env (Scripts.post_always Scripts.accepted_with_url)
              Mock.never_polled Mock.frozen_clock)
           Mock.g "a yeti" KONTEXT_PRO "1:1" None (init_world ∅) "{...}"
           [("id"%string, JStr "job-2");
            ("polling_url"%string,
             JStr "https://api.eu.bfl.ai/v1/get_result?id=job-2")]
           [] (JStr "job-2")).
  - unfold Mock.g, max_requests; simpl. lia.
  - reflexivity.
  - reflexivity.
Defined.

(** The line logged for a refusal. *)
Definition refusal_log (r : Reply) : LogMsg :=
  match r with
  | Fails => RequestFailed RequestException
  | Response status_code text _ _ =>
    if status_code =? 402 then InsufficientCredits
    else APIError status_code text
  end.

Lemma submit_refused
    (fuel : nat) (env : Env) (g : Generator) (prompt : string)
    (model : FluxModel) (aspect_ratio : string) (reference_image : option string)
    (w : World) :
  active_requests w < max_requests g model ->
  is_refusal (http_post env (count is_post w)
                (build_request g prompt model aspect_ratio reference_image))
  = true ->
  let req := build_request g prompt model aspect_ratio reference_image in
  _submit_generation_request (S fuel) env g prompt model aspect_ratio
    reference_image w =
  (Return None,
   {| active_requests := active_requests w + 1 - 1; fs := fs w;
      trace := [EvCounter (active_requests w + 1 - 1);
                EvLog (refusal_log (http_post env (count is_post w) req));
                EvPost req;
                EvLog (SubmittingRequest (endpoint req));
                EvCounter (active_requests w + 1)] ++ trace w |}).
Proof.
  intros Hfree Hrefusal req. cbn [_submit_generation_request].
  unfold _wait_for_rate_limit, bind at 1.
  rewrite (wait_loop_free _ _ _ Hfree). run. fold req in Hrefusal |- *.
  destruct (http_post env _ req) as [|status_code text json content];
    [reflexivity|].
  simpl in Hrefusal. apply andb_true_iff in Hrefusal as [H200 H429].
  apply negb_true_iff in H200, H429. rewrite H200, H429. simpl.
  destruct (status_code =? 402); reflexivity.
Qed.

(** X2: a submission whose POST fails in the transport, or is answered with
    any status other than 200 and 429, returns [None] after that one POST:
    nothing is drawn or slept, one line is logged (the exception, the
    missing credits for 402, status and text otherwise), and the counter is
    restored. *)
Theorem submit_refused_without_retry
    (fuel : nat) (env : Env) (g : Generator) (prompt : string)
    (model : FluxModel) (aspect_ratio : string) (reference_image : option string)
    (w : World) :
  active_requests w < max_requests g model ->
  is_refusal (http_post env (count is_post w)
                (build_request g prompt model aspect_ratio reference_image))
  = true ->
  let req := build_request g prompt model aspect_ratio reference_image in
  let out := _submit_generation_request (S fuel) env g prompt model aspect_ratio
               reference_image w in
  out.1 = Return None /\
  trace out.2 =
    [EvCounter (active_requests w + 1 - 1);
     EvLog (refusal_log (http_post env (count is_post w) req));
     EvPost req;
     EvLog (SubmittingRequest (endpoint req));
     EvCounter (active_requests w + 1)] ++ trace w /\
  active_requests out.2 = active_requests w.
Proof.
  intros Hfree Hrefusal req out. subst out req.
  rewrite (submit_refused fuel env g prompt model aspect_ratio reference_image
             w Hfree Hrefusal).
  simpl. repeat split. lia.
Qed.

Lemma submit_refused_without_retry_witness :
  let env := Mock.env (Scripts.post_always Scripts.server_error)
               Mock.never_polled Mock.frozen_clock in
  let w := init_world ∅ in
  let req := build_request Mock.g "a yeti" PRO_1_1 "1:1" None in
  let out := _submit_generation_request 1 env Mock.g "a yeti" PRO_1_1 "1:1"
               None w in
  out.1 = Return None /\
  trace out.2 =
    [EvCounter (active_requests w + 1 - 1);
     EvLog (refusal_log (http_post env (count is_post w) req));
     EvPost req;
     EvLog (SubmittingRequest (endpoint req));
     EvCounter (active_requests w + 1)] ++ trace w /\
  active_requests out.2 = active_requests w.
Proof.
  apply (submit_refused_without_retry 0
           (Mock.env (Scripts.post_always Scripts.server_error)
              Mock.never_polled Mock.frozen_clock)
           Mock.g "a yeti" PRO_1_1 "1:1" None (init_world ∅)).
  - unfold Mock.g, max_requests; simpl. lia.
  - reflexivity.
Defined.

(** What reading a body without a usable [id] raises. *)
Definition body_error (json : option Json) : exn :=
  match json with
  | None => JSONDecodeError
  | Some (JObj _) => KeyError "id"
  | Some _ => TypeError
  end.

(** X3: a submission answered 200 with a body that is not JSON, not a JSON
    object, or an object without [id] returns [None]: the exception of the
    lookup is caught and logged, nothing is retried, the counter is
    restored. *)
Theorem submit_accepted_without_id
    (fuel : nat) (env : Env) (g : Generator) (prompt : string)
    (model : FluxModel) (aspect_ratio : string) (reference_image : option string)
    (w : World) (text : string) (json : option Json) (content : bytes) :
  active_requests w < max_requests g model ->
  http_post env (count is_post w)
    (build_request g prompt model aspect_ratio reference_image)
  = Response 200 text json content ->
  body_id json = None ->
  let req := build_request g prompt model aspect_ratio reference_image in
  let out := _submit_generation_request (S fuel) env g prompt model aspect_ratio
               reference_image w in
  out.1 = Return None /\
  trace out.2 =
    [EvCounter (active_requests w + 1 - 1);
     EvLog (RequestFailed (body_error json));
     EvPost req;
     EvLog (SubmittingRequest (endpoint req));
     EvCounter (active_requests w + 1)] ++ trace w /\
  active_requests out.2 = active_requests w.
Proof.
  intros Hfree Hreply Hid req out.
  assert (Hout : out =
    (Return None,
     {| active_requests := active_requests w + 1 - 1; fs := fs w;
        trace := [EvCounter (active_requests w + 1 - 1);
                  EvLog (RequestFailed (body_error json));
                  EvPost req;
                  EvLog (SubmittingRequest (endpoint req));
                  EvCounter (active_requests w + 1)] ++ trace w |})).
  { subst out. cbn [_submit_generation_request].
    unfold _wait_for_rate_limit, bind at 1.
    rewrite (wait_loop_free _ _ _ Hfree). run. fold req in Hreply |- *.
    rewrite Hreply. cbn [Z.eqb Pos.eqb].
    unfold read_task_info, response_json, subscript. run.
    destruct json as [[| | |fields]|]; try reflexivity.
    simpl in Hid. rewrite Hid. reflexivity. }
  rewrite Hout. simpl. repeat split. lia.
Qed.

Lemma submit_accepted_without_id_witness :
  let env := Mock.env (Scripts.post_always Scripts.accepted_without_id)
               Mock.never_polled Mock.frozen_clock in
  let w := init_world ∅ in
  let req := build_request Mock.g "a yeti" KONTEXT_PRO "1:1" None in
  let out := _submit_generation_request 1 env Mock.g "a yeti" KONTEXT_PRO "1:1"
               None w in
  out.1 = Return None /\
  trace out.2 =
    [EvCounter (active_requests w + 1 - 1);
     EvLog (RequestFailed
              (body_error (Some (JObj [("status"%string, JStr "queued")]))));
     EvPost req;
     EvLog (SubmittingRequest (endpoint req));
     EvCounter (active_requests w + 1)] ++ trace w /\
  active_requests out.2 = active_requests w.
Proof.
  apply (submit_accepted_without_id 0
           (Mock.env (Scripts.post_always Scripts.accepted_without_id)
              Mock.never_polled Mock.frozen_clock)
           Mock.g "a yeti" KONTEXT_PRO "1:1" None (init_world ∅) "{...}"
           (Some (JObj [("status"%string, JStr "queued")])) []).
  - unfold Mock.g, max_requests; simpl. lia.
  - reflexivity.
  - reflexivity.
Defined.

Lemma wait_loop_posts (fuel : nat) (ceiling : Z) :
  forall (w w' : World) (r : result unit),
  wait_loop fuel ceiling w = (r, w') ->
  posted (trace w') = posted (trace w) /\
  count is_draw w' = count is_draw w /\
  count is_post w' = count is_post w.
Proof.
  induction fuel as [|fuel IH]; intros w w' r; simpl;
    destruct (ceiling <=? active_requests w);
    intros E; try (injection E as <- <-; done).
  run. apply IH in E. simpl in E. done.
Qed.

Lemma read_task_info_posts (env : Env) (g : Generator) (json : option Json)
    (w w' : World) (r : result (option TaskInfo)) :
  read_task_info env g json w = (r, w') ->
  posted (trace w') = posted (trace w) /\
  count is_draw w' = count is_draw w /\
  r <> Running.
Proof.
  unfold read_task_info, response_json, subscript, dict_get.
  destruct json as [[| | |fields]|]; run;
    try (intros E; injection E as <- <-; done).
  destruct (assoc "id" fields) as [id|]; run;
    try (intros E; injection E as <- <-; done).
  destruct (truthy _); run; intros E; injection E as <- <-; done.
Qed.

Section SameRequest.
Context (env : Env) (g : Generator) (prompt : string) (model : FluxModel)
        (aspect_ratio : string) (reference_image : option string).

Let req := build_request g prompt model aspect_ratio reference_image.
Let submit fuel := _submit_generation_request fuel env g prompt model
                     aspect_ratio reference_image.

Lemma submit_posts (fuel : nat) :
  forall (w w' : World) (r : result (option TaskInfo)),
  submit fuel w = (r, w') ->
  exists n : nat,
    (n <= fuel)%nat /\
    posted (trace w') = replicate n req ++ posted (trace w) /\
    (r <> Running -> (count is_draw w' + 1 = count is_draw w + n)%nat).
Proof.
  induction fuel as [|fuel IH]; intros w w' r;
    subst submit; cbn [_submit_generation_request].
  { intros E; injection E as <- <-. exists O. by repeat split. }
  unfold _wait_for_rate_limit, bind at 1.
  destruct (wait_loop fuel (max_requests g model) w) as [rw w1] eqn:Ewait.
  pose proof (wait_loop_posts _ _ _ _ _ Ewait) as (Hp1 & Hd1 & _).
  apply wait_loop_counter in Ewait as (_ & _ & [[-> _]| ->]).
  2: { intros E; injection E as <- <-. exists O.
       repeat split; [lia|by rewrite Hp1|done]. }
  run. fold req.
  destruct (http_post env _ req) as [|status_code text json content]; run.
  { intros E; injection E as <- <-. exists 1%nat. simpl.
    rewrite Hp1. repeat split; lia. }
  destruct (status_code =? 200).
  { destruct (read_task_info env g json _) as [r1 w2] eqn:Eread.
    apply read_task_info_posts in Eread as (Hp2 & Hd2 & Hnot).
    unfold count in Hd2. simpl in Hp2, Hd2.
    destruct r1; try done; intros E; injection E as <- <-; exists 1%nat;
      simpl; rewrite Hp2, Hd2, Hp1; repeat split; lia. }
  destruct (status_code =? 429).
  { match goal with
    | |- context [_submit_generation_request fuel env g prompt model
                    aspect_ratio reference_image ?w2] =>
      destruct (_submit_generation_request fuel env g prompt model
                  aspect_ratio reference_image w2) as [r2 w3] eqn:Erec;
      apply (IH w2) in Erec as (n & Hn & Hp3 & Hd3)
    end.
    simpl in Hp3, Hd3. fold req in Hp3.
    assert (Hshift : replicate n req ++ req :: posted (trace w)
                     = replicate (S n) req ++ posted (trace w)).
    { rewrite (cons_middle req (replicate n req)), app_assoc.
      by rewrite <- replicate_S_end. }
    destruct r2 as [a|e|]; intros E; injection E as <- <-; exists (S n);
      simpl; rewrite Hp3, Hp1, Hshift; (repeat split; [lia|]);
      intros Hr; try done;
      (assert (Hd : (count_events is_draw (trace w3) + 1)%nat =
                    S (count_events is_draw (trace w1) + n)) by by apply Hd3);
      unfold count in *; lia. }
  destruct (status_code =? 402); run;
    intros E; injection E as <- <-; exists 1%nat; simpl; rewrite Hp1;
    repeat split; lia.
Qed.
End SameRequest.

(** X4: every POST of a submission, first attempt and retries alike, sends
    the same request; there are at most as many as the recursion is deep;
    and when the call ends, every POST but the last was answered 429 and
    followed by one draw of [random.uniform]. *)
Theorem submit_posts_same_request
    (fuel : nat) (env : Env) (g : Generator) (prompt : string)
    (model : FluxModel) (aspect_ratio : string) (reference_image : option string)
    (w : World) :
  let req := build_request g prompt model aspect_ratio reference_image in
  let out := _submit_generation_request fuel env g prompt model aspect_ratio
               reference_image w in
  exists n : nat,
    (n <= fuel)%nat /\
    posted (trace out.2) = replicate n req ++ posted (trace w) /\
    (out.1 <> Running -> (count is_draw out.2 + 1 = count is_draw w + n)%nat).
Proof.
  intros req out. destruct out as [r w'] eqn:Eout. subst out.
  by apply (submit_posts env g prompt model aspect_ratio reference_image fuel).
Qed.

(** *** The first turn of the poll loop *)

Section FirstTurn.
Context (env : Env) (task_info : TaskInfo) (url : string) (timeout : float)
        (fuel : nat) (w : World).
Hypothesis Hurl : polling_url task_info = JStr url.

Let t0 := clock env (count is_tick w).
Let t1 := clock env (S (count is_tick w)).
Hypothesis Hcheck : PrimFloat.ltb (PrimFloat.sub t1 t0) timeout = true.

(** The world at the first poll: two readings of the clock so far. *)
Definition at_first_poll : World := push [EvTick t1; EvTick t0] w.

Lemma poll_first_turn :
  _poll_for_result (S fuel) env task_info timeout w =
  (ctl <- poll_body env task_info 2 ;;
   match ctl with
   | Stop r => ret r
   | Continue wait_time' => poll_loop fuel env task_info timeout t0 wait_time'
   end) at_first_poll.
Proof.
  unfold _poll_for_result. cbn [poll_loop].
  unfold bind at 1, time_time at 1. unfold bind at 1, emit at 1, ret at 1.
  unfold bind at 1, time_time at 1. unfold bind at 1, emit at 1, ret at 1.
  unfold count. simpl. fold (count is_tick w). fold t0 t1. rewrite Hcheck.
  reflexivity.
Qed.

Lemma first_poll_index : count is_get at_first_poll = count is_get w.
Proof. reflexivity. Qed.
End FirstTurn.

(** X5: when the first poll is answered [Ready] and the sample URL is
    served with status 200, [_poll_for_result] returns the content of that
    download: two GETs (the poll, then the sample), no sleep, no log. *)
Theorem poll_ready_returns_image
    (fuel : nat) (env : Env) (task_info : TaskInfo) (url : string)
    (timeout : float) (w : World)
    (text text' : string) (fields sample : list (string * Json))
    (content image : bytes) (image_url : string) (json' : option Json) :
  polling_url task_info = JStr url ->
  PrimFloat.ltb
    (PrimFloat.sub (clock env (S (count is_tick w))) (clock env (count is_tick w)))
    timeout = true ->
  http_get env (count is_get w) url
  = Response 200 text (Some (JObj fields)) content ->
  assoc "status" fields = Some (JStr "Ready") ->
  assoc "result" fields = Some (JObj sample) ->
  assoc "sample" sample = Some (JStr image_url) ->
  http_get env (S (count is_get w)) image_url = Response 200 text' json' image ->
  _poll_for_result (S fuel) env task_info timeout w =
  (Return (Some image),
   push [EvGet image_url; EvGet url;
         EvTick (clock env (S (count is_tick w)));
         EvTick (clock env (count is_tick w))] w).
Proof.
  intros Hurl Hcheck Hpoll Hstatus Hresult Hsample Hdownload.
  rewrite (poll_first_turn env task_info timeout fuel w Hcheck).
  unfold poll_body, download_result, requests_get_json, at_first_poll, push.
  rewrite Hurl. cbn [app]. run. rewrite Hpoll. cbn [Z.eqb Pos.eqb].
  unfold response_json, dict_get, subscript. run.
  rewrite Hstatus. simpl. rewrite Hresult. run. rewrite Hsample. run.
  rewrite Hdownload. reflexivity.
Qed.

Lemma poll_ready_returns_image_witness :
  let env := Mock.env Mock.no_submission Mock.ready_at_once Mock.frozen_clock in
  let w := init_world ∅ in
  _poll_for_result 1 env Mock.task 300 w =
  (Return (Some Mock.rgb_2x2),
   push [EvGet "https://delivery/img.png";
         EvGet "https://api.bfl.ai/v1/get_result?id=job-1";
         EvTick (clock env (S (count is_tick w)));
         EvTick (clock env (count is_tick w))] w).
Proof.
  apply (poll_ready_returns_image 0
           (Mock.env Mock.no_submission Mock.ready_at_once Mock.frozen_clock)
           Mock.task "https://api.bfl.ai/v1/get_result?id=job-1" 300
           (init_world ∅) "{...}" EmptyString
           [("status"%string, JStr "Ready");
            ("result"%string,
             JObj [("sample"%string, JStr "https://delivery/img.png")])]
           [("sample"%string, JStr "https://delivery/img.png")]
           [] Mock.rgb_2x2 "https://delivery/img.png" None);
    reflexivity.
Defined.

(** X6: when the poll is answered [Ready] but the sample URL is served
    with a status other than 200, [_poll_for_result] returns [None] at once,
    logging that status: the download is not tried again and the timeout
    plays no part. *)
Theorem poll_ready_download_refused
    (fuel : nat) (env : Env) (task_info : TaskInfo) (url : string)
    (timeout : float) (w : World)
    (text text' : string) (fields sample : list (string * Json))
    (content image : bytes) (image_url : string) (json' : option Json)
    (status_code : Z) :
  polling_url task_info = JStr url ->
  PrimFloat.ltb
    (PrimFloat.sub (clock env (S (count is_tick w))) (clock env (count is_tick w)))
    timeout = true ->
  http_get env (count is_get w) url
  = Response 200 text (Some (JObj fields)) content ->
  assoc "status" fields = Some (JStr "Ready") ->
  assoc "result" fields = Some (JObj sample) ->
  assoc "sample" sample = Some (JStr image_url) ->
  http_get env (S (count is_get w)) image_url
  = Response status_code text' json' image ->
  status_code <> 200 ->
  _poll_for_result (S fuel) env task_info timeout w =
  (Return None,
   push [EvLog (FailedToDownload status_code); EvGet image_url; EvGet url;
         EvTick (clock env (S (count is_tick w)));
         EvTick (clock env (count is_tick w))] w).
Proof.
  intros Hurl Hcheck Hpoll Hstatus Hresult Hsample Hdownload Hcode.
  rewrite (poll_first_turn env task_info timeout fuel w Hcheck).
  unfold poll_body, download_result, requests_get_json, at_first_poll, push.
  rewrite Hurl. cbn [app]. run. rewrite Hpoll. cbn [Z.eqb Pos.eqb].
  unfold response_json, dict_get, subscript. run.
  rewrite Hstatus. simpl. rewrite Hresult. run. rewrite Hsample. run.
  rewrite Hdownload. rewrite (proj2 (Z.eqb_neq status_code 200) Hcode).
  reflexivity.
Qed.

Lemma poll_ready_download_refused_witness :
  let env := Mock.env Mock.no_submission Scripts.ready_but_gone
               Mock.frozen_clock in
  let w := init_world ∅ in
  _poll_for_result 1 env Mock.task 300 w =
  (Return None,
   push [EvLog (FailedToDownload 404);
         EvGet "https://delivery/img.png";
         EvGet "https://api.bfl.ai/v1/get_result?id=job-1";
         EvTick (clock env (S (count is_tick w)));
         EvTick (clock env (count is_tick w))] w).
Proof.
  apply (poll_ready_download_refused 0
           (Mock.env Mock.no_submission Scripts.ready_but_gone
              Mock.frozen_clock)
           Mock.task "https://api.bfl.ai/v1/get_result?id=job-1" 300
           (init_world ∅) "{...}" "Not Found"
           [("status"%string, JStr "Ready");
            ("result"%string,
             JObj [("sample"%string, JStr "https://delivery/img.png")])]
           [("sample"%string, JStr "https://delivery/img.png")]
           [] [] "https://delivery/img.png" None 404);
    try reflexivity.
  discriminate.
Defined.

(** X7: a poll answered with status [Error] or [Content Moderated] ends the
    call with [None] at once: the status is logged, and the [details] of
    the answer when it has any; nothing is downloaded and nothing slept. *)
Theorem poll_generation_rejected
    (fuel : nat) (env : Env) (task_info : TaskInfo) (url : string)
    (timeout : float) (w : World)
    (text : string) (fields : list (string * Json)) (content : bytes)
    (status : string) :
  polling_url task_info = JStr url ->
  PrimFloat.ltb
    (PrimFloat.sub (clock env (S (count is_tick w))) (clock env (count is_tick w)))
    timeout = true ->
  http_get env (count is_get w) url
  = Response 200 text (Some (JObj fields)) content ->
  assoc "status" fields = Some (JStr status) ->
  status = "Error"%string \/ status = "Content Moderated"%string ->
  _poll_for_result (S fuel) env task_info timeout w =
  (Return None,
   push ((match assoc "details" fields with
          | Some details => [EvLog (Details details)]
          | None => []
          end)
         ++ [EvLog (GenerationFailed (JStr status)); EvGet url;
             EvTick (clock env (S (count is_tick w)));
             EvTick (clock env (count is_tick w))]) w).
Proof.
  intros Hurl Hcheck Hpoll Hstatus Hrejected.
  rewrite (poll_first_turn env task_info timeout fuel w Hcheck).
  unfold poll_body, requests_get_json, at_first_poll, push.
  rewrite Hurl. cbn [app]. run. rewrite Hpoll. cbn [Z.eqb Pos.eqb].
  unfold response_json, dict_get, subscript, has_key. run.
  rewrite Hstatus.
  assert (Hbranch : is_str (JStr status) "Ready" = false /\
                    is_str (JStr status) "Error"
                    || is_str (JStr status) "Content Moderated" = true)
    by (destruct Hrejected as [-> | ->]; done).
  destruct Hbranch as [-> ->].
  destruct (assoc "details" fields) as [details|] eqn:Hdetails.
  - rewrite bool_decide_eq_true_2 by done. run. reflexivity.
  - rewrite bool_decide_eq_false_2 by (intros [? ?]; done). run. reflexivity.
Qed.

Lemma poll_generation_rejected_witness :
  let env := Mock.env Mock.no_submission (Mock.always Scripts.moderated)
               Mock.frozen_clock in
  let w := init_world ∅ in
  _poll_for_result 1 env Mock.task 300 w =
  (Return None,
   push ((match assoc "details"
                  [("status"%string, JStr "Content Moderated");
                   ("details"%string, JStr "flagged")]
          with
          | Some details => [EvLog (Details details)]
          | None => []
          end)
         ++ [EvLog (GenerationFailed (JStr "Content Moderated"));
             EvGet "https://api.bfl.ai/v1/get_result?id=job-1";
             EvTick (clock env (S (count is_tick w)));
             EvTick (clock env (count is_tick w))]) w).
Proof.
  apply (poll_generation_rejected 0
           (Mock.env Mock.no_submission (Mock.always Scripts.moderated)
              Mock.frozen_clock)
           Mock.task "https://api.bfl.ai/v1/get_result?id=job-1" 300
           (init_world ∅) "{...}"
           [("status"%string, JStr "Content Moderated");
            ("details"%string, JStr "flagged")]
           [] "Content Moderated");
    try reflexivity.
  by right.
Defined.

(** What a failed poll raises: the transport failed, or the 200 body is
    not JSON, or not a JSON object. *)
Definition poll_error (r : Reply) : option exn :=
  match r with
  | Fails => Some RequestException
  | Response status_code _ json _ =>
    if status_code =? 200 then
      match json with
      | None => Some JSONDecodeError
      | Some (JObj _) => None
      | Some _ => Some (AttributeError "get")
      end
    else None
  end.

(** X8: a poll that fails in the transport, or is answered 200 with a body
    that is not a JSON object, ends the call with [None] at once: the
    exception is caught and logged, the poll is not repeated. *)
Theorem poll_exception_caught
    (fuel : nat) (env : Env) (task_info : TaskInfo) (url : string)
    (timeout : float) (w : World) (e : exn) :
  polling_url task_info = JStr url ->
  PrimFloat.ltb
    (PrimFloat.sub (clock env (S (count is_tick w))) (clock env (count is_tick w)))
    timeout = true ->
  poll_error (http_get env (count is_get w) url) = Some e ->
  _poll_for_result (S fuel) env task_info timeout w =
  (Return None,
   push [EvLog (PollingFailed e); EvGet url;
         EvTick (clock env (S (count is_tick w)));
         EvTick (clock env (count is_tick w))] w).
Proof.
  intros Hurl Hcheck Herror.
  rewrite (poll_first_turn env task_info timeout fuel w Hcheck).
  unfold poll_body, requests_get_json, at_first_poll, push.
  rewrite Hurl. cbn [app]. run. revert Herror. unfold poll_error.
  destruct (http_get env _ url) as [|status_code text json content].
  - intros [= <-]. reflexivity.
  - destruct (status_code =? 200); [|done].
    unfold response_json, dict_get. run.
    destruct json as [[| | |fields]|]; intros [= <-]; reflexivity.
Qed.

Lemma poll_exception_caught_witness :
  let env := Mock.env Mock.no_submission Mock.never_polled Mock.frozen_clock in
  let w := init_world ∅ in
  _poll_for_result 1 env Mock.task 300 w =
  (Return None,
   push [EvLog (PollingFailed RequestException);
         EvGet "https://api.bfl.ai/v1/get_result?id=job-1";
         EvTick (clock env (S (count is_tick w)));
         EvTick (clock env (count is_tick w))] w).
Proof.
  apply (poll_exception_caught 0
           (Mock.env Mock.no_submission Mock.never_polled Mock.frozen_clock)
           Mock.task "https://api.bfl.ai/v1/get_result?id=job-1" 300
           (init_world ∅) RequestException);
    reflexivity.
Defined.

(** X9: a poll answered with a status code other than 200 ends the call
    with [None] at once, logging the code, the text and the polling URL. *)
Theorem poll_http_error
    (fuel : nat) (env : Env) (task_info : TaskInfo) (url : string)
    (timeout : float) (w : World)
    (status_code : Z) (text : string) (json : option Json) (content : bytes) :
  polling_url task_info = JStr url ->
  PrimFloat.ltb
    (PrimFloat.sub (clock env (S (count is_tick w))) (clock env (count is_tick w)))
    timeout = true ->
  http_get env (count is_get w) url = Response status_code text json content ->
  status_code <> 200 ->
  _poll_for_result (S fuel) env task_info timeout w =
  (Return None,
   push [EvLog (PollingURL (JStr url)); EvLog (PollingError status_code text);
         EvGet url;
         EvTick (clock env (S (count is_tick w)));
         EvTick (clock env (count is_tick w))] w).
Proof.
  intros Hurl Hcheck Hpoll Hcode.
  rewrite (poll_first_turn env task_info timeout fuel w Hcheck).
  unfold poll_body, requests_get_json, at_first_poll, push.
  rewrite Hurl. cbn [app]. run. rewrite Hpoll.
  rewrite (proj2 (Z.eqb_neq status_code 200) Hcode). reflexivity.
Qed.

Lemma poll_http_error_witness :
  let env := Mock.env Mock.no_submission (Mock.always Scripts.server_error)
               Mock.frozen_clock in
  let w := init_world ∅ in
  _poll_for_result 1 env Mock.task 300 w =
  (Return None,
   push [EvLog (PollingURL (JStr "https://api.bfl.ai/v1/get_result?id=job-1"));
         EvLog (PollingError 500 "Internal Server Error");
         EvGet "https://api.bfl.ai/v1/get_result?id=job-1";
         EvTick (clock env (S (count is_tick w)));
         EvTick (clock env (count is_tick w))] w).
Proof.
  apply (poll_http_error 0
           (Mock.env Mock.no_submission (Mock.always Scripts.server_error)
              Mock.frozen_clock)
           Mock.task "https://api.bfl.ai/v1/get_result?id=job-1" 300
           (init_world ∅) 500 "Internal Server Error" None []);
    try reflexivity.
  discriminate.
Defined.

(** X10: a poll answered 200 with a status the loop has no branch for
    (anything but Ready, Error, Content Moderated and Pending, a missing
    status included) is followed by the next turn of the loop right away:
    no sleep, no log, and the interval stays at its value. *)
Theorem poll_unknown_status_spins
    (fuel : nat) (env : Env) (task_info : TaskInfo) (url : string)
    (timeout : float) (w : World) (status : Json) :
  polling_url task_info = JStr url ->
  PrimFloat.ltb
    (PrimFloat.sub (clock env (S (count is_tick w))) (clock env (count is_tick w)))
    timeout = true ->
  reply_status (http_get env (count is_get w) url) = Some status ->
  is_terminal_status status = false ->
  is_str status "Pending" = false ->
  _poll_for_result (S fuel) env task_info timeout w =
  poll_loop fuel env task_info timeout (clock env (count is_tick w)) 2
    (push [EvGet url;
           EvTick (clock env (S (count is_tick w)));
           EvTick (clock env (count is_tick w))] w).
Proof.
  intros Hurl Hcheck Hstatus Hterminal Hpending.
  rewrite (poll_first_turn env task_info timeout fuel w Hcheck).
  unfold poll_body, requests_get_json, at_first_poll, push.
  rewrite Hurl. cbn [app]. run. revert Hstatus. unfold reply_status.
  destruct (http_get env _ url) as [|status_code text [[| | |fields]|] content];
    try done.
  destruct (status_code =? 200); [|done].
  unfold response_json, dict_get. run. intros [= ->].
  unfold is_terminal_status in Hterminal.
  apply orb_false_iff in Hterminal as [Hterminal Hmoderated].
  apply orb_false_iff in Hterminal as [Hready Herror].
  rewrite Hready, Herror, Hmoderated, Hpending. reflexivity.
Qed.

Lemma poll_unknown_status_spins_witness :
  let env := Mock.env Mock.no_submission
               (Mock.always (Mock.status_reply "Task not found"))
               Mock.frozen_clock in
  let w := init_world ∅ in
  _poll_for_result 1 env Mock.task 300 w =
  poll_loop 0 env Mock.task 300 (clock env (count is_tick w)) 2
    (push [EvGet "https://api.bfl.ai/v1/get_result?id=job-1";
           EvTick (clock env (S (count is_tick w)));
           EvTick (clock env (count is_tick w))] w).
Proof.
  apply (poll_unknown_status_spins 0
           (Mock.env Mock.no_submission
              (Mock.always (Mock.status_reply "Task not found"))
              Mock.frozen_clock)
           Mock.task "https://api.bfl.ai/v1/get_result?id=job-1" 300
           (init_world ∅) (JStr "Task not found"));
    reflexivity.
Defined.

(** *** generate_image *)

(** X11: whatever the transport, the clock and the service answer,
    [generate_image] lets no exception out, leaves the file system as it
    found it and writes nothing: failures of the submission and of the
    poll come back as [None]. *)
Theorem generate_image_contained
    (fuel : nat) (env : Env) (g : Generator) (prompt : string)
    (model : FluxModel) (aspect_ratio : string) (reference_image : option string)
    (w : World) :
  let out := generate_image fuel env g prompt model aspect_ratio
               reference_image w in
  (forall e : exn, out.1 <> Raise e) /\
  fs out.2 = fs w /\
  count is_write out.2 = count is_write w.
Proof.
  intros out. split.
  - apply catches_generate_image.
  - destruct out as [r w'] eqn:Eout. subst out.
    by apply (quiet_generate_image _ _ _ _ _ _ _ _ _ _ Eout).
Qed.

(** X12: a submission that is refused (transport failure, or a status
    other than 200 and 429) is never polled: [generate_image] returns
    [None] without any GET and without reading the clock. *)
Theorem generate_image_refused_not_polled
    (fuel : nat) (env : Env) (g : Generator) (prompt : string)
    (model : FluxModel) (aspect_ratio : string) (reference_image : option string)
    (w : World) :
  active_requests w < max_requests g model ->
  is_refusal (http_post env (count is_post w)
                (build_request g prompt model aspect_ratio reference_image))
  = true ->
  let out := generate_image (S fuel) env g prompt model aspect_ratio
               reference_image w in
  out.1 = Return None /\
  count is_get out.2 = count is_get w /\
  count is_tick out.2 = count is_tick w /\
  count is_post out.2 = S (count is_post w).
Proof.
  intros Hfree Hrefusal out.
  subst out. unfold generate_image, bind.
  rewrite (submit_refused fuel env g prompt model aspect_ratio reference_image
             w Hfree Hrefusal).
  unfold count. simpl. done.
Qed.

Lemma generate_image_refused_not_polled_witness :
  let env := Mock.env Mock.out_of_credits Mock.never_polled Mock.frozen_clock in
  let w := init_world ∅ in
  let out := generate_image 1 env Mock.g "a yeti" KONTEXT_PRO "1:1" None w in
  out.1 = Return None /\
  count is_get out.2 = count is_get w /\
  count is_tick out.2 = count is_tick w /\
  count is_post out.2 = S (count is_post w).
Proof.
  apply (generate_image_refused_not_polled 0
           (Mock.env Mock.out_of_credits Mock.never_polled Mock.frozen_clock)
           Mock.g "a yeti" KONTEXT_PRO "1:1" None (init_world ∅)).
  - unfold Mock.g, max_requests; simpl. lia.
  - reflexivity.
Defined.

(** X13: the interval between two polls never leaves the range from 2 to
    15 seconds and never decreases from one [Pending] turn to the next. *)
Theorem backoff_bounded_monotone (n : nat) :
  PrimFloat.leb 2 (backoff n) = true /\
  PrimFloat.leb (backoff n) 15 = true /\
  PrimFloat.leb (backoff n) (backoff (S n)) = true.
Proof.
  destruct (Nat.lt_ge_cases n 12) as [Hlt|Hge].
  - do 12 (destruct n as [|n]; [vm_compute; done|]). lia.
  - replace n with (12 + (n - 12))%nat by lia.
    replace (S (12 + (n - 12))) with (12 + S (n - 12))%nat by lia.
    rewrite !backoff_capped_from_12. vm_compute. done.
Qed.

(** *** post_process_image *)

(** X14: [post_process_image] never raises and never touches the file
    system: either it returns bytes and has logged nothing, or an
    exception of Pillow was caught, it has logged that exception and
    returns [None]; bytes that do not open as an image give [None]. *)
Theorem post_process_failure_is_none
    (env : Env) (image_data : bytes) (target_size : Z * Z) (w : World) :
  let out := post_process_image env image_data target_size w in
  ((exists data, out = (Return (Some data), w)) \/
   (exists e, out = (Return None, push [EvLog (PostProcessingFailed e)] w))) /\
  (forall e, Image_open env image_data = inl e ->
     out = (Return None, push [EvLog (PostProcessingFailed e)] w)).
Proof.
  intros out. subst out. unfold post_process_image, push. run. split.
  - destruct (Image_open env image_data) as [e|img]; [right; by eexists|].
    destruct (String.eqb (mode img) "RGBA").
    + destruct (Image_resize env img target_size) as [e|img2];
        [right; by eexists|].
      destruct (_ && _).
      * destruct (Image_sharpen env img2) as [e|img3]; [right; by eexists|].
        destruct (Image_save_png env img3); [right|left]; by eexists.
      * destruct (Image_save_png env img2); [right|left]; by eexists.
    + destruct (Image_convert env img "RGBA") as [e|img1];
        [right; by eexists|].
      destruct (Image_resize env img1 target_size) as [e|img2];
        [right; by eexists|].
      destruct (_ && _).
      * destruct (Image_sharpen env img2) as [e|img3]; [right; by eexists|].
        destruct (Image_save_png env img3); [right|left]; by eexists.
      * destruct (Image_save_png env img2); [right|left]; by eexists.
  - intros e ->. reflexivity.
Qed.

(** *** generate_asset and generate_batch *)

(** Where [generate_asset] saves. *)
Definition asset_path (g : Generator) (spec : AssetSpec)
    (variation : option string) : string :=
  output_dir g +:+ "/" +:+ asset_filename spec variation.

(** What a call of [generate_asset] that returns has done to the files:
    [True] means exactly one write, at the asset's path, of bytes that
    [post_process_image] produced; [False] means none. *)
Lemma generate_asset_outcome (fuel : nat) (env : Env) (g : Generator)
    (spec : AssetSpec) (variation : option string) (w w' : World) (b : bool) :
  generate_asset fuel env g spec variation w = (Return b, w') ->
  if b then
    exists (data raw : bytes) (w1 w2 : World),
      post_process_image env raw (size spec) w1 = (Return (Some data), w2) /\
      fs w' = <[asset_path g spec variation := File data]> (fs w) /\
      count is_write w' = S (count is_write w)
  else fs w' = fs w /\ count is_write w' = count is_write w.
Proof.
  unfold generate_asset. unfold bind at 1.
  destruct (asset_inputs env spec variation w) as [[inputs| |] w1] eqn:Hin;
    try done.
  pose proof (quiet_asset_inputs env spec variation _ _ _ Hin) as [Hfs1 Hct1].
  unfold bind at 1.
  destruct (generate_image fuel env g inputs.1 (model spec) (aspect_ratio spec)
              inputs.2 w1) as [[image_data| |] w2] eqn:Hgen; try done.
  pose proof (quiet_generate_image _ _ _ _ _ _ _ _ _ _ Hgen) as [Hfs2 Hct2].
  unfold finish_asset.
  destruct (truthy_bytes image_data) eqn:Himg.
  2: { run. intros [= <- <-]. unfold count in *. simpl. split; congruence. }
  unfold bind at 1.
  destruct (post_process_image env (default [] image_data) (size spec) w2)
    as [[processed| |] w3] eqn:Hpost; try done.
  pose proof (quiet_post_process_image _ _ _ _ _ _ Hpost) as [Hfs3 Hct3].
  destruct (truthy_bytes processed) eqn:Hproc.
  2: { run. intros [= <- <-]. unfold count in *. simpl. split; congruence. }
  destruct processed as [[|b0 data]|]; try done. simpl.
  unfold write_file. run. fold (asset_path g spec variation).
  destruct (fs w3 !! asset_path g spec variation) as [[c|]|];
    intros [= <- <-]; try done;
    (exists (b0 :: data), (default [] image_data), w2, w3;
     unfold count in *; simpl; repeat split; [done|congruence|congruence]).
Qed.

(** X15: when [generate_asset] returns [True], the file at
    [<output_dir>/<name>[_<variation>].png] holds bytes that decode to a
    PNG image in mode RGBA of exactly the size the spec asks for; no other
    path of the file system changed, and there was exactly one write.
    Pillow is taken by its contract. *)
Theorem generate_asset_saves_exact_image
    (fuel : nat) (env : Env) (g : Generator) (spec : AssetSpec)
    (variation : option string) (w w' : World) :
  PIL_contract env ->
  generate_asset fuel env g spec variation w = (Return true, w') ->
  let path := output_dir g +:+ "/" +:+ asset_filename spec variation in
  exists data : bytes,
    fs w' !! path = Some (File data) /\
    decodes_to env data (size spec) /\
    (forall other : string, other <> path -> fs w' !! other = fs w !! other) /\
    count is_write w' = S (count is_write w).
Proof.
  intros Hpil Hgen path.
  assert (Hpath : path = asset_path g spec variation) by reflexivity.
  apply generate_asset_outcome in Hgen
    as (data & raw & w1 & w2 & Hpost & Hfs & Hct).
  exists data. rewrite Hpath, Hfs. repeat split.
  - apply lookup_insert_eq.
  - by apply (post_process_decodes env Hpil raw (size spec) w1 w2).
  - intros other Hother. by apply lookup_insert_ne.
  - done.
Qed.

Lemma generate_asset_saves_exact_image_witness :
  let env := Mock.env (Mock.busy_then_accepted 0) Mock.ready_at_once
               Mock.frozen_clock in
  let w := init_world ∅ in
  let w' := (generate_asset 2 env Mock.g Mock.yeti_jump None w).2 in
  let path := output_dir Mock.g +:+ "/" +:+ asset_filename Mock.yeti_jump None in
  exists data : bytes,
    fs w' !! path = Some (File data) /\
    decodes_to env data (size Mock.yeti_jump) /\
    (forall other : string, other <> path -> fs w' !! other = fs w !! other) /\
    count is_write w' = S (count is_write w).
Proof.
  apply (generate_asset_saves_exact_image 2
           (Mock.env (Mock.busy_then_accepted 0) Mock.ready_at_once
              Mock.frozen_clock)
           Mock.g Mock.yeti_jump None (init_world ∅)).
  - apply mock_pil.
  - vm_compute. reflexivity.
Defined.

Lemma generate_asset_writes (fuel : nat) (env : Env) (g : Generator)
    (spec : AssetSpec) (variation : option string) (w w' : World) (b : bool) :
  generate_asset fuel env g spec variation w = (Return b, w') ->
  Z.of_nat (count is_write w')
  = Z.of_nat (count is_write w) + (if b then 1 else 0).
Proof.
  intros Hgen. apply generate_asset_outcome in Hgen. destruct b.
  - destruct Hgen as (_ & _ & _ & _ & _ & _ & ->). lia.
  - destruct Hgen as [_ ->]. lia.
Qed.

Lemma for_variations_counts (fuel : nat) (env : Env) (g : Generator)
    (spec : AssetSpec) (vs : list string) :
  forall (n n' : Z) (w w' : World),
  for_variations fuel env g spec vs n w = (Return n', w') ->
  n' - n = Z.of_nat (count is_write w') - Z.of_nat (count is_write w).
Proof.
  induction vs as [|v vs IH]; intros n n' w w'; cbn [for_variations].
  - intros [= <- <-]. lia.
  - unfold bind at 1.
    destruct (generate_asset fuel env g spec (Some v) w) as [[ok| |] w1] eqn:Hgen;
      try done.
    apply generate_asset_writes in Hgen.
    unfold bind at 1, sleep, emit. intros Hrest. apply IH in Hrest.
    unfold count in *. simpl in Hrest. destruct ok; lia.
Qed.

Lemma for_specs_counts (fuel : nat) (env : Env) (g : Generator)
    (specs : list AssetSpec) :
  forall (n n' : Z) (w w' : World),
  for_specs fuel env g specs n w = (Return n', w') ->
  n' - n = Z.of_nat (count is_write w') - Z.of_nat (count is_write w).
Proof.
  induction specs as [|spec specs IH]; intros n n' w w'; cbn [for_specs].
  - intros [= <- <-]. lia.
  - unfold bind at 1.
    destruct (variations spec) as [[|v vs]|].
    + unfold bind at 1.
      destruct (generate_asset fuel env g spec None w) as [[ok| |] w1] eqn:Hgen;
        try done.
      apply generate_asset_writes in Hgen. run.
      intros Hrest. apply IH in Hrest. simpl in Hrest. destruct ok; lia.
    + destruct (for_variations fuel env g spec (v :: vs) n w)
        as [[n1| |] w1] eqn:Hvars; try done.
      apply for_variations_counts in Hvars.
      intros Hrest. apply IH in Hrest. lia.
    + unfold bind at 1.
      destruct (generate_asset fuel env g spec None w) as [[ok| |] w1] eqn:Hgen;
        try done.
      apply generate_asset_writes in Hgen. run.
      intros Hrest. apply IH in Hrest. simpl in Hrest. destruct ok; lia.
Qed.

(** X16: when [generate_batch] returns, its answer tells whether any file
    was written: [True] exactly when at least one asset of the group was
    saved, [False] when none was (all failed, or the group is empty). *)
Theorem generate_batch_true_iff_saved
    (fuel : nat) (env : Env) (g : Generator) (group : string)
    (w w' : World) (b : bool) :
  generate_batch fuel env g group w = (Return b, w') ->
  (b = true <-> (count is_write w < count is_write w')%nat).
Proof.
  unfold generate_batch.
  destruct (filter _ (asset_specs g)) as [|spec specs].
  { run. intros [= <- <-]. simpl. split; [done|lia]. }
  unfold bind at 1, log, emit.
  destruct (String.eqb group "yeti_run").
  { unfold bind, getattr.
    destruct (instance_dict g !! "_generate_animation_sequence"%string);
      [done|].
    destruct (bool_decide _); done. }
  unfold bind at 1.
  destruct (for_specs fuel env g (spec :: specs) 0 _) as [[n| |] w1] eqn:Hloop;
    try done.
  apply for_specs_counts in Hloop. unfold count in *. simpl in Hloop.
  run. intros [= <- <-]. simpl. rewrite Z.ltb_lt. lia.
Qed.

Lemma generate_batch_true_iff_saved_witness :
  let env := Mock.env (Mock.busy_then_accepted 0)
               (Mock.always (Mock.status_reply "Error")) Mock.frozen_clock in
  let w := init_world ∅ in
  let w' := (generate_batch 2 env Mock.g "yeti" w).2 in
  false = true <-> (count is_write w < count is_write w')%nat.
Proof.
  apply (generate_batch_true_iff_saved 2
           (Mock.env (Mock.busy_then_accepted 0)
              (Mock.always (Mock.status_reply "Error")) Mock.frozen_clock)
           Mock.g "yeti" (init_world ∅)).
  vm_compute. reflexivity.
Defined.

(** X17: asked for a batch group no asset of the catalog belongs to,
    [generate_batch] logs it and returns [False]: nothing is requested. *)
Theorem generate_batch_unknown_group
    (fuel : nat) (env : Env) (g : Generator) (group : string) (w : World) :
  (forall spec, spec ∈ asset_specs g -> batch_group spec <> Some group) ->
  generate_batch fuel env g group w
  = (Return false, push [EvLog (NoAssetsForBatch group)] w).
Proof.
  intros Hnone. unfold generate_batch.
  assert (Hfilter : filter (fun spec => batch_group spec = Some group)
                      (asset_specs g) = []).
  { induction (asset_specs g) as [|spec specs IH]; [done|].
    rewrite filter_cons_False.
    - apply IH. intros spec' Hin. apply Hnone. by right.
    - apply Hnone. by left. }
  rewrite Hfilter. reflexivity.
Qed.

Lemma generate_batch_unknown_group_witness :
  let env := Mock.env Mock.no_submission Mock.never_polled Mock.frozen_clock in
  generate_batch 2 env Mock.g "yeti_run" (init_world ∅)
  = (Return false, push [EvLog (NoAssetsForBatch "yeti_run")] (init_world ∅)).
Proof.
  apply (generate_batch_unknown_group 2
           (Mock.env Mock.no_submission Mock.never_polled Mock.frozen_clock)
           Mock.g "yeti_run" (init_world ∅)).
  intros spec Hin. apply list_elem_of_In in Hin. simpl in Hin.
  repeat (destruct Hin as [<-|Hin]; [discriminate|]). destruct Hin.
Defined.

(** X18: for the group [yeti_run], as soon as the catalog has an asset in
    it, [generate_batch] calls [self._generate_animation_sequence], a
    method the class does not have (it has
    [_generate_animation_sequence_simplified]): [AttributeError] is raised
    after the first log line, before anything is requested. *)
Theorem generate_batch_yeti_run_raises
    (fuel : nat) (env : Env) (g : Generator) (w : World) (spec : AssetSpec) :
  spec ∈ asset_specs g ->
  batch_group spec = Some "yeti_run"%string ->
  generate_batch fuel env g "yeti_run" w
  = (Raise (AttributeError "_generate_animation_sequence"),
     push [EvLog (GeneratingBatch "yeti_run")] w).
Proof.
  intros Hin Hgroup. unfold generate_batch.
  destruct (filter _ (asset_specs g)) as [|spec' specs] eqn:Hfilter.
  { assert (Hmem : spec ∈ filter (fun spec => batch_group spec
                                   = Some "yeti_run"%string) (asset_specs g))
      by (apply list_elem_of_filter; done).
    rewrite Hfilter in Hmem. by apply elem_of_nil in Hmem. }
  reflexivity.
Qed.

Lemma generate_batch_yeti_run_raises_witness :
  let env := Mock.env Mock.no_submission Mock.never_polled Mock.frozen_clock in
  generate_batch 2 env Scripts.g_run "yeti_run" (init_world ∅)
  = (Raise (AttributeError "_generate_animation_sequence"),
     push [EvLog (GeneratingBatch "yeti_run")] (init_world ∅)).
Proof.
  apply (generate_batch_yeti_run_raises 2
           (Mock.env Mock.no_submission Mock.never_polled Mock.frozen_clock)
           Scripts.g_run (init_world ∅)
           (spec_with "yeti_run" YETI_SPRITE (60, 60)
              "Same yeti character, running" (Some "yeti_run"%string)
              KONTEXT_PRO "1:1")).
  - by left.
  - reflexivity.
Defined.

End FluxCoverage.

(** ** make_transparent.py: paths and the main loop *)

Module TransparentScriptProofs.
Import MakeTransparent TransparentScript MakeTransparentProofs.

(** [os.path.splitext] on the shapes of path that matter: plain names,
    directories with dots, leading dots, no extension. *)
Example splitext_examples :
  map PyStr.splitext
    ["a.png"; "generated_assets/yeti_jump.png"; ".bashrc"; "a/.b"; "a.b/c";
     "..a"; "a..png"; EmptyString; "a."; "dir.d/.x.y"; "..."; "a/b.c.d";
     "..a.b"; "a/...b"]%string
  = [("a", ".png"); ("generated_assets/yeti_jump", ".png");
     (".bashrc", EmptyString); ("a/.b", EmptyString); ("a.b/c", EmptyString);
     ("..a", EmptyString); ("a.", ".png"); (EmptyString, EmptyString);
     ("a", "."); ("dir.d/.x", ".y"); ("...", EmptyString); ("a/b.c", ".d");
     ("..a", ".b"); ("a/...b", EmptyString)]%string.
Proof. vm_compute. reflexivity. Qed.

Lemma append_cons (a : ascii) (s1 s2 : string) :
  String a s1 +:+ s2 = String a (s1 +:+ s2).
Proof. reflexivity. Qed.

Lemma append_empty_l (s : string) : EmptyString +:+ s = s.
Proof. reflexivity. Qed.

Lemma append_empty_r (s : string) : s +:+ EmptyString = s.
Proof.
  induction s as [|a s IH]; [done|]. by rewrite append_cons, IH.
Qed.

Lemma length_append (s1 s2 : string) :
  String.length (s1 +:+ s2) = (String.length s1 + String.length s2)%nat.
Proof.
  induction s1 as [|a s1 IH]; [done|]. rewrite append_cons. simpl.
  by rewrite IH.
Qed.

Lemma substring_all (n : nat) (p : string) :
  (String.length p <= n)%nat -> String.substring 0 n p = p.
Proof.
  revert n. induction p as [|a p IH]; intros [|n] Hn; simpl in *;
    try done; try lia.
  f_equal. apply IH. lia.
Qed.

Lemma slices_join (k : nat) (p : string) :
  PyStr.slice_to k p +:+ PyStr.slice_from k p = p.
Proof.
  unfold PyStr.slice_to, PyStr.slice_from. revert k.
  induction p as [|a p IH]; intros [|k]; simpl; try done.
  - rewrite append_empty_l. f_equal. apply substring_all. lia.
  - rewrite append_cons. f_equal. apply IH.
Qed.

Lemma skip_leading_dots_join (p : string) (extsep : ascii) (dotIndex : Z)
    (turns : nat) :
  forall filenameIndex : Z,
    (PyStr.skip_leading_dots p extsep dotIndex filenameIndex turns).1
    +:+ (PyStr.skip_leading_dots p extsep dotIndex filenameIndex turns).2 = p.
Proof.
  induction turns as [|turns IH]; intros filenameIndex; simpl.
  - apply append_empty_r.
  - destruct (negb _); [apply slices_join|apply IH].
Qed.

(** Root and extension put together give the path back. *)
Lemma splitext_join (p : string) :
  (PyStr.splitext p).1 +:+ (PyStr.splitext p).2 = p.
Proof.
  unfold PyStr.splitext, PyStr._splitext.
  destruct (_ <? _); [apply skip_leading_dots_join|apply append_empty_r].
Qed.

Lemma prefix_append (s1 s2 : string) : String.prefix s1 (s1 +:+ s2) = true.
Proof.
  induction s1 as [|a s1 IH]; [by destruct s2|].
  rewrite append_cons. simpl. destruct (ascii_dec a a); done.
Qed.

Lemma contains_here (sub s : string) :
  String.prefix sub s = true -> PyStr.contains sub s = true.
Proof. intros Hp. destruct s; cbn [PyStr.contains]; by rewrite Hp. Qed.

Lemma contains_append (sub s1 s2 : string) :
  PyStr.contains sub (s1 +:+ sub +:+ s2) = true.
Proof.
  induction s1 as [|a s1 IH].
  - rewrite append_empty_l. apply contains_here, prefix_append.
  - rewrite append_cons. cbn [PyStr.contains]. rewrite IH. apply orb_true_r.
Qed.

Lemma resolve_output_default (p : string) :
  resolve_output p None
  = (PyStr.splitext p).1 +:+ "_transparent" +:+ (PyStr.splitext p).2.
Proof. unfold resolve_output. by destruct (PyStr.splitext p). Qed.

Lemma resolve_output_marked (p : string) :
  PyStr.contains "_transparent" (resolve_output p None) = true.
Proof. rewrite resolve_output_default. apply contains_append. Qed.

(** X19: the pixel scan is idempotent: run on an image it produced,
    [make_transparent] saves the same pixels again (the transparent pixel
    it writes is itself near-white). *)
Theorem make_transparent_idempotent (img : Image) (path path' : string) :
  let once := saved_image (make_transparent img path) in
  let twice := saved_image (make_transparent once path') in
  data twice = data once /\ size twice = size img.
Proof.
  intros once twice. subst once twice. unfold make_transparent.
  cbn [saved_image].
  set (once := putdata img (build_new_data (data img))).
  assert (Hd : data once = map whiten (data img)).
  { unfold once. rewrite putdata_full; rewrite build_new_data_map;
      [done|by rewrite length_map]. }
  split; [|done].
  rewrite putdata_full by (by rewrite build_new_data_map, length_map).
  rewrite build_new_data_map, Hd, map_map. apply map_ext.
  intros [[[r g] b] a].
  unfold whiten. destruct (is_near_white (r, g, b, a)) eqn:Hw; [done|].
  by rewrite Hw.
Qed.

(** X20: the default output path is the root of the input path, then
    [_transparent], then its extension: it is never the input path itself,
    so the conversion never overwrites its input, and it contains
    [_transparent], so [main] leaves it out. *)
Theorem default_output_is_new_and_marked (input_path : string) :
  let output_path := resolve_output input_path None in
  output_path <> input_path /\
  PyStr.contains "_transparent" output_path = true /\
  exists name ext : string,
    PyStr.splitext input_path = (name, ext) /\
    name +:+ ext = input_path /\
    output_path = name +:+ "_transparent" +:+ ext.
Proof.
  intros output_path. subst output_path. rewrite resolve_output_default.
  pose proof (splitext_join input_path) as Hjoin.
  destruct (PyStr.splitext input_path) as [name ext]. simpl in *.
  split; [|split].
  - intros Heq. apply (f_equal String.length) in Heq.
    rewrite <- Hjoin, !length_append in Heq. simpl in Heq. lia.
  - apply contains_append.
  - by exists name, ext.
Qed.

Lemma make_transparent_file_writes_marked (input_path : string) (st st' : State) :
  make_transparent_file input_path None st = Some st' ->
  forall p : string, PyStr.contains "_transparent" p = false ->
    files st' !! p = files st !! p.
Proof.
  unfold make_transparent_file.
  destruct (files st !! input_path) as [img|]; [|done].
  intros [= <-] p Hp. cbn [files]. apply lookup_insert_ne. intros <-.
  unfold make_transparent in Hp. cbn [saved_path] in Hp.
  pose proof (resolve_output_marked input_path) as Hmarked.
  unfold resolve_output in Hmarked. rewrite Hmarked in Hp. done.
Qed.

Lemma make_transparent_file_prints (input_path : string) (st st' : State) :
  make_transparent_file input_path None st = Some st' ->
  printed st'
  = Converted input_path (resolve_output input_path None) :: printed st.
Proof.
  unfold make_transparent_file.
  destruct (files st !! input_path) as [img|]; [|done].
  by intros [= <-].
Qed.

Lemma for_files_keeps_sources (yeti_files : list string) :
  forall st st' : State,
  for_files yeti_files st = Some st' ->
  forall p : string, PyStr.contains "_transparent" p = false ->
    files st' !! p = files st !! p.
Proof.
  induction yeti_files as [|file_path rest IH]; intros st st'; simpl.
  - intros [= <-]. done.
  - destruct (negb _).
    + destruct (make_transparent_file file_path None st) as [st1|] eqn:Hone;
        [|done].
      intros Hrest p Hp. rewrite (IH _ _ Hrest p Hp).
      by apply (make_transparent_file_writes_marked file_path).
    + apply IH.
Qed.

(** X21: a run of [main] only ever writes files whose path contains
    [_transparent]: every other file, the images it converts among them,
    is after the run what it was before; and paths that contain
    [_transparent] are never taken as input. *)
Theorem main_keeps_sources (yeti_files : list string) (st st' : State) :
  main yeti_files st = Some st' ->
  (forall p : string, PyStr.contains "_transparent" p = false ->
     files st' !! p = files st !! p) /\
  (forall input_path output_path : string,
     Converted input_path output_path ∈ printed st' ->
     Converted input_path output_path ∈ printed st \/
     PyStr.contains "_transparent" input_path = false /\
     PyStr.contains "_transparent" output_path = true).
Proof.
  intros Hmain. split.
  - revert Hmain. unfold main. destruct yeti_files as [|f rest].
    + intros [= <-]. done.
    + destruct (for_files (f :: rest) _) as [st1|] eqn:Hloop; [|done].
      intros [= <-] p Hp. simpl.
      by rewrite (for_files_keeps_sources _ _ _ Hloop p Hp).
  - assert (Hloop : forall l s s', for_files l s = Some s' ->
      forall i o, Converted i o ∈ printed s' ->
        Converted i o ∈ printed s \/
        PyStr.contains "_transparent" i = false /\
        PyStr.contains "_transparent" o = true).
    { induction l as [|f l IH]; intros s s'; simpl.
      - intros [= <-]. auto.
      - destruct (PyStr.contains "_transparent" f) eqn:Hf; simpl; [apply IH|].
        destruct (make_transparent_file f None s) as [s1|] eqn:Hone; [|done].
        apply make_transparent_file_prints in Hone.
        intros Hrest i o Hin. destruct (IH _ _ Hrest i o Hin) as [Hold|]; [|auto].
        rewrite Hone in Hold.
        apply elem_of_cons in Hold as [[= -> ->]|Hold]; [|auto].
        right. split; [done|]. apply resolve_output_marked. }
    revert Hmain. unfold main. destruct yeti_files as [|f rest].
    + intros [= <-] i o Hin. simpl in Hin.
      apply elem_of_cons in Hin as [|Hin]; [done|auto].
    + destruct (for_files (f :: rest) _) as [st1|] eqn:Hfor; [|done].
      intros [= <-] i o Hin. simpl in Hin.
      apply elem_of_cons in Hin as [|Hin]; [done|].
      destruct (Hloop _ _ _ Hfor i o Hin) as [Hold|]; [|auto].
      simpl in Hold. apply elem_of_cons in Hold as [|Hold]; [done|auto].
Qed.

Lemma main_keeps_sources_witness :
  let st := {| files := {["generated_assets/yeti_jump.png"%string :=
                           {| size := (1, 2);
                              data := [(255, 255, 255, 255); (0, 0, 0, 255)] |}]};
               printed := [] |} in
  let st' := {| files :=
                  <["generated_assets/yeti_jump_transparent.png"%string :=
                      {| size := (1, 2);
                         data := [(255, 255, 255, 0); (0, 0, 0, 255)] |}]>
                    (files st);
                printed :=
                  [Done;
                   Converted "generated_assets/yeti_jump.png"
                     "generated_assets/yeti_jump_transparent.png";
                   FoundFiles 1] |} in
  (forall p : string, PyStr.contains "_transparent" p = false ->
     files st' !! p = files st !! p) /\
  (forall input_path output_path : string,
     Converted input_path output_path ∈ printed st' ->
     Converted input_path output_path ∈ printed st \/
     PyStr.contains "_transparent" input_path = false /\
     PyStr.contains "_transparent" output_path = true).
Proof.
  apply (main_keeps_sources ["generated_assets/yeti_jump.png"%string]).
  vm_compute. reflexivity.
Defined.

End TransparentScriptProofs.

(** ** asset_generator.py: background removal, animation, references *)

Module OrchestrationProofs.
Import Flux FluxProofs FluxCoverage Orchestration.

(** Unfolding of the orchestration monad. *)
Ltac runO :=
  repeat progress
    (unfold bindO, retO, call, note, try_exceptO in *;
     cbn [world notes fst snd] in *).

(** X22: [remove_background] lets no exception out: whatever fails while
    reading the image, generating, post-processing or writing the result
    is caught by its handler and answered with [False]. *)
Theorem remove_background_never_raises
    (fuel : nat) (env : Env) (pathlib : Pathlib) (g : Generator)
    (image_path : string) (output_path : option string) (st : State) :
  forall e : exn,
    (remove_background fuel env pathlib g image_path output_path st).1
    <> Raise e.
Proof.
  intros e. unfold remove_background.
  unfold bindO at 1, call at 1, os_path_exists. cbn [world].
  destruct (negb _); [done|].
  unfold try_exceptO.
  match goal with
  | |- context [match ?body with _ => _ end] =>
    destruct body as [[b|e'|] st']
  end; done.
Qed.

(** With the place of the result taken by a directory, the call that made
    [generate_asset] raise is answered [False] here. *)
Example remove_background_blocked_result :
  (remove_background 2
     (Mock.env (Mock.busy_then_accepted 0) Mock.ready_at_once Mock.frozen_clock)
     OrchestrationScripts.pathlib Mock.g
     "generated_assets/style_reference.png" (Some "generated_assets/out.png"%string)
     OrchestrationScripts.with_blocked_result).1
  = Return false.
Proof. vm_compute. reflexivity. Qed.

(** Where [remove_background] saves. *)
Definition removed_path (env : Env) (pathlib : Pathlib) (image_path : string)
    (output_path : option string) : string :=
  match output_path with
  | None =>
    path_sibling pathlib image_path
      (path_stem env image_path +:+ "_no_bg" +:+ path_suffix pathlib image_path)
  | Some output_path => output_path
  end.

(** X23: when [remove_background] returns [True], the image it was given
    is a file that opens as an image, and the file at the output path holds
    bytes that decode to a PNG in mode RGBA of the size of that image: the
    result is resized to the original size. Pillow is taken by its
    contract. *)
Theorem remove_background_keeps_size
    (fuel : nat) (env : Env) (pathlib : Pathlib) (g : Generator)
    (image_path : string) (output_path : option string) (st st' : State) :
  PIL_contract env ->
  remove_background fuel env pathlib g image_path output_path st
  = (Return true, st') ->
  exists (content data : bytes) (img : Image),
    fs (world st) !! image_path = Some (File content) /\
    Image_open env content = inr img /\
    fs (world st')
    = <[removed_path env pathlib image_path output_path := File data]>
        (fs (world st)) /\
    decodes_to env data (img_size img).
Proof.
  intros Hpil. unfold remove_background.
  unfold bindO at 1, call at 1, os_path_exists. cbn [world].
  destruct (negb _); [by runO|].
  unfold try_exceptO.
  match goal with
  | |- context [match ?body with _ => _ end] =>
    destruct body as [[b|e'|] st1] eqn:Hbody
  end; try (by runO).
  intros [= -> ->]. revert Hbody.
  unfold bindO at 1, call at 1, _encode_image_to_base64, read_file, bind, ret.
  cbn [world].
  destruct (fs (world st) !! image_path) as [[content|]|] eqn:Hfile; try done.
  cbn [world notes]. unfold bindO at 1, call at 1. cbn [world].
  rewrite Hfile. unfold bindO at 1, call at 1, lift. cbn [world].
  destruct (Image_open env content) as [e|img] eqn:Hopen; [done|].
  unfold ret. fold (removed_path env pathlib image_path output_path).
  unfold bindO at 1, note at 1. unfold bindO at 1, note at 1.
  unfold bindO at 1, call at 1. cbn [world notes].
  destruct (generate_image fuel env g bg_removal_prompt KONTEXT_PRO "1:1" _
              (world st)) as [[processed| |] w1] eqn:Hgen; try done.
  pose proof (quiet_generate_image _ _ _ _ _ _ _ _ _ _ Hgen) as [Hfs1 _].
  destruct (truthy_bytes processed); [|by runO]. cbn [negb].
  unfold bindO at 1, call at 1. cbn [world notes].
  destruct (post_process_image env (default [] processed) (img_size img) w1)
    as [[final| |] w2] eqn:Hpost; try done.
  pose proof (quiet_post_process_image _ _ _ _ _ _ Hpost) as [Hfs2 _].
  destruct (truthy_bytes final) eqn:Hfinal; [|by runO]. cbn [negb].
  destruct final as [[|b0 data]|]; try done.
  unfold bindO at 1, call at 1, write_file. cbn [world notes default].
  destruct (fs w2 !! removed_path env pathlib image_path output_path)
    as [[c|]|]; runO; try done;
    (intros [= <-]; exists content, (b0 :: data), img; cbn [world fs];
     split; [done|split; [done|split; [congruence|]]];
     by apply (post_process_decodes env Hpil _ _ _ _ _ Hpost)).
Qed.

Lemma remove_background_keeps_size_witness :
  let env := Mock.env (Mock.busy_then_accepted 0) Mock.ready_at_once
               Mock.frozen_clock in
  let st := OrchestrationScripts.with_style_guide in
  let st' := (remove_background 2 env OrchestrationScripts.pathlib Mock.g
                "generated_assets/style_reference.png" None st).2 in
  exists (content data : bytes) (img : Image),
    fs (world st) !! "generated_assets/style_reference.png"%string
    = Some (File content) /\
    Image_open env content = inr img /\
    fs (world st')
    = <[removed_path env OrchestrationScripts.pathlib
          "generated_assets/style_reference.png" None := File data]>
        (fs (world st)) /\
    decodes_to env data (img_size img).
Proof.
  apply (remove_background_keeps_size 2
           (Mock.env (Mock.busy_then_accepted 0) Mock.ready_at_once
              Mock.frozen_clock)
           OrchestrationScripts.pathlib Mock.g
           "generated_assets/style_reference.png" None
           OrchestrationScripts.with_style_guide).
  - apply mock_pil.
  - vm_compute. reflexivity.
Defined.

(** *** The animation sequence *)

(** Where the two frames are saved. *)
Definition frame1_path (g : Generator) : string :=
  output_dir g +:+ "/" +:+ asset_filename (frame1_spec g) None.
Definition frame2_path (g : Generator) : string :=
  output_dir g +:+ "/" +:+ asset_filename (frame2_spec g) None.

(** X24: when [_generate_animation_sequence_simplified] returns [True],
    both frames were saved, each under its own name, by exactly two writes;
    when it returns [False], at most the first frame was written. *)
Theorem animation_sequence_outcome
    (fuel : nat) (env : Env) (g : Generator) (st st' : State) (b : bool) :
  _generate_animation_sequence_simplified fuel env g st = (Return b, st') ->
  if b then
    exists d1 d2 : bytes,
      fs (world st')
      = <[frame2_path g := File d2]> (<[frame1_path g := File d1]>
                                        (fs (world st))) /\
      count is_write (world st') = S (S (count is_write (world st)))
  else
    (count is_write (world st') <= S (count is_write (world st)))%nat.
Proof.
  unfold _generate_animation_sequence_simplified.
  unfold bindO at 1, note at 1. unfold bindO at 1, call at 1. cbn [world notes].
  destruct (generate_asset fuel env g (frame1_spec g) None (world st))
    as [[ok1| |] w1] eqn:Hone; try done.
  pose proof (generate_asset_outcome _ _ _ _ _ _ _ _ Hone) as Hout1.
  destruct ok1; cbn [negb].
  2: { runO. intros [= <- <-]. cbn [world]. destruct Hout1 as [_ ->]. lia. }
  destruct Hout1 as (d1 & _ & _ & _ & _ & Hfs1 & Hct1).
  unfold bindO at 1, call at 1, sleep, emit. cbn [world notes].
  unfold bindO at 1, note at 1. unfold bindO at 1, call at 1. cbn [world notes].
  match goal with
  | |- context [generate_asset fuel env g (frame2_spec g) None ?w] =>
    destruct (generate_asset fuel env g (frame2_spec g) None w)
      as [[ok2| |] w2] eqn:Htwo; try done
  end.
  pose proof (generate_asset_outcome _ _ _ _ _ _ _ _ Htwo) as Hout2.
  unfold count in *. cbn [fs trace count_events is_write] in Hout2.
  destruct ok2; cbn [negb].
  2: { runO. intros [= <- <-]. cbn [world]. destruct Hout2 as [_ ->]. lia. }
  destruct Hout2 as (d2 & _ & _ & _ & _ & Hfs2 & Hct2).
  runO. intros [= <- <-]. cbn [world]. exists d1, d2.
  unfold frame1_path, frame2_path. fold (asset_path g (frame1_spec g) None).
  fold (asset_path g (frame2_spec g) None). split; [congruence|lia].
Qed.

Lemma animation_sequence_outcome_witness :
  let env := Mock.env (Mock.busy_then_accepted 0) Mock.ready_at_once
               Mock.frozen_clock in
  let st := OrchestrationScripts.with_style_guide in
  let st' := (_generate_animation_sequence_simplified 2 env Mock.g st).2 in
  exists d1 d2 : bytes,
    fs (world st')
    = <[frame2_path Mock.g := File d2]> (<[frame1_path Mock.g := File d1]>
                                           (fs (world st))) /\
    count is_write (world st') = S (S (count is_write (world st))).
Proof.
  apply (animation_sequence_outcome 2
           (Mock.env (Mock.busy_then_accepted 0) Mock.ready_at_once
              Mock.frozen_clock)
           Mock.g OrchestrationScripts.with_style_guide _ true).
  vm_compute. reflexivity.
Defined.

(** *** What the animation posts *)

(** A computation that posts nothing. *)
Definition silent {A} (m : M A) : Prop :=
  forall (w w' : World) (r : result A),
    m w = (r, w') -> posted (trace w') = posted (trace w).

Lemma silent_ret {A} (a : A) : silent (ret a).
Proof. intros w w' r [= <- <-]. done. Qed.

Lemma silent_raise {A} (e : exn) : silent (raise (A:=A) e).
Proof. intros w w' r [= <- <-]. done. Qed.

Lemma silent_running {A} : silent (running (A:=A)).
Proof. intros w w' r [= <- <-]. done. Qed.

Lemma silent_lift {A} (x : exn + A) : silent (lift x).
Proof. destruct x; [apply silent_raise|apply silent_ret]. Qed.

Lemma silent_bind {A B} (m : M A) (f : A -> M B) :
  silent m -> (forall a, silent (f a)) -> silent (bind m f).
Proof.
  intros Hm Hf w w' r. unfold bind.
  destruct (m w) as [[a|e|] w1] eqn:E; apply Hm in E.
  - intros E'. apply Hf in E'. congruence.
  - intros [= <- <-]. done.
  - intros [= <- <-]. done.
Qed.

Lemma silent_try_except {A} (body : M A) (handler : exn -> M A) :
  silent body -> (forall e, silent (handler e)) ->
  silent (try_except body handler).
Proof.
  intros Hm Hh w w' r. unfold try_except.
  destruct (body w) as [[a|e|] w1] eqn:E; apply Hm in E.
  - intros [= <- <-]. done.
  - intros E'. apply Hh in E'. congruence.
  - intros [= <- <-]. done.
Qed.

Lemma silent_emit (ev : Event) : is_post ev = false -> silent (emit ev).
Proof. intros Hev w w' r [= <- <-]. by destruct ev. Qed.

Lemma silent_log (msg : LogMsg) : silent (log msg).
Proof. by apply silent_emit. Qed.

Lemma silent_sleep (d : float) : silent (sleep d).
Proof. by apply silent_emit. Qed.

Lemma silent_time_time (env : Env) : silent (time_time env).
Proof. intros w w' r [= <- <-]. done. Qed.

Lemma silent_requests_get (env : Env) (url : string) :
  silent (requests_get env url).
Proof. intros w w' r [= <- <-]. done. Qed.

Lemma silent_os_path_exists (path : string) : silent (os_path_exists path).
Proof. intros w w' r [= <- <-]. done. Qed.

Lemma silent_read_file (path : string) : silent (read_file path).
Proof.
  intros w w' r. unfold read_file.
  destruct (fs w !! path) as [[content|]|]; intros [= <- <-]; done.
Qed.

Lemma silent_write_file (path : string) (data : bytes) :
  silent (write_file path data).
Proof.
  intros w w' r. unfold write_file.
  destruct (fs w !! path) as [[content|]|]; intros [= <- <-]; done.
Qed.

Lemma silent_subscript (j : Json) (k : string) : silent (subscript j k).
Proof.
  unfold subscript. destruct j as [| | |fields]; try apply silent_raise.
  destruct (assoc k fields); [apply silent_ret|apply silent_raise].
Qed.

Lemma silent_dict_get (j : Json) (k : string) (d : Json) :
  silent (dict_get j k d).
Proof.
  unfold dict_get. destruct j; try apply silent_raise. apply silent_ret.
Qed.

Lemma silent_response_json (json : option Json) : silent (response_json json).
Proof. destruct json; [apply silent_ret|apply silent_raise]. Qed.

Create HintDb silent.
#[local] Hint Resolve silent_ret silent_raise silent_running silent_lift
  silent_log silent_sleep silent_time_time silent_requests_get
  silent_os_path_exists silent_read_file silent_write_file silent_subscript
  silent_dict_get silent_response_json : silent.

Ltac silent_step :=
  match goal with
  | |- forall _, _ => intros
  | |- silent (bind _ _) => apply silent_bind
  | |- silent (try_except _ _) => apply silent_try_except
  | |- silent (if ?b then _ else _) => destruct b
  | |- silent (match ?x with _ => _ end) => destruct x
  | |- silent _ => solve [auto with silent]
  end.
Ltac silent_tac := repeat silent_step.

Lemma silent_poll_body (env : Env) (task_info : TaskInfo) (wait_time : float) :
  silent (poll_body env task_info wait_time).
Proof.
  unfold poll_body, download_result, requests_get_json. silent_tac.
Qed.

Lemma silent_poll_loop (env : Env) (task_info : TaskInfo)
    (timeout start_time : float) (fuel : nat) :
  forall wait_time,
    silent (poll_loop fuel env task_info timeout start_time wait_time).
Proof.
  pose proof silent_poll_body.
  induction fuel as [|fuel IH]; intros wait_time; cbn [poll_loop]; silent_tac.
Qed.

Lemma silent_poll (fuel : nat) (env : Env) (task_info : TaskInfo)
    (timeout : float) :
  silent (_poll_for_result fuel env task_info timeout).
Proof. unfold _poll_for_result. pose proof silent_poll_loop. silent_tac. Qed.

Lemma silent_post_process_image (env : Env) (image_data : bytes)
    (target_size : Z * Z) :
  silent (post_process_image env image_data target_size).
Proof. unfold post_process_image. silent_tac. Qed.

Lemma silent_asset_inputs (env : Env) (spec : AssetSpec)
    (variation : option string) :
  silent (asset_inputs env spec variation).
Proof.
  unfold asset_inputs, _build_prompt, _encode_image_to_base64. silent_tac.
Qed.

Lemma silent_finish_asset (env : Env) (g : Generator) (spec : AssetSpec)
    (variation : option string) (image_data : option bytes) :
  silent (finish_asset env g spec variation image_data).
Proof.
  unfold finish_asset. pose proof silent_post_process_image. silent_tac.
Qed.

(** A generation posts one request, as often as the submission retries. *)
Lemma generate_image_posts (fuel : nat) (env : Env) (g : Generator)
    (prompt : string) (model : FluxModel) (aspect_ratio : string)
    (reference_image : option string) (w w' : World)
    (r : result (option bytes)) :
  generate_image fuel env g prompt model aspect_ratio reference_image w
    = (r, w') ->
  exists n : nat,
    posted (trace w')
    = replicate n (build_request g prompt model aspect_ratio reference_image)
      ++ posted (trace w).
Proof.
  unfold generate_image, bind.
  destruct (_submit_generation_request fuel env g prompt model aspect_ratio
              reference_image w) as [rs w1] eqn:Esub.
  apply submit_posts in Esub as (n & _ & Hp & _).
  destruct rs as [[task_info|]| |]; try (intros [= <- <-]; by exists n).
  intros E. apply silent_poll in E. exists n. congruence.
Qed.

(** An asset posts the request its inputs give, and nothing else. *)
Lemma generate_asset_posts (fuel : nat) (env : Env) (g : Generator)
    (spec : AssetSpec) (variation : option string) (w w' : World)
    (r : result bool) :
  generate_asset fuel env g spec variation w = (r, w') ->
  match (asset_inputs env spec variation w).1 with
  | Return inputs =>
    exists n : nat,
      posted (trace w')
      = replicate n (build_request g inputs.1 (model spec) (aspect_ratio spec)
                       inputs.2)
        ++ posted (trace w)
  | _ => posted (trace w') = posted (trace w)
  end.
Proof.
  unfold generate_asset. unfold bind at 1.
  destruct (asset_inputs env spec variation w) as [ri w1] eqn:Ein.
  apply silent_asset_inputs in Ein. cbn [fst].
  destruct ri as [inputs| |]; try (intros [= <- <-]; done).
  unfold bind.
  destruct (generate_image fuel env g inputs.1 (model spec) (aspect_ratio spec)
              inputs.2 w1) as [rg w2] eqn:Egen.
  apply generate_image_posts in Egen as (n & Hp).
  destruct rg as [image_data| |]; try (intros [= <- <-]; exists n; congruence).
  intros E. apply silent_finish_asset in E. exists n. congruence.
Qed.

Definition style_guide_path (g : Generator) : string :=
  output_dir g +:+ "/style_reference.png".

Lemma style_guide_path_truthy (g : Generator) :
  truthy_str (Some (style_guide_path g)) = true.
Proof.
  unfold truthy_str, style_guide_path.
  destruct (output_dir g) as [|a s]; reflexivity.
Qed.

(** With the style guide in place, a frame asks for its bare description
    and the guide's bytes, encoded. *)
Lemma asset_inputs_frame (env : Env) (g : Generator) (name description : string)
    (w : World) (c : bytes) :
  fs w !! style_guide_path g = Some (File c) ->
  (asset_inputs env (frame_spec g name description) None w).1
  = Return (description, Some (b64encode env c)).
Proof.
  intros Hfile. unfold asset_inputs, _build_prompt, frame_spec.
  cbn [type reference_image_path Flux.description].
  fold (style_guide_path g). rewrite style_guide_path_truthy.
  unfold _encode_image_to_base64, bind, os_path_exists, read_file, log, emit,
    ret; cbn [fs]. rewrite Hfile.
  rewrite bool_decide_eq_true_2 by done. cbn [fs]. rewrite Hfile. done.
Qed.

Lemma the_requests (n1 n2 : nat) (r1 r2 req : PostRequest) :
  req ∈ replicate n2 r2 ++ replicate n1 r1 -> req = r1 \/ req = r2.
Proof.
  intros [Hin|Hin]%elem_of_app; apply elem_of_replicate in Hin as [-> _]; auto.
Qed.

Definition frame_request (env : Env) (g : Generator) (spec : AssetSpec)
    (c : bytes) : PostRequest :=
  build_request g (description spec) KONTEXT_PRO "1:1"
    (Some (b64encode env c)).

Lemma animation_posts (fuel : nat) (env : Env) (g : Generator)
    (st st' : State) (r : result bool) (c : bytes) :
  fs (world st) !! style_guide_path g = Some (File c) ->
  _generate_animation_sequence_simplified fuel env g st = (r, st') ->
  exists n1 n2 : nat,
    posted (trace (world st'))
    = replicate n2 (frame_request env g (frame2_spec g) c)
      ++ replicate n1 (frame_request env g (frame1_spec g) c)
      ++ posted (trace (world st)).
Proof.
  intros Hfile.
  unfold _generate_animation_sequence_simplified.
  unfold bindO at 1, note at 1. unfold bindO at 1, call at 1. cbn [world notes].
  destruct (generate_asset fuel env g (frame1_spec g) None (world st))
    as [r1 w1] eqn:Hone.
  pose proof (generate_asset_posts _ _ _ _ _ _ _ _ Hone) as Hp1.
  unfold frame1_spec at 1 in Hp1.
  rewrite (asset_inputs_frame env g _ _ _ c Hfile) in Hp1.
  destruct Hp1 as (n1 & Hp1). cbn [fst snd model aspect_ratio frame_spec] in Hp1.
  destruct r1 as [ok1| |];
    try (intros [= <- <-]; exists n1, 0%nat; cbn [world]; by rewrite Hp1).
  pose proof (generate_asset_outcome _ _ _ _ _ _ _ _ Hone) as Hout1.
  destruct ok1; cbn [negb].
  2: { runO. intros [= <- <-]. exists n1, 0%nat. cbn [world]. by rewrite Hp1. }
  destruct Hout1 as (d1 & _ & _ & _ & _ & Hfs1 & _).
  unfold bindO at 1, call at 1, sleep, emit. cbn [world notes].
  unfold bindO at 1, note at 1. unfold bindO at 1, call at 1. cbn [world notes].
  match goal with
  | |- context [generate_asset fuel env g (frame2_spec g) None ?w] =>
    destruct (generate_asset fuel env g (frame2_spec g) None w)
      as [r2 w2] eqn:Htwo
  end.
  pose proof (generate_asset_posts _ _ _ _ _ _ _ _ Htwo) as Hp2.
  unfold frame2_spec at 1 in Hp2.
  rewrite (asset_inputs_frame env g _ _ _ c) in Hp2.
  2: { cbn [fs]. rewrite Hfs1. rewrite lookup_insert_ne; [done|].
       unfold asset_path, style_guide_path. intros Heq.
       apply (inj (String.app (output_dir g))) in Heq. done. }
  destruct Hp2 as (n2 & Hp2).
  cbn [fst snd model aspect_ratio frame_spec trace posted] in Hp2.
  assert (Hall : posted (trace w2)
                 = replicate n2 (frame_request env g (frame2_spec g) c)
                   ++ replicate n1 (frame_request env g (frame1_spec g) c)
                   ++ posted (trace (world st))).
  { rewrite Hp2, Hp1. done. }
  destruct r2 as [ok2| |];
    try (intros [= <- <-]; exists n1, n2; cbn [world]; done).
  destruct ok2; cbn [negb]; runO; intros [= <- <-]; exists n1, n2; done.
Qed.

(** X25: every request [generate_yeti_animation_only] posts, for the second
    frame as for the first, goes to the Kontext Pro endpoint with the
    frame's own description as its prompt and the bytes of the style guide,
    base64-encoded, as its input image: the second frame refers to the style
    guide, not to the first frame.  When there is no style guide file,
    nothing is posted at all. *)
Theorem animation_frames_reference_style_guide
    (fuel : nat) (env : Env) (g : Generator) (st st' : State)
    (r : result bool) :
  generate_yeti_animation_only fuel env g st = (r, st') ->
  exists new : list PostRequest,
    posted (trace (world st')) = new ++ posted (trace (world st)) /\
    forall req : PostRequest, req ∈ new ->
      exists c : bytes,
        fs (world st) !! style_guide_path g = Some (File c) /\
        endpoint req = base_url g +:+ "/v1/" +:+ model_value KONTEXT_PRO /\
        input_image req
        = (if String.eqb (b64encode env c) EmptyString then None
           else Some (b64encode env c)) /\
        (prompt req = description (frame1_spec g) \/
         prompt req = description (frame2_spec g)).
Proof.
  unfold generate_yeti_animation_only.
  unfold bindO at 1, call at 1, os_path_exists. fold (style_guide_path g).
  destruct (fs (world st) !! style_guide_path g) as [[c|]|] eqn:Hfile.
  - rewrite bool_decide_eq_true_2 by done. cbn [negb world notes].
    replace {| world := world st; notes := notes st |} with st
      by by destruct st.
    intros Hrun.
    destruct (animation_posts _ _ _ _ _ _ c Hfile Hrun) as (n1 & n2 & Hp).
    exists (replicate n2 (frame_request env g (frame2_spec g) c)
            ++ replicate n1 (frame_request env g (frame1_spec g) c)).
    split; [by rewrite <- app_assoc|].
    intros req Hin. exists c. split; [done|].
    assert (Hinput : forall spec,
              input_image (frame_request env g spec c)
              = if String.eqb (b64encode env c) EmptyString then None
                else Some (b64encode env c)).
    { intros spec. unfold frame_request, build_request, truthy_str.
      cbn [input_image].
      destruct (String.eqb (b64encode env c) EmptyString); reflexivity. }
    apply the_requests in Hin as [-> | ->]; rewrite Hinput;
      (split; [reflexivity|split; [reflexivity|]]); [by left|by right].
  - rewrite bool_decide_eq_true_2 by done. cbn [negb world notes].
    replace {| world := world st; notes := notes st |} with st
      by by destruct st.
    unfold _generate_animation_sequence_simplified.
    unfold bindO at 1, note at 1. unfold bindO at 1, call at 1.
    cbn [world notes].
    destruct (generate_asset fuel env g (frame1_spec g) None (world st))
      as [r1 w1] eqn:Hone.
    pose proof (generate_asset_posts _ _ _ _ _ _ _ _ Hone) as Hp1.
    assert (Hin1 : exists e, (asset_inputs env (frame1_spec g) None (world st)).1
                             = Raise e).
    { unfold asset_inputs, _build_prompt, frame1_spec, frame_spec.
      cbn [type reference_image_path Flux.description].
      fold (style_guide_path g). rewrite style_guide_path_truthy.
      unfold _encode_image_to_base64, bind, os_path_exists, read_file, log,
        emit, ret; cbn [fs]. rewrite Hfile.
      rewrite bool_decide_eq_true_2 by done. cbn [fs]. rewrite Hfile.
      by eexists. }
    destruct Hin1 as (e & Hin1). rewrite Hin1 in Hp1.
    assert (Hr1 : exists e', r1 = Raise e').
    { revert Hone. unfold generate_asset. unfold bind at 1.
      destruct (asset_inputs env (frame1_spec g) None (world st))
        as [ri wi] eqn:Ein. cbn [fst] in Hin1. subst ri.
      intros [= <- <-]. by eexists. }
    destruct Hr1 as (e' & ->).
    intros [= <- <-]. exists []. cbn [world app]. split; [done|].
    intros req Hin. by apply elem_of_nil in Hin.
  - rewrite bool_decide_eq_false_2 by (intros [x Hx]; done).
    cbn [negb]. runO. intros [= <- <-]. exists []. split; [done|].
    intros req Hin. by apply elem_of_nil in Hin.
Qed.

Lemma animation_frames_reference_style_guide_witness :
  let env := Mock.env (Mock.busy_then_accepted 1) Mock.ready_at_once
               Mock.frozen_clock in
  let st := OrchestrationScripts.with_style_guide in
  let st' := (generate_yeti_animation_only 3 env Mock.g st).2 in
  exists new : list PostRequest,
    posted (trace (world st')) = new ++ posted (trace (world st)) /\
    forall req : PostRequest, req ∈ new ->
      exists c : bytes,
        fs (world st) !! style_guide_path Mock.g = Some (File c) /\
        endpoint req
        = base_url Mock.g +:+ "/v1/" +:+ model_value KONTEXT_PRO /\
        input_image req
        = (if String.eqb (b64encode env c) EmptyString then None
           else Some (b64encode env c)) /\
        (prompt req = description (frame1_spec Mock.g) \/
         prompt req = description (frame2_spec Mock.g)).
Proof.
  apply (animation_frames_reference_style_guide 3
           (Mock.env (Mock.busy_then_accepted 1) Mock.ready_at_once
              Mock.frozen_clock)
           Mock.g OrchestrationScripts.with_style_guide _
           (generate_yeti_animation_only 3
              (Mock.env (Mock.busy_then_accepted 1) Mock.ready_at_once
                 Mock.frozen_clock)
              Mock.g OrchestrationScripts.with_style_guide).1).
  apply surjective_pairing.
Defined.

(** *** The style guide as the catalog's reference *)

(** The loop of [setup_style_guide_references] visits every spec once and
    leaves the world alone. *)
Lemma set_references_map (style_guide_path : string) (specs : list AssetSpec) :
  forall st : State,
  exists st' : State,
    set_references style_guide_path specs st
    = (Return (with_style_reference style_guide_path <$> specs), st') /\
    world st' = world st.
Proof.
  induction specs as [|spec rest IH]; intros st; cbn [set_references];
    rewrite ?fmap_cons.
  { by exists st. }
  unfold bindO at 1.
  destruct (match type spec with
            | YETI_SPRITE => note (SetStyleReference (name spec))
            | ITEM_SPRITE => note (ItemSpriteTextOnly (name spec))
            | _ => retO tt
            end st) as [ru st1] eqn:Enote.
  assert (Hnote : ru = Return tt /\ world st1 = world st).
  { revert Enote. destruct (type spec); unfold note, retO;
      intros [= <- <-]; done. }
  destruct Hnote as [-> Hw1].
  destruct (IH st1) as (st2 & Hrest & Hw2).
  unfold bindO. rewrite Hrest. unfold retO. exists st2. split; congruence.
Qed.

(** What a spec with a readable reference asks for. *)
Lemma asset_inputs_referenced (env : Env) (spec : AssetSpec)
    (variation : option string) (w : World) (path : string) (c : bytes) :
  type spec = YETI_SPRITE ->
  reference_image_path spec = Some path ->
  truthy_str (Some path) = true ->
  fs w !! path = Some (File c) ->
  exists prompt : string,
    (asset_inputs env spec variation w).1
    = Return (prompt, Some (b64encode env c)).
Proof.
  intros Htype Href Htruthy Hfile.
  unfold asset_inputs, _build_prompt. rewrite Htype, Href, Htruthy.
  unfold _encode_image_to_base64, bind, os_path_exists, read_file, log, emit,
    ret; cbn [fs]. rewrite Hfile.
  rewrite bool_decide_eq_true_2 by done. cbn [fs]. rewrite Hfile.
  by eexists.
Qed.

(** What an item sprite without a reference asks for. *)
Lemma asset_inputs_text_only (env : Env) (spec : AssetSpec)
    (variation : option string) (w : World) :
  type spec = ITEM_SPRITE ->
  reference_image_path spec = None ->
  exists prompt : string,
    (asset_inputs env spec variation w).1 = Return (prompt, None).
Proof.
  intros Htype Href. unfold asset_inputs, _build_prompt. rewrite Htype, Href.
  unfold bind, log, emit, ret. by eexists.
Qed.

(** X26: once [setup_style_guide_references] has answered [True], every
    request that [generate_asset] posts for a yeti sprite of the catalog
    goes to the Kontext Pro endpoint and carries the style guide's bytes,
    base64-encoded, as its input image, whatever model and reference the
    spec had before; every request for an item sprite goes to the text-only
    [flux-pro-1.1] endpoint without an input image.  The set-up itself
    posts nothing. *)
Theorem setup_routes_catalog_requests
    (fuel : nat) (env : Env) (g g' : Generator) (st st1 : State)
    (spec : AssetSpec) (variation : option string) (c : bytes)
    (r : result bool) (w' : World) :
  setup_style_guide_references g st = (Return (true, g'), st1) ->
  fs (world st) !! style_guide_path g = Some (File c) ->
  spec ∈ asset_specs g' ->
  generate_asset fuel env g' spec variation (world st1) = (r, w') ->
  exists new : list PostRequest,
    posted (trace w') = new ++ posted (trace (world st)) /\
    forall req : PostRequest, req ∈ new ->
      match type spec with
      | YETI_SPRITE =>
        endpoint req = base_url g +:+ "/v1/" +:+ model_value KONTEXT_PRO /\
        input_image req
        = (if String.eqb (b64encode env c) EmptyString then None
           else Some (b64encode env c))
      | ITEM_SPRITE =>
        endpoint req = base_url g +:+ "/v1/" +:+ model_value PRO_1_1 /\
        input_image req = None
      | _ => True
      end.
Proof.
  unfold setup_style_guide_references.
  unfold bindO at 1, call at 1, os_path_exists. fold (style_guide_path g).
  intros Hsetup Hfile. rewrite Hfile in Hsetup.
  rewrite bool_decide_eq_true_2 in Hsetup by done.
  cbn [world notes] in Hsetup.
  unfold bindO at 1, note at 1 in Hsetup.
  unfold bindO at 1, note at 1 in Hsetup. cbn [world notes] in Hsetup.
  unfold bindO in Hsetup.
  match type of Hsetup with
  | context [set_references _ _ ?s] =>
    destruct (set_references_map (style_guide_path g) (asset_specs g) s)
      as (st2 & Hloop & Hworld)
  end.
  rewrite Hloop in Hsetup. unfold retO in Hsetup.
  injection Hsetup as <- <-. cbn [world] in Hworld. rewrite Hworld.
  cbn [asset_specs]. intros (old & -> & _)%list_elem_of_fmap Hrun.
  set (spec := with_style_reference (style_guide_path g) old) in *.
  pose proof (generate_asset_posts _ _ _ _ _ _ _ _ Hrun) as Hposts.
  assert (Htype : type spec = type old).
  { unfold spec, with_style_reference. by destruct (type old) eqn:E. }
  rewrite Htype. destruct (type old) eqn:Hold.
  - (* a yeti sprite *)
    assert (Hmodel : model spec = KONTEXT_PRO).
    { unfold spec, with_style_reference. by rewrite Hold. }
    assert (Href : reference_image_path spec = Some (style_guide_path g)).
    { unfold spec, with_style_reference. by rewrite Hold. }
    destruct (asset_inputs_referenced env spec variation (world st)
                (style_guide_path g) c Htype Href
                (style_guide_path_truthy g) Hfile) as (prompt & Hin).
    rewrite Hin in Hposts. destruct Hposts as (n & Hposts).
    cbn [fst snd] in Hposts. rewrite Hmodel in Hposts.
    eexists. split; [exact Hposts|].
    intros req [-> _]%elem_of_replicate. split; [reflexivity|].
    unfold build_request, truthy_str. cbn [input_image].
    destruct (String.eqb (b64encode env c) EmptyString); reflexivity.
  - (* an item sprite *)
    assert (Hmodel : model spec = PRO_1_1).
    { unfold spec, with_style_reference. by rewrite Hold. }
    assert (Href : reference_image_path spec = None).
    { unfold spec, with_style_reference. by rewrite Hold. }
    destruct (asset_inputs_text_only env spec variation (world st) Htype Href)
      as (prompt & Hin).
    rewrite Hin in Hposts. destruct Hposts as (n & Hposts).
    cbn [fst snd] in Hposts. rewrite Hmodel in Hposts.
    eexists. split; [exact Hposts|].
    intros req [-> _]%elem_of_replicate. split; reflexivity.
  - (* the environment *)
    destruct ((asset_inputs env spec variation (world st)).1) as [inputs| |].
    + destruct Hposts as (n & Hposts). eexists. split; [exact Hposts|]. done.
    + exists []. split; [done|]. done.
    + exists []. split; [done|]. done.
  - (* the style guide itself *)
    destruct ((asset_inputs env spec variation (world st)).1) as [inputs| |].
    + destruct Hposts as (n & Hposts). eexists. split; [exact Hposts|]. done.
    + exists []. split; [done|]. done.
    + exists []. split; [done|]. done.
Qed.

Lemma setup_routes_catalog_requests_witness :
  let env := Mock.env (Mock.busy_then_accepted 1) Mock.ready_at_once
               Mock.frozen_clock in
  let st := OrchestrationScripts.with_style_guide in
  let w' := (generate_asset 3 env OrchestrationScripts.after_setup
               OrchestrationScripts.yeti_jump_referenced None (world st)).2 in
  exists new : list PostRequest,
    posted (trace w') = new ++ posted (trace (world st)) /\
    forall req : PostRequest, req ∈ new ->
      endpoint req = base_url Mock.g +:+ "/v1/" +:+ model_value KONTEXT_PRO /\
      input_image req
      = (if String.eqb (b64encode env Mock.rgb_2x2) EmptyString then None
         else Some (b64encode env Mock.rgb_2x2)).
Proof.
  apply (setup_routes_catalog_requests 3
           (Mock.env (Mock.busy_then_accepted 1) Mock.ready_at_once
              Mock.frozen_clock)
           Mock.g OrchestrationScripts.after_setup
           OrchestrationScripts.with_style_guide
           (setup_style_guide_references Mock.g
              OrchestrationScripts.with_style_guide).2
           OrchestrationScripts.yeti_jump_referenced None Mock.rgb_2x2
           (generate_asset 3
              (Mock.env (Mock.busy_then_accepted 1) Mock.ready_at_once
                 Mock.frozen_clock)
              OrchestrationScripts.after_setup
              OrchestrationScripts.yeti_jump_referenced None
              (world OrchestrationScripts.with_style_guide)).1).
  - vm_compute. reflexivity.
  - vm_compute. reflexivity.
  - do 3 apply list_elem_of_further. apply list_elem_of_here.
  - apply surjective_pairing.
Defined.

(** *** Background removal over the output directory *)

(** [remove_background] writes one file when it answers [True], and none
    otherwise. *)
Lemma remove_background_writes
    (fuel : nat) (env : Env) (pathlib : Pathlib) (g : Generator)
    (image_path : string) (output_path : option string) (st st' : State)
    (r : result bool) :
  remove_background fuel env pathlib g image_path output_path st = (r, st') ->
  match r with
  | Return true =>
    count is_write (world st') = S (count is_write (world st))
  | Return false => count is_write (world st') = count is_write (world st)
  | Raise _ => False
  | Running => count is_write (world st') = count is_write (world st)
  end.
Proof.
  unfold remove_background.
  unfold bindO at 1, call at 1, os_path_exists. cbn [world].
  destruct (negb _); [runO; by intros [= <- <-]|].
  unfold try_exceptO.
  match goal with
  | |- context [match ?body with _ => _ end] =>
    destruct body as [rb st1] eqn:Hbody
  end.
  assert (Hcount : count is_write (world st1)
                   = match rb with
                     | Return true => S (count is_write (world st))
                     | _ => count is_write (world st)
                     end).
  { revert Hbody.
    unfold bindO at 1, call at 1, _encode_image_to_base64, read_file, bind,
      ret. cbn [world].
    destruct (fs (world st) !! image_path) as [[content|]|] eqn:Hfile;
      try (by intros [= <- <-]).
    cbn [world notes]. unfold bindO at 1, call at 1. cbn [world].
    rewrite Hfile. unfold bindO at 1, call at 1, lift. cbn [world].
    destruct (Image_open env content) as [e|img] eqn:Hopen;
      [unfold raise; by intros [= <- <-]|].
    unfold ret.
    unfold bindO at 1, note at 1. unfold bindO at 1, note at 1.
    unfold bindO at 1, call at 1. cbn [world notes].
    destruct (generate_image fuel env g bg_removal_prompt KONTEXT_PRO "1:1" _
                (world st)) as [rg w1] eqn:Hgen.
    pose proof (quiet_generate_image _ _ _ _ _ _ _ _ _ _ Hgen) as [_ Hct1].
    destruct rg as [processed| |]; try (by intros [= <- <-]).
    destruct (truthy_bytes processed); cbn [negb];
      [|runO; by intros [= <- <-]].
    unfold bindO at 1, call at 1. cbn [world notes].
    destruct (post_process_image env (default [] processed) (img_size img) w1)
      as [rp w2] eqn:Hpost.
    pose proof (quiet_post_process_image _ _ _ _ _ _ Hpost) as [_ Hct2].
    destruct rp as [final| |]; try (intros [= <- <-]; cbn [world]; congruence).
    destruct (truthy_bytes final); cbn [negb];
      [|runO; intros [= <- <-]; cbn [world]; congruence].
    unfold bindO at 1, call at 1, write_file. cbn [world notes].
    match goal with
    | |- context [fs w2 !! ?p] => destruct (fs w2 !! p) as [[c|]|]
    end; runO; intros [= <- <-]; cbn [world]; unfold count in *;
      cbn [trace count_events is_write]; congruence. }
  destruct rb as [[|]|e|]; by intros [= <- <-].
Qed.

Lemma for_png_files_writes (fuel : nat) (env : Env) (pathlib : Pathlib)
    (g : Generator) (files : list string) :
  forall (success_count : nat) (st st' : State) (r : result nat),
  for_png_files fuel env pathlib g files success_count st = (r, st') ->
  match r with
  | Return n =>
    (success_count <= n <= success_count + length files)%nat /\
    (count is_write (world st') + success_count
     = count is_write (world st) + n)%nat
  | Raise _ => False
  | Running => True
  end.
Proof.
  induction files as [|png_file rest IH]; intros success_count st st' r;
    cbn [for_png_files].
  { unfold retO. intros [= <- <-]. cbn [length]. lia. }
  unfold bindO at 1.
  match goal with
  | |- context [remove_background fuel env pathlib g png_file ?o st] =>
    destruct (remove_background fuel env pathlib g png_file o st)
      as [rb st1] eqn:Hone
  end.
  apply remove_background_writes in Hone.
  destruct rb as [ok|e|]; [|done|by intros [= <- <-]].
  unfold bindO at 1, call at 1, sleep, emit. cbn [world notes].
  intros Hrest. apply IH in Hrest. destruct r as [n|e|]; [|done|done].
  unfold count in *. cbn [world trace count_events is_write length] in *.
  destruct ok; lia.
Qed.

(** X27: [batch_remove_backgrounds] lets no exception out, and the number
    it returns is the number of files written during the call; it is at
    most the number of listed PNG files whose stem has no [_no_bg] in it. *)
Theorem batch_remove_backgrounds_counts_writes
    (fuel : nat) (env : Env) (pathlib : Pathlib)
    (glob_png : World -> list string) (g : Generator) (st st' : State)
    (r : result nat) :
  batch_remove_backgrounds fuel env pathlib glob_png g st = (r, st') ->
  (forall e : exn, r <> Raise e) /\
  forall n : nat, r = Return n ->
    (count is_write (world st') = count is_write (world st) + n)%nat /\
    (n <= length (files_to_process env (glob_png (world st))))%nat.
Proof.
  unfold batch_remove_backgrounds.
  unfold bindO at 1, call at 1, os_path_exists. cbn [world].
  destruct (negb _).
  { runO. intros [= <- <-]. split; [done|]. intros n [= <-].
    cbn [world]. lia. }
  unfold bindO at 1, call at 1. cbn [world notes].
  destruct (glob_png (world st)) as [|f png_files] eqn:Hglob.
  { runO. intros [= <- <-]. split; [done|]. intros n [= <-].
    cbn [world]. simpl. lia. }
  destruct (files_to_process env (f :: png_files)) as [|f' files] eqn:Hfiles.
  { runO. intros [= <- <-]. split; [done|]. intros n [= <-].
    cbn [world]. simpl. lia. }
  unfold bindO at 1, note at 1. unfold bindO at 1. cbn [world notes].
  match goal with
  | |- context [for_png_files fuel env pathlib g ?l ?k ?s] =>
    destruct (for_png_files fuel env pathlib g l k s) as [rl st1] eqn:Hloop
  end.
  apply for_png_files_writes in Hloop. cbn [world] in Hloop.
  destruct rl as [k|e|]; [|done|].
  - runO. intros [= <- <-]. split; [done|]. intros n [= <-].
    cbn [world]. lia.
  - intros [= <- <-]. split; [done|]. intros n Hn. done.
Qed.

Lemma batch_remove_backgrounds_counts_writes_witness :
  let env := Mock.env (Mock.busy_then_accepted 0) Mock.ready_at_once
               Mock.frozen_clock in
  let st := OrchestrationScripts.with_two_images in
  let st' := (batch_remove_backgrounds 2 env OrchestrationScripts.pathlib
                OrchestrationScripts.glob_png Mock.g st).2 in
  (forall e : exn, Return 1%nat <> Raise e) /\
  forall n : nat, Return 1%nat = Return n ->
    (count is_write (world st') = count is_write (world st) + n)%nat /\
    (n <= length (files_to_process env
                    (OrchestrationScripts.glob_png (world st))))%nat.
Proof.
  apply (batch_remove_backgrounds_counts_writes 2
           (Mock.env (Mock.busy_then_accepted 0) Mock.ready_at_once
              Mock.frozen_clock)
           OrchestrationScripts.pathlib OrchestrationScripts.glob_png Mock.g
           OrchestrationScripts.with_two_images).
  vm_compute. reflexivity.
Defined.

End OrchestrationProofs.

(** * download_heroicons.py: the conversion to PNG *)

Module HeroiconsProofs.
Import Heroicons.

(** The converters take an SVG and write the PNG they are told to write:
    a run leaves every other path as it was. *)
Definition writes_output_only (env : Env) : Prop :=
  forall (tool : Tool) (size : Z) (svg_file png_file : string)
         (files : gmap string Entry) (p : string),
    p <> png_file ->
    (run_tool env tool size svg_file png_file files).2 !! p = files !! p.

(** Every file of [w] is in [w'], with its content. *)
Definition keeps (w w' : World) : Prop :=
  forall (p : string) (e : Entry), fs w !! p = Some e -> fs w' !! p = Some e.

Lemma keeps_refl (w : World) : keeps w w.
Proof. by intros p e. Qed.

Lemma keeps_trans (w1 w2 w3 : World) : keeps w1 w2 -> keeps w2 w3 -> keeps w1 w3.
Proof. intros H12 H23 p e Hp. by apply H23, H12. Qed.

Ltac runH :=
  repeat progress
    (unfold bind, ret, raise, print, try_except, try_except_FileNotFoundError,
       path_exists in *;
     cbn [fs printed ran fst snd] in *).

(** One turn of the loop ends without an exception and keeps the files. *)
Lemma convert_one_keeps (env : Env) (size : Z) (svg_file : string) (w : World) :
  writes_output_only env ->
  exists w' : World,
    convert_one env size svg_file w = (inr tt, w') /\ keeps w w'.
Proof.
  intros Htools. unfold convert_one. set (png_file := with_suffix_png env svg_file).
  unfold try_except, bind at 1, path_exists.
  destruct (fs w !! png_file) as [e|] eqn:Hpng.
  { rewrite bool_decide_eq_true_2 by done. unfold print.
    eexists. split; [reflexivity|]. by intros p e0 Hp. }
  rewrite bool_decide_eq_false_2 by (intros [x Hx]; done).
  assert (Hnew : forall p e, fs w !! p = Some e -> p <> png_file).
  { intros p e Hp ->. congruence. }
  unfold try_except_FileNotFoundError at 1, bind at 1, subprocess_run at 1.
  destruct (run_tool env rsvg_convert size svg_file png_file (fs w))
    as [o1 f1] eqn:Hrun1.
  assert (Hf1 : forall p, p <> png_file -> f1 !! p = fs w !! p).
  { intros p Hp. pose proof (Htools rsvg_convert size svg_file png_file
                               (fs w) p Hp) as H. by rewrite Hrun1 in H. }
  destruct o1 as [|returncode stderr].
  2: { cbn [fst snd]. destruct (returncode =? 0); unfold print, raise;
         (eexists; split; [reflexivity|]); intros p e Hp; cbn [fs];
         rewrite Hf1; eauto. }
  unfold try_except_FileNotFoundError, bind at 1, subprocess_run. cbn [fs printed ran].
  destruct (run_tool env inkscape size svg_file png_file f1)
    as [o2 f2] eqn:Hrun2.
  assert (Hf2 : forall p, p <> png_file -> f2 !! p = fs w !! p).
  { intros p Hp. pose proof (Htools inkscape size svg_file png_file f1 p Hp)
      as H. rewrite Hrun2 in H. cbn [snd] in H. rewrite H. by apply Hf1. }
  destruct o2 as [|returncode stderr].
  2: { cbn [fst snd]. destruct (returncode =? 0); unfold print, raise;
         (eexists; split; [reflexivity|]); intros p e Hp; cbn [fs];
         rewrite Hf2; eauto. }
  unfold bind at 1, print at 1. cbn [fs printed ran].
  destruct (square_color (path_name env svg_file)) as [[r g] b].
  unfold bind at 1, Image_new.
  destruct (size <? 0).
  { unfold raise, print. eexists. split; [reflexivity|].
    intros p e Hp; cbn [fs]. rewrite Hf2; eauto. }
  unfold ret, bind, Image_save. cbn [fs printed ran fst snd].
  destruct (f2 !! png_file) as [[content|]|]; destruct (size =? 0);
    unfold print; cbn [fs printed ran];
    (eexists; split; [reflexivity|]); intros p e Hp; cbn [fs];
    rewrite ?lookup_insert_ne by (symmetry; eauto); rewrite Hf2; eauto.
Qed.

Lemma for_svg_files_keeps (env : Env) (size : Z) (svg_files : list string) :
  writes_output_only env ->
  forall w : World,
  exists w' : World,
    for_svg_files env size svg_files w = (inr tt, w') /\ keeps w w'.
Proof.
  intros Htools. induction svg_files as [|svg_file rest IH]; intros w;
    cbn [for_svg_files].
  { exists w. split; [done|apply keeps_refl]. }
  destruct (convert_one_keeps env size svg_file w Htools) as (w1 & Hone & H1).
  destruct (IH w1) as (w2 & Hrest & H2).
  exists w2. unfold bind. rewrite Hone. split; [done|].
  by apply (keeps_trans w w1 w2).
Qed.

(** X28: whatever the converters answer, [convert_svgs_to_png] ends
    without an exception, and no file that was there before the call is
    overwritten or removed by it: an existing PNG is skipped, and what is
    written is written where nothing was. The converters are assumed to
    write no path but the PNG they are given. *)
Theorem convert_svgs_keeps_existing_files
    (env : Env) (glob_svg : gmap string Entry -> list string)
    (directory : string) (size : Z) (w w' : World) (r : exn + unit) :
  writes_output_only env ->
  convert_svgs_to_png env glob_svg directory size w = (r, w') ->
  r = inr tt /\
  forall (p : string) (e : Entry), fs w !! p = Some e -> fs w' !! p = Some e.
Proof.
  intros Htools. unfold convert_svgs_to_png.
  destruct (glob_svg (fs w)) as [|svg_file rest].
  { unfold print. intros [= <- <-]. done. }
  destruct (for_svg_files_keeps env size (svg_file :: rest) Htools w)
    as (w1 & Hloop & Hkeeps).
  unfold bind. rewrite Hloop. unfold print. intros [= <- <-]. done.
Qed.

Lemma failing_rsvg_writes_output_only :
  writes_output_only HeroiconsScripts.failing_rsvg.
Proof.
  intros [|] size svg_file png_file files p Hp; cbn; [done|].
  by rewrite lookup_insert_ne.
Qed.

Lemma convert_svgs_keeps_existing_files_witness :
  let w' := (convert_svgs_to_png HeroiconsScripts.failing_rsvg
               HeroiconsScripts.glob_svg "generated_assets" 32
               HeroiconsScripts.two_icons).2 in
  (inr tt : exn + unit) = inr tt /\
  forall (p : string) (e : Entry),
    fs HeroiconsScripts.two_icons !! p = Some e -> fs w' !! p = Some e.
Proof.
  apply (convert_svgs_keeps_existing_files HeroiconsScripts.failing_rsvg
           HeroiconsScripts.glob_svg "generated_assets" 32
           HeroiconsScripts.two_icons).
  - apply failing_rsvg_writes_output_only.
  - vm_compute. reflexivity.
Defined.

(** *** Without a converter *)

(** Neither program is there: every run raises [FileNotFoundError] and
    changes nothing. *)
Definition no_tools (env : Env) : Prop :=
  forall (tool : Tool) (size : Z) (svg_file png_file : string)
         (files : gmap string Entry),
    run_tool env tool size svg_file png_file files = (NotInstalled, files).

(** The square saved for an SVG. *)
Definition square_of (env : Env) (size : Z) (svg_file : string) : Entry :=
  File (square_png env size (square_color (path_name env svg_file), 255)).

Fixpoint no_dot (w : string) : bool :=
  match w with
  | EmptyString => true
  | String c w' => negb (Ascii.eqb c ".") && no_dot w'
  end.

Lemma append_String (a : ascii) (s1 s2 : string) :
  String a s1 +:+ s2 = String a (s1 +:+ s2).
Proof. reflexivity. Qed.

Lemma prefix_before_svg (w : string) :
  no_dot w = true ->
  forall s : string, String.prefix w (s +:+ ".svg") = String.prefix w s.
Proof.
  induction w as [|c w IH]; intros Hw s.
  { by destruct s. }
  cbn [no_dot] in Hw. apply andb_true_iff in Hw as [Hc Hw].
  destruct s as [|a s].
  - change (EmptyString +:+ ".svg") with ".svg". cbn [String.prefix].
    destruct (ascii_dec c ".") as [->|]; done.
  - rewrite append_String. cbn [String.prefix].
    destruct (ascii_dec c a); [by apply IH|done].
Qed.

Lemma contains_before_svg (w s : string) :
  no_dot w = true ->
  PyStr.contains w ".svg" = PyStr.contains w EmptyString ->
  PyStr.contains w (s +:+ ".svg") = PyStr.contains w s.
Proof.
  intros Hw Hsvg. induction s as [|a s IH].
  - exact Hsvg.
  - rewrite append_String. cbn [PyStr.contains].
    rewrite <- append_String, prefix_before_svg, IH by done. done.
Qed.

(** The file name of an item is classified as the item is. *)
Lemma any_success_word_svg (game_item : string) :
  any_success_word (game_item +:+ ".svg") = any_success_word game_item.
Proof.
  unfold any_success_word, success_words. cbn [existsb].
  by rewrite !contains_before_svg by reflexivity.
Qed.

Lemma convert_one_square (env : Env) (size : Z) (svg_file : string) (w : World) :
  no_tools env -> 0 < size ->
  exists w' : World,
    convert_one env size svg_file w = (inr tt, w') /\
    fs w' = match fs w !! with_suffix_png env svg_file with
            | Some _ => fs w
            | None => <[with_suffix_png env svg_file
                        := square_of env size svg_file]> (fs w)
            end.
Proof.
  intros Htools Hsize. unfold convert_one, square_of.
  set (png_file := with_suffix_png env svg_file).
  unfold try_except, bind at 1, path_exists.
  destruct (fs w !! png_file) as [e|] eqn:Hpng.
  { rewrite bool_decide_eq_true_2 by done. unfold print.
    eexists. split; reflexivity. }
  rewrite bool_decide_eq_false_2 by (intros [x Hx]; done).
  unfold try_except_FileNotFoundError at 1, bind at 1, subprocess_run at 1.
  rewrite Htools.
  unfold try_except_FileNotFoundError, bind at 1, subprocess_run.
  cbn [fs printed ran]. rewrite Htools.
  unfold bind at 1, print at 1. cbn [fs printed ran].
  destruct (square_color (path_name env svg_file)) as [[r g] b].
  unfold bind at 1, Image_new.
  destruct (Z.ltb_spec size 0) as [?|_]; [lia|].
  unfold ret, bind, Image_save. cbn [fs printed ran fst snd]. rewrite Hpng.
  destruct (Z.eqb_spec size 0) as [?|_]; [lia|].
  unfold print. cbn [fs printed ran fst snd].
  eexists. split; reflexivity.
Qed.

Lemma for_svg_files_squares (env : Env) (size : Z) (svg_files : list string) :
  no_tools env -> 0 < size ->
  forall w : World,
  exists w' : World,
    for_svg_files env size svg_files w = (inr tt, w') /\
    keeps w w' /\
    (forall (p : string) (e : Entry),
       fs w' !! p = Some e -> fs w !! p = None ->
       exists svg_file : string,
         svg_file ∈ svg_files /\ p = with_suffix_png env svg_file /\
         e = square_of env size svg_file) /\
    (forall svg_file : string,
       svg_file ∈ svg_files ->
       is_Some (fs w' !! with_suffix_png env svg_file)).
Proof.
  intros Htools Hsize. induction svg_files as [|svg_file rest IH]; intros w;
    cbn [for_svg_files].
  { exists w. split; [done|]. split; [apply keeps_refl|]. split.
    - intros p e Hp Hnone. congruence.
    - intros svg_file Hin. by apply elem_of_nil in Hin. }
  destruct (convert_one_square env size svg_file w Htools Hsize)
    as (w1 & Hone & Hfs1).
  destruct (IH w1) as (w2 & Hrest & Hkeeps & Hnew & Hall).
  exists w2. unfold bind. rewrite Hone. split; [done|].
  assert (Hkeeps1 : keeps w w1).
  { intros p e Hp. rewrite Hfs1.
    destruct (fs w !! with_suffix_png env svg_file) eqn:Hpng; [done|].
    rewrite lookup_insert_ne; [done|]. intros <-. congruence. }
  assert (Hhere : is_Some (fs w1 !! with_suffix_png env svg_file)).
  { rewrite Hfs1.
    destruct (fs w !! with_suffix_png env svg_file) eqn:Hpng.
    - rewrite Hpng. by eexists.
    - rewrite lookup_insert_eq. by eexists. }
  split; [by apply (keeps_trans w w1 w2)|]. split.
  - intros p e Hp Hnone.
    destruct (fs w1 !! p) as [e1|] eqn:Hp1.
    + exists svg_file. split; [apply list_elem_of_here|].
      pose proof (Hkeeps p e1 Hp1) as Hp2.
      assert (e = e1) as -> by congruence.
      rewrite Hfs1 in Hp1.
      destruct (fs w !! with_suffix_png env svg_file) eqn:Hpng;
        [congruence|].
      destruct (decide (with_suffix_png env svg_file = p)) as [<-|Hne].
      * rewrite lookup_insert_eq in Hp1. split; congruence.
      * rewrite lookup_insert_ne in Hp1 by done. congruence.
    + destruct (Hnew p e Hp Hp1) as (svg' & Hin & Heq & He).
      exists svg'. split; [by apply list_elem_of_further|done].
  - intros svg' [->|Hin]%elem_of_cons.
    + destruct Hhere as [e He]. exists e. by apply Hkeeps.
    + by apply Hall.
Qed.

(** X29: on a machine with neither converter, [convert_svgs_to_png], asked
    for squares of a positive side, leaves
    every listed SVG with a PNG beside it; a PNG that was not there before
    the call is the square of the given side for one of the listed SVGs,
    opaque, in the colour chosen from that file's name; and for the file
    [<item>.svg] that colour is green or red as [download_heroicons]
    painted the item green or red. *)
Theorem convert_svgs_falls_back_to_squares
    (env : Env) (glob_svg : gmap string Entry -> list string)
    (directory : string) (size : Z) (w w' : World) (r : exn + unit) :
  no_tools env -> 0 < size ->
  convert_svgs_to_png env glob_svg directory size w = (r, w') ->
  (forall svg_file : string,
     svg_file ∈ glob_svg (fs w) ->
     exists e : Entry,
       fs w' !! with_suffix_png env svg_file = Some e /\
       (fs w !! with_suffix_png env svg_file = None ->
        exists svg_file' : string,
          svg_file' ∈ glob_svg (fs w) /\
          with_suffix_png env svg_file' = with_suffix_png env svg_file /\
          e = File (square_png env size
                      (square_color (path_name env svg_file'), 255)))) /\
  (forall game_item : string,
     square_color (game_item +:+ ".svg")
     = if String.eqb (item_color game_item) "#22C55E" then (34, 197, 94)
       else (239, 68, 68)).
Proof.
  intros Htools Hsize Hrun. unfold convert_svgs_to_png in Hrun. split.
  - destruct (glob_svg (fs w)) as [|svg0 rest] eqn:Hglob.
    { intros svg_file Hin. by apply elem_of_nil in Hin. }
    destruct (for_svg_files_squares env size (svg0 :: rest) Htools Hsize w)
      as (w1 & Hloop & Hkeeps & Hnew & Hall).
    revert Hrun. unfold bind. rewrite Hloop. unfold print. intros [= <- <-].
    cbn [fs]. intros svg_file Hin.
    destruct (Hall svg_file Hin) as [e He]. exists e. split; [done|].
    intros Hnone. destruct (Hnew _ _ He Hnone) as (svg' & Hin' & Heq & ->).
    exists svg'. by repeat split.
  - intros game_item. unfold square_color, item_color.
    rewrite any_success_word_svg.
    by destruct (any_success_word game_item).
Qed.

Lemma no_converter_no_tools : no_tools HeroiconsScripts.no_converter.
Proof. by intros tool size svg_file png_file files. Qed.

Lemma convert_svgs_falls_back_to_squares_witness :
  let env := HeroiconsScripts.no_converter in
  let w := HeroiconsScripts.two_icons in
  let w' := (convert_svgs_to_png env HeroiconsScripts.glob_svg
               "generated_assets" 32 w).2 in
  (forall svg_file : string,
     svg_file ∈ HeroiconsScripts.glob_svg (fs w) ->
     exists e : Entry,
       fs w' !! with_suffix_png env svg_file = Some e /\
       (fs w !! with_suffix_png env svg_file = None ->
        exists svg_file' : string,
          svg_file' ∈ HeroiconsScripts.glob_svg (fs w) /\
          with_suffix_png env svg_file' = with_suffix_png env svg_file /\
          e = File (square_png env 32
                      (square_color (path_name env svg_file'), 255)))) /\
  (forall game_item : string,
     square_color (game_item +:+ ".svg")
     = if String.eqb (item_color game_item) "#22C55E" then (34, 197, 94)
       else (239, 68, 68)).
Proof.
  apply (convert_svgs_falls_back_to_squares HeroiconsScripts.no_converter
           HeroiconsScripts.glob_svg "generated_assets" 32
           HeroiconsScripts.two_icons _
           (convert_svgs_to_png HeroiconsScripts.no_converter
              HeroiconsScripts.glob_svg "generated_assets" 32
              HeroiconsScripts.two_icons).1).
  - apply no_converter_no_tools.
  - lia.
  - apply surjective_pairing.
Defined.

(** *** With [rsvg-convert] installed *)

(** [rsvg-convert] is there: a run of it ends with a return code. *)
Definition rsvg_installed (env : Env) : Prop :=
  forall (size : Z) (svg_file png_file : string) (files : gmap string Entry),
    (run_tool env rsvg_convert size svg_file png_file files).1 <> NotInstalled.

(** The lines of the fallback. *)
Definition is_fallback_line (line : Line) : bool :=
  match line with
  | NoConverter _ | CreatedSquare _ _ => true
  | _ => false
  end.

(** What a call adds to the runs and to the lines: runs of [rsvg-convert]
    only, at most [n] of them, and no line of the fallback. *)
Definition only_rsvg (n : nat) (w w' : World) : Prop :=
  exists (runs : list (Tool * string * string)) (lines : list Line),
    ran w' = runs ++ ran w /\
    printed w' = lines ++ printed w /\
    Forall (fun run => run.1.1 = rsvg_convert) runs /\
    Forall (fun line => is_fallback_line line = false) lines /\
    (length runs <= n)%nat.

Lemma only_rsvg_trans (n m : nat) (w1 w2 w3 : World) :
  only_rsvg n w1 w2 -> only_rsvg m w2 w3 -> only_rsvg (n + m) w1 w3.
Proof.
  intros (r1 & l1 & Hr1 & Hl1 & Hf1 & Hg1 & Hn1)
         (r2 & l2 & Hr2 & Hl2 & Hf2 & Hg2 & Hn2).
  exists (r2 ++ r1), (l2 ++ l1).
  rewrite Hr2, Hr1, Hl2, Hl1, <- !app_assoc, length_app.
  repeat split; try done; try (by apply Forall_app); lia.
Qed.

Lemma convert_one_only_rsvg (env : Env) (size : Z) (svg_file : string)
    (w : World) :
  rsvg_installed env ->
  exists w' : World,
    convert_one env size svg_file w = (inr tt, w') /\ only_rsvg 1 w w'.
Proof.
  intros Hrsvg. unfold convert_one.
  set (png_file := with_suffix_png env svg_file).
  unfold try_except, bind at 1, path_exists.
  destruct (bool_decide (is_Some (fs w !! png_file))).
  { unfold print. eexists. split; [reflexivity|].
    exists [], [Skipping (path_name env svg_file)]. cbn.
    repeat split; try done; [by repeat constructor|lia]. }
  unfold try_except_FileNotFoundError at 1, bind at 1, subprocess_run at 1.
  pose proof (Hrsvg size svg_file png_file (fs w)) as Hthere.
  destruct (run_tool env rsvg_convert size svg_file png_file (fs w))
    as [[|returncode stderr] f1]; [done|].
  cbn [fst snd]. destruct (returncode =? 0); unfold print, raise;
    (eexists; split; [reflexivity|]); cbn [fs printed ran].
  - exists [(rsvg_convert, svg_file, png_file)],
           [Converted (path_name env svg_file) (path_name env png_file)].
    cbn. repeat split; try done; by repeat constructor.
  - exists [(rsvg_convert, svg_file, png_file)],
           [ErrorConverting (path_name env svg_file)
              (Exception ("rsvg-convert failed: " +:+ stderr))].
    cbn. repeat split; try done; by repeat constructor.
Qed.

Lemma for_svg_files_only_rsvg (env : Env) (size : Z)
    (svg_files : list string) :
  rsvg_installed env ->
  forall w : World,
  exists w' : World,
    for_svg_files env size svg_files w = (inr tt, w') /\
    only_rsvg (length svg_files) w w'.
Proof.
  intros Hrsvg. induction svg_files as [|svg_file rest IH]; intros w;
    cbn [for_svg_files].
  { exists w. split; [done|]. exists [], []. by repeat split. }
  destruct (convert_one_only_rsvg env size svg_file w Hrsvg)
    as (w1 & Hone & H1).
  destruct (IH w1) as (w2 & Hrest & H2).
  exists w2. unfold bind. rewrite Hone. split; [done|].
  apply (only_rsvg_trans 1 (length rest) w w1 w2 H1 H2).
Qed.

(** X30: when [rsvg-convert] is installed, [convert_svgs_to_png] runs no
    other program and never falls back to the coloured square, whether
    [rsvg-convert] succeeds or fails: a file it fails on is answered with
    an error line only. It is run at most once per listed SVG. *)
Theorem convert_svgs_rsvg_failure_has_no_fallback
    (env : Env) (glob_svg : gmap string Entry -> list string)
    (directory : string) (size : Z) (w w' : World) (r : exn + unit) :
  rsvg_installed env ->
  convert_svgs_to_png env glob_svg directory size w = (r, w') ->
  exists (runs : list (Tool * string * string)) (lines : list Line),
    ran w' = runs ++ ran w /\
    printed w' = lines ++ printed w /\
    Forall (fun run => run.1.1 = rsvg_convert) runs /\
    Forall (fun line => is_fallback_line line = false) lines /\
    (length runs <= length (glob_svg (fs w)))%nat.
Proof.
  intros Hrsvg. unfold convert_svgs_to_png.
  destruct (glob_svg (fs w)) as [|svg_file rest].
  { unfold print. intros [= <- <-]. exists [], [NoSvgFiles]. cbn.
    repeat split; try done. by repeat constructor. }
  destruct (for_svg_files_only_rsvg env size (svg_file :: rest) Hrsvg w)
    as (w1 & Hloop & (runs & lines & Hruns & Hlines & Hf & Hg & Hn)).
  unfold bind. rewrite Hloop. unfold print. intros [= <- <-].
  exists runs, (ConversionComplete directory :: lines). cbn [ran printed].
  rewrite Hlines. repeat split; try done. by constructor.
Qed.

Lemma failing_rsvg_installed : rsvg_installed HeroiconsScripts.failing_rsvg.
Proof. by intros size svg_file png_file files. Qed.

Lemma convert_svgs_rsvg_failure_has_no_fallback_witness :
  let w := HeroiconsScripts.two_icons in
  let w' := (convert_svgs_to_png HeroiconsScripts.failing_rsvg
               HeroiconsScripts.glob_svg "generated_assets" 32 w).2 in
  exists (runs : list (Tool * string * string)) (lines : list Line),
    ran w' = runs ++ ran w /\
    printed w' = lines ++ printed w /\
    Forall (fun run => run.1.1 = rsvg_convert) runs /\
    Forall (fun line => is_fallback_line line = false) lines /\
    (length runs <= length (HeroiconsScripts.glob_svg (fs w)))%nat.
Proof.
  apply (convert_svgs_rsvg_failure_has_no_fallback
           HeroiconsScripts.failing_rsvg HeroiconsScripts.glob_svg
           "generated_assets" 32 HeroiconsScripts.two_icons _
           (convert_svgs_to_png HeroiconsScripts.failing_rsvg
              HeroiconsScripts.glob_svg "generated_assets" 32
              HeroiconsScripts.two_icons).1).
  - apply failing_rsvg_installed.
  - apply surjective_pairing.
Defined.

(** With the side 0 Pillow does not write the square: on the machine with
    neither converter the icon is left without a PNG and the error is
    printed. *)
Example empty_square_leaves_no_png :
  let w' := (convert_svgs_to_png HeroiconsScripts.no_converter
               HeroiconsScripts.glob_svg "generated_assets" 0
               HeroiconsScripts.two_icons).2 in
  fs w' !! "generated_assets/item_ci_pass.png"%string = None /\
  printed w' !! 2%nat = Some (ErrorConverting "item_ci_pass.svg" SaveError).
Proof. vm_compute. split; reflexivity. Qed.

(** On the machine whose [rsvg-convert] fails, the icon without a PNG is
    left without one, although [inkscape] would have converted it. *)
Example failing_rsvg_leaves_no_png :
  fs (convert_svgs_to_png HeroiconsScripts.failing_rsvg
        HeroiconsScripts.glob_svg "generated_assets" 32
        HeroiconsScripts.two_icons).2
  !! "generated_assets/item_ci_pass.png"%string = None.
Proof. vm_compute. reflexivity. Qed.

End HeroiconsProofs.
